(** * plaatobbc: the API client's normalisation pass and the sensor values

    A shallow embedding of [custom_components/plaatobbc/api.py] and
    [custom_components/plaatobbc/sensor.py].

    Python values are an inductive type, dictionaries decoded from JSON are
    association lists in arrival order, the three dictionaries the client
    builds itself are finite maps, [float] is IEEE-754 binary64 through
    [SpecFloat], and the network is an oracle threaded through a small
    state-and-exception monad.  Characters are code points below 256. *)

From Stdlib Require Import ZArith Ascii String List Bool Lia.
From Stdlib Require Import DecimalString SpecFloat.
From stdpp Require Import gmap strings list.

Local Open Scope Z_scope.

(** ** Exceptions and results *)

Inductive exn : Type :=
| HTTPError (status : Z)
| TimeoutError
| AttributeError
| TypeError
| ValueError
| OverflowError.

Inductive result (A : Type) : Type :=
| Ok (a : A)
| Raise (e : exn).

Arguments Ok {A} a.
Arguments Raise {A} e.

Definition rbind {A B : Type} (r : result A) (k : A -> result B) : result B :=
  match r with
  | Ok a => k a
  | Raise e => Raise e
  end.

(** ** Python values *)

Module Py.

(** The values [json.loads] produces: [None], [bool], [int], [float], [str],
    [list] and [dict] with string keys. *)
#[warnings="-register-all"]
Inductive pyval : Type :=
| PNone
| PBool (b : bool)
| PInt (n : Z)
| PFloat (x : spec_float)
| PStr (s : string)
| PList (items : list pyval)
| PDict (entries : list (string * pyval)).

Definition dict : Type := list (string * pyval).

Definition is_none (v : pyval) : bool :=
  match v with PNone => true | _ => false end.

Definition is_dict (v : pyval) : bool :=
  match v with PDict _ => true | _ => false end.

(** [isinstance(v, (str, int))]: [bool] is a subclass of [int]. *)
Definition is_str_or_int (v : pyval) : bool :=
  match v with PStr _ | PInt _ | PBool _ => true | _ => false end.

(** [isinstance(v, (int, float))]. *)
Definition is_int_or_float (v : pyval) : bool :=
  match v with PInt _ | PBool _ | PFloat _ => true | _ => false end.

Definition float_is_zero (x : spec_float) : bool :=
  match x with S754_zero _ => true | _ => false end.

(** [bool(v)]. *)
Definition truthy (v : pyval) : bool :=
  match v with
  | PNone => false
  | PBool b => b
  | PInt n => negb (n =? 0)
  | PFloat x => negb (float_is_zero x)
  | PStr s => negb (String.eqb s EmptyString)
  | PList l => match l with [] => false | _ => true end
  | PDict d => match d with [] => false | _ => true end
  end.

(** [a or b]. *)
Definition py_or (a b : pyval) : pyval := if truthy a then a else b.

(** [d[k]] as an option. *)
Fixpoint dict_lookup (d : dict) (k : string) : option pyval :=
  match d with
  | [] => None
  | (k', v) :: d' => if String.eqb k' k then Some v else dict_lookup d' k
  end.

(** [d.get(k)]. *)
Definition dict_get (d : dict) (k : string) : pyval :=
  match dict_lookup d k with Some v => v | None => PNone end.

(** [k in d]. *)
Definition dict_mem (d : dict) (k : string) : bool :=
  match dict_lookup d k with Some _ => true | None => false end.

(** [v.get(k)] on any value: only a [dict] has the method. *)
Definition py_get (v : pyval) (k : string) : result pyval :=
  match v with
  | PDict d => Ok (dict_get d k)
  | _ => Raise AttributeError
  end.

(** [for x in v]: the items a [for] loop visits. *)
Definition py_iter (v : pyval) : result (list pyval) :=
  match v with
  | PList l => Ok l
  | PDict d => Ok (map (fun kv => PStr (fst kv)) d)
  | PStr s => Ok (map (fun c => PStr (String c EmptyString)) (list_ascii_of_string s))
  | _ => Raise TypeError
  end.

(** *** Characters and [str.strip] *)

Definition code (c : ascii) : Z := Z.of_N (N_of_ascii c).

(** [str.isspace] on one character. *)
Definition is_space (c : ascii) : bool :=
  let n := code c in
  ((9 <=? n) && (n <=? 13)) || ((28 <=? n) && (n <=? 32))
  || (n =? 133) || (n =? 160).

Fixpoint lstrip_by (p : ascii -> bool) (s : string) : string :=
  match s with
  | EmptyString => EmptyString
  | String c s' => if p c then lstrip_by p s' else s
  end.

Fixpoint rstrip_by (p : ascii -> bool) (s : string) : string :=
  match s with
  | EmptyString => EmptyString
  | String c s' =>
      match rstrip_by p s' with
      | EmptyString => if p c then EmptyString else String c EmptyString
      | r => String c r
      end
  end.

Definition strip_by (p : ascii -> bool) (s : string) : string :=
  rstrip_by p (lstrip_by p s).

(** [s.strip()]. *)
Definition strip (s : string) : string := strip_by is_space s.

(** [s.rstrip(ch)] for a one-character [ch]. *)
Definition rstrip_char (ch : ascii) (s : string) : string :=
  rstrip_by (fun c => Ascii.eqb c ch) s.

Fixpoint drop (n : nat) (s : string) : string :=
  match n, s with
  | O, _ => s
  | S n', String _ s' => drop n' s'
  | S _, EmptyString => EmptyString
  end.

(** [s.replace(old, new)] for a one-character [old]. *)
Fixpoint replace_char (old : ascii) (new : string) (s : string) : string :=
  match s with
  | EmptyString => EmptyString
  | String c s' =>
      if Ascii.eqb c old then new +:+ replace_char old new s'
      else String c (replace_char old new s')
  end.

Fixpoint join (sep : string) (l : list string) : string :=
  match l with
  | [] => EmptyString
  | [x] => x
  | x :: l' => x +:+ sep +:+ join sep l'
  end.

(** *** Decimal digits *)

Definition digit_of_char (c : ascii) : option Z :=
  let n := code c in
  if (48 <=? n) && (n <=? 57) then Some (n - 48) else None.

Definition char_of_digit (d : Z) : ascii := ascii_of_N (Z.to_N (48 + d)).

(** Splits off the longest prefix of ASCII digits. *)
Fixpoint span_digits (s : string) : list Z * string :=
  match s with
  | EmptyString => ([], EmptyString)
  | String c s' =>
      match digit_of_char c with
      | Some d => let '(ds, r) := span_digits s' in (d :: ds, r)
      | None => ([], s)
      end
  end.

Definition digits_value (ds : list Z) : Z :=
  fold_left (fun acc d => 10 * acc + d) ds 0.

(** [str(n)] for an [int]. *)
Definition int_str (n : Z) : string := NilZero.string_of_int (Z.to_int n).

(** *** binary64 floats *)

Definition prec : Z := 53.
Definition emax : Z := 1024.

(** The nearest float to the rational [n / d] ([0 < n], [0 < d]), ties to
    even: the quotient is taken with at least 55 significant bits and the
    remainder's position decides the rounding. *)
Definition float_of_ratio (neg : bool) (n d : Z) : spec_float :=
  let k := Z.max 0 (Zdigits2 d + 56 - Zdigits2 n) in
  let '(q, r) := Z.div_eucl (Z.shiftl n k) d in
  binary_round_aux prec emax neg q (- k) (new_location d r).

(** [float(n)] for an [int]: the nearest float, [OverflowError] beyond the
    range. *)
Definition float_of_int (n : Z) : result spec_float :=
  match binary_normalize prec emax n 0 false with
  | S754_infinity _ => Raise OverflowError
  | x => Ok x
  end.

Definition float_of_bool (b : bool) : spec_float :=
  if b then S754_finite false 4503599627370496 (-52) else S754_zero false.

Definition lower (c : ascii) : ascii :=
  let n := code c in
  if (65 <=? n) && (n <=? 90) then ascii_of_N (Z.to_N (n + 32)) else c.

Fixpoint lower_string (s : string) : string :=
  match s with
  | EmptyString => EmptyString
  | String c s' => String (lower c) (lower_string s')
  end.

(** An optional leading sign. *)
Definition split_sign (s : string) : bool * string :=
  match s with
  | String "-" s' => (true, s')
  | String "+" s' => (false, s')
  | _ => (false, s)
  end.

(** Underscores of a numeric literal: each one stands between two digits;
    the result is the text without them. *)
Fixpoint strip_underscores (prev : option ascii) (s : string) : option string :=
  match s with
  | EmptyString =>
      match prev with Some "_"%char => None | _ => Some EmptyString end
  | String c s' =>
      if Ascii.eqb c "_" then
        match prev with
        | Some p =>
            match digit_of_char p with
            | Some _ => strip_underscores (Some c) s'
            | None => None
            end
        | None => None
        end
      else
        match prev, digit_of_char c with
        | Some "_"%char, None => None
        | _, _ => option_map (String c) (strip_underscores (Some c) s')
        end
  end.

(** The exponent part of a decimal literal: nothing, or [e] or [E] with an
    optional sign and at least one digit, up to the end of the text. *)
Definition parse_exponent (s : string) : option Z :=
  match s with
  | EmptyString => Some 0
  | String c s' =>
      if Ascii.eqb (lower c) "e" then
        let '(eneg, s1) := split_sign s' in
        match span_digits s1 with
        | ((_ :: _) as ds, EmptyString) =>
            Some (if eneg then - digits_value ds else digits_value ds)
        | _ => None
        end
      else None
  end.

(** The value [m * 10 ^ e] as a float. *)
Definition float_of_decimal (neg : bool) (m e : Z) : spec_float :=
  if m =? 0 then S754_zero neg
  else if 0 <=? e then float_of_ratio neg (m * 10 ^ e) 1
  else float_of_ratio neg m (10 ^ (- e)).

(** A decimal literal: digits with an optional point (at least one digit in
    all) and an optional exponent. *)
Definition parse_decimal (neg : bool) (s : string) : option spec_float :=
  let '(ip, s1) := span_digits s in
  let '(fp, s2) :=
    match s1 with
    | String "." r => span_digits r
    | _ => ([], s1)
    end in
  match ip ++ fp with
  | [] => None
  | ds =>
      match parse_exponent s2 with
      | Some e => Some (float_of_decimal neg (digits_value ds) (e - Z.of_nat (length fp)))
      | None => None
      end
  end.

(** [inf], [infinity] and [nan] in any case. *)
Definition parse_inf_nan (neg : bool) (s : string) : option spec_float :=
  let l := lower_string s in
  if String.eqb l "inf" || String.eqb l "infinity" then Some (S754_infinity neg)
  else if String.eqb l "nan" then Some S754_nan
  else None.

(** The white space [float] itself skips at both ends of its argument: the
    separators 28 to 31 are white space for [str.strip] and not for [float]. *)
Definition is_float_space (c : ascii) : bool :=
  let n := code c in
  ((9 <=? n) && (n <=? 13)) || (n =? 32) || (n =? 133) || (n =? 160).

(** [float(s)] for a [str]; [None] stands for [ValueError]. *)
Definition float_of_str (s : string) : option spec_float :=
  match strip_underscores None (strip_by is_float_space s) with
  | None => None
  | Some t =>
      let '(neg, body) := split_sign t in
      match parse_decimal neg body with
      | Some x => Some x
      | None => parse_inf_nan neg body
      end
  end.

(** [n / d] rounded to the nearest integer, ties to even ([0 <= n], [0 < d]). *)
Definition round_half_even (n d : Z) : Z :=
  let '(q, r) := Z.div_eucl n d in
  match 2 * r ?= d with
  | Lt => q
  | Gt => q + 1
  | Eq => if Z.even q then q else q + 1
  end.

(** The magnitude of a finite float as a fraction. *)
Definition ratio_of_finite (m : positive) (e : Z) : Z * Z :=
  if 0 <=? e then (Z.pos m * 2 ^ e, 1) else (Z.pos m, 2 ^ (- e)).

(** [round(x)]: the nearest [int], ties to even. *)
Definition py_round (x : spec_float) : result Z :=
  match x with
  | S754_zero _ => Ok 0
  | S754_infinity _ => Raise OverflowError
  | S754_nan => Raise ValueError
  | S754_finite s m e =>
      let '(n, d) := ratio_of_finite m e in
      Ok (cond_Zopp s (round_half_even n d))
  end.

(** [round(x, ndigits)] for [0 <= ndigits]: the float nearest to [x] rounded
    to [ndigits] decimals. *)
Definition py_round_digits (x : spec_float) (ndigits : Z) : spec_float :=
  match x with
  | S754_finite s m e =>
      let '(n, d) := ratio_of_finite m e in
      let r := round_half_even (n * 10 ^ ndigits) d in
      if r =? 0 then S754_zero s else float_of_ratio s r (10 ^ ndigits)
  | _ => x
  end.

(** *** [repr] and [str] *)

(** [x >= 10 ^ j] for the fraction [x = n / d]. *)
Definition ratio_ge_pow10 (n d j : Z) : bool :=
  if 0 <=? j then d * 10 ^ j <=? n else d <=? n * 10 ^ (- j).

Fixpoint raise_exp10 (fuel : nat) (n d j : Z) : Z :=
  match fuel with
  | O => j
  | S fuel' => if ratio_ge_pow10 n d (j + 1) then raise_exp10 fuel' n d (j + 1) else j
  end.

(** The decimal exponent of [n / d]: the [j] with [10 ^ j <= n / d < 10 ^ (j + 1)],
    counted up from an under-estimate taken from the binary logarithms. *)
Definition exp10 (n d : Z) : Z :=
  let l := Z.log2 n - Z.log2 d - 1 in
  raise_exp10 8 n d (l * 30102 / 100000 - 1).

(** [floor (n / d / 10 ^ k)]. *)
Definition scaled_floor (n d k : Z) : Z :=
  if 0 <=? k then n / (d * 10 ^ k) else (n * 10 ^ (- k)) / d.

(** Whether the decimal [c * 10 ^ k] reads back as the float [x]. *)
Definition reads_back (x : spec_float) (c k : Z) : bool :=
  match x, float_of_decimal false c k with
  | S754_finite _ m e, S754_finite _ m' e' => Pos.eqb m m' && (e =? e')
  | _, _ => false
  end.

(** The [ndig]-digit decimals next to [n / d] that read back as [x]: the
    nearer one, the even one on a tie.  The result is the digit string as a
    number and the exponent of its last digit. *)
Definition shortest_with (x : spec_float) (n d : Z) (ndig : Z) : option (Z * Z) :=
  let k := exp10 n d - (ndig - 1) in
  let a := scaled_floor n d k in
  let b := a + 1 in
  let oka := reads_back x a k in
  let okb := reads_back x b k in
  (* the position of [n / d] between [a] and [b], as [2 * frac ?= 1] *)
  let '(sn, sd) := if 0 <=? k then (n, d * 10 ^ k) else (n * 10 ^ (- k), d) in
  let side := 2 * (sn - a * sd) ?= sd in
  match oka, okb with
  | false, false => None
  | true, false => Some (a, k)
  | false, true => Some (b, k)
  | true, true =>
      match side with
      | Lt => Some (a, k)
      | Gt => Some (b, k)
      | Eq => Some (if Z.even a then a else b, k)
      end
  end.

Fixpoint shortest_from (fuel : nat) (x : spec_float) (n d : Z) (ndig : Z) : Z * Z :=
  match fuel with
  | O => (0, 0)
  | S fuel' =>
      match shortest_with x n d ndig with
      | Some r => r
      | None => shortest_from fuel' x n d (ndig + 1)
      end
  end.

Fixpoint rstrip_zeros (fuel : nat) (c k : Z) : Z * Z :=
  match fuel with
  | O => (c, k)
  | S fuel' => if (c mod 10 =? 0) && negb (c =? 0) then rstrip_zeros fuel' (c / 10) (k + 1) else (c, k)
  end.

Fixpoint zeros (n : nat) : string :=
  match n with O => EmptyString | S n' => String "0" (zeros n') end.

Fixpoint take (n : nat) (s : string) : string :=
  match n, s with
  | S n', String c s' => String c (take n' s')
  | _, _ => EmptyString
  end.

(** [repr] layout of the digits [ds] with the decimal point [decpt] places
    after their start: plain notation for [-4 < decpt <= 16], exponent
    notation outside. *)
Definition float_layout (ds : string) (decpt : Z) : string :=
  let len := Z.of_nat (String.length ds) in
  if (decpt <=? -4) || (16 <? decpt) then
    let e := decpt - 1 in
    let mant :=
      match ds with
      | String c EmptyString => ds
      | String c r => String c (String "." r)
      | EmptyString => ds
      end in
    let es := int_str (Z.abs e) in
    mant +:+ String "e" (String (if e <? 0 then "-"%char else "+"%char)
      (if Z.abs e <? 10 then String "0" es else es))
  else if decpt <=? 0 then
    String "0" (String "." (zeros (Z.to_nat (- decpt)) +:+ ds))
  else if len <=? decpt then
    ds +:+ zeros (Z.to_nat (decpt - len)) +:+ String "." (String "0" EmptyString)
  else
    take (Z.to_nat decpt) ds +:+ String "." (drop (Z.to_nat decpt) ds).

(** [repr(x)] for a [float]: the shortest digits that read back as [x]. *)
Definition float_repr (x : spec_float) : string :=
  match x with
  | S754_nan => "nan"
  | S754_infinity s => if s then "-inf" else "inf"
  | S754_zero s => if s then "-0.0" else "0.0"
  | S754_finite s m e =>
      let '(n, d) := ratio_of_finite m e in
      let '(c0, k0) := shortest_from 17 x n d 1 in
      let '(c, k) := rstrip_zeros 400 c0 k0 in
      let ds := int_str c in
      let body := float_layout ds (k + Z.of_nat (String.length ds)) in
      if s then String "-" body else body
  end.

Definition hex_char (n : Z) : ascii :=
  if n <? 10 then char_of_digit n else ascii_of_N (Z.to_N (87 + n)).

Definition hex_escape (n : Z) : string :=
  String "\" (String "x" (String (hex_char (n / 16)) (String (hex_char (n mod 16)) EmptyString))).

(** [str.isprintable] on one character. *)
Definition is_printable (c : ascii) : bool :=
  let n := code c in
  ((32 <=? n) && (n <? 127)) || ((161 <=? n) && negb (n =? 173)).

Definition squote : ascii := "039".
Definition dquote : ascii := "034".

Fixpoint contains_char (ch : ascii) (s : string) : bool :=
  match s with
  | EmptyString => false
  | String c s' => Ascii.eqb c ch || contains_char ch s'
  end.

Fixpoint escape_chars (q : ascii) (s : string) : string :=
  match s with
  | EmptyString => EmptyString
  | String c s' =>
      let n := code c in
      let rest := escape_chars q s' in
      if Ascii.eqb c q || Ascii.eqb c "\" then String "\" (String c rest)
      else if n =? 9 then String "\" (String "t" rest)
      else if n =? 10 then String "\" (String "n" rest)
      else if n =? 13 then String "\" (String "r" rest)
      else if is_printable c then String c rest
      else hex_escape n +:+ rest
  end.

(** [repr(s)] for a [str]: single quotes unless the text has a single quote
    and no double quote. *)
Definition str_repr (s : string) : string :=
  let q := if contains_char squote s && negb (contains_char dquote s) then dquote else squote in
  String q (escape_chars q s +:+ String q EmptyString).

(** [repr(v)]. *)
Fixpoint py_repr (v : pyval) : string :=
  match v with
  | PNone => "None"
  | PBool b => if b then "True" else "False"
  | PInt n => int_str n
  | PFloat x => float_repr x
  | PStr s => str_repr s
  | PList l => String "[" (join ", " (map py_repr l) +:+ "]")
  | PDict d =>
      String "{" (join ", " (map (fun kv => str_repr (fst kv) +:+ ": " +:+ py_repr (snd kv)) d) +:+ "}")
  end.

(** [str(v)]. *)
Definition py_str (v : pyval) : string :=
  match v with
  | PStr s => s
  | _ => py_repr v
  end.

End Py.

(** ** The API client ([api.py]) *)

Module Api.

Import Py.

(** What [session.get] is called with. *)
Record request : Type := mk_request {
  url : string;
  headers : list (string * string);
  params : option (list (string * Z));
  timeout_total : Z
}.

(** [YourApiClient]: the fields [__init__] stores beside the session. *)
Record client : Type := mk_client {
  _base_url : string;
  _api_key : string
}.

(** [YourApiClient.__init__]. *)
Definition new_client (base_url api_key : string) : client :=
  mk_client (rstrip_char "/" base_url) api_key.

(** *** The pure helpers of [fetch_readings] *)

(** [pick(d, *keys)]: the first value among [keys] that is not [None]. *)
Fixpoint pick_keys (d : dict) (keys : list string) : pyval :=
  match keys with
  | [] => PNone
  | k :: keys' =>
      let v := dict_get d k in
      if is_none v then pick_keys d keys' else v
  end.

Definition pick (d : pyval) (keys : list string) : pyval :=
  match d with
  | PDict e => pick_keys e keys
  | _ => PNone
  end.

(** [as_float(v)]. *)
Definition as_float (v : pyval) : result pyval :=
  match v with
  | PNone => Ok PNone
  | PBool b => Ok (PFloat (float_of_bool b))
  | PInt n => rbind (float_of_int n) (fun x => Ok (PFloat x))
  | PFloat x => Ok (PFloat x)
  | PStr s =>
      match float_of_str (strip s) with
      | Some x => Ok (PFloat x)
      | None => Ok PNone
      end
  | PList _ | PDict _ => Ok PNone
  end.

(** [[x for x in l if isinstance(x, dict)]]. *)
Fixpoint only_dicts (l : list pyval) : list dict :=
  match l with
  | [] => []
  | PDict d :: l' => d :: only_dicts l'
  | _ :: l' => only_dicts l'
  end.

Fixpoint first_list_under (d : dict) (keys : list string) : option (list pyval) :=
  match keys with
  | [] => None
  | k :: keys' =>
      match dict_get d k with
      | PList l => Some l
      | _ => first_list_under d keys'
      end
  end.

(** [normalize_list_response(data)]. *)
Definition normalize_list_response (data : pyval) : list dict :=
  match data with
  | PList l => only_dicts l
  | PDict d =>
      match first_list_under d ["items"; "data"; "results"; "batches"] with
      | Some l => only_dicts l
      | None => []
      end
  | _ => []
  end.

(** The identifier of one element of a device list: the element itself when
    it is a [str] or an [int], the first truthy field among [keys] when it is
    a [dict]. *)
Definition item_id (keys : list string) (item : pyval) : list string :=
  if is_str_or_int item then [py_str item]
  else
    match item with
    | PDict d =>
        let v := fold_right (fun k rest => py_or (dict_get d k) rest) PNone keys in
        if truthy v then [py_str v] else []
    | _ => []
    end.

(** [collect_device_ids(container)].  The recursive call of the [dict]
    branch is made on a [list] only, so it runs the [list] branch. *)
Definition collect_device_ids (container : pyval) : list string :=
  match container with
  | PNone => []
  | PDict d =>
      flat_map (fun k => let v := dict_get d k in if truthy v then [py_str v] else [])
               ["proId"; "deviceId"; "id"; "_id"]
      ++ flat_map (fun k =>
                     match dict_get d k with
                     | PList l => flat_map (item_id ["id"; "deviceId"; "proId"; "_id"]) l
                     | _ => []
                     end)
                  ["items"; "data"; "devices"]
  | PList l => flat_map (item_id ["id"; "deviceId"; "proId"; "_id"]) l
  | PStr _ | PInt _ | PBool _ => [py_str container]
  | PFloat _ => []
  end.

(** [fer_name] of the fermenter loop. *)
Definition fermenter_name (fer : dict) : pyval :=
  py_or (dict_get fer "name")
    (py_or (dict_get fer "title") (py_or (dict_get fer "id") (PStr "Fermenter"))).

(** [possible] of the fermenter loop. *)
Definition fermenter_containers (fer : dict) : list pyval :=
  [ dict_get fer "devices";
    dict_get fer "device";
    if truthy (dict_get fer "proId") then PDict [("proId", dict_get fer "proId")] else PNone ].

Definition fermenter_device_ids (fer : dict) : list string :=
  flat_map collect_device_ids (fermenter_containers fer).

(** One turn of the fermenter loop. *)
Definition add_fermenter (m : gmap string string) (fer : dict) : gmap string string :=
  fold_left (fun m did => <[did := py_str (fermenter_name fer)]> m)
            (fermenter_device_ids fer) m.

(** [device_to_fermenter_name] after the loop. *)
Definition fermenter_names (fermenters : list dict) : gmap string string :=
  fold_left add_fermenter fermenters ∅.

(** [batch_label(batch)]. *)
Definition batch_label (batch : dict) : pyval :=
  py_or (dict_get batch "name")
    (py_or (dict_get batch "batchCode") (py_or (dict_get batch "id") (dict_get batch "_id"))).

Definition rank : Type := Z * Z * Z * string.

(** [batch_rank(batch)]. *)
Definition batch_rank (batch : dict) : rank :=
  let enabled := match dict_get batch "enabled" with PBool false => 0 | _ => 1 end in
  let not_archived := match dict_get batch "archived" with PBool true => 0 | _ => 1 end in
  let not_ended := if is_none (dict_get batch "end") then 1 else 0 in
  let recency :=
    py_str (py_or (dict_get batch "updatedAt")
              (py_or (dict_get batch "start")
                 (py_or (dict_get batch "createdAt") (PStr EmptyString)))) in
  (enabled, not_archived, not_ended, recency).

Definition rank_enabled (r : rank) : Z := fst (fst (fst r)).
Definition rank_not_archived (r : rank) : Z := snd (fst (fst r)).
Definition rank_not_ended (r : rank) : Z := snd (fst r).
Definition rank_recency (r : rank) : string := snd r.

(** The order of rank tuples: the first differing component decides. *)
Definition rank_compare (a b : rank) : comparison :=
  let '(a1, a2, a3, a4) := a in
  let '(b1, b2, b3, b4) := b in
  match a1 ?= b1 with
  | Eq =>
      match a2 ?= b2 with
      | Eq =>
          match a3 ?= b3 with
          | Eq => String.compare a4 b4
          | c => c
          end
      | c => c
      end
  | c => c
  end.

(** [a > b] on rank tuples. *)
Definition rank_gt (a b : rank) : bool :=
  match rank_compare a b with Gt => true | _ => false end.

(** [extract_device_ids_from_batch_devices(devices_field)]. *)
Definition extract_device_ids_from_batch_devices (devices_field : pyval) : list string :=
  match devices_field with
  | PList l => flat_map (item_id ["id"; "_id"; "deviceId"; "proId"]) l
  | _ => []
  end.

(** The body of the inner batch loop for one device identifier. *)
Definition offer_batch (batch : dict) (m : gmap string dict) (did : string) : gmap string dict :=
  match m !! did with
  | None => <[did := batch]> m
  | Some existing =>
      if negb (truthy (PDict existing)) || rank_gt (batch_rank batch) (batch_rank existing)
      then <[did := batch]> m
      else m
  end.

(** [dev_ids] of the batch loop. *)
Definition batch_device_ids (batch : dict) : list string :=
  extract_device_ids_from_batch_devices (dict_get batch "devices").

(** One turn of the batch loop. *)
Definition add_batch (m : gmap string dict) (batch : dict) : gmap string dict :=
  fold_left (offer_batch batch) (batch_device_ids batch) m.

(** [device_id_to_best_batch] after the loop. *)
Definition best_batches (batches : list dict) : gmap string dict :=
  fold_left add_batch batches ∅.

Definition temp_keys : list string :=
  ["temperature"; "temp"; "tempC"; "temperatureC"; "beerTemp"; "wortTemp"].
Definition sg_keys : list string :=
  ["density"; "sg"; "specificGravity"; "gravity"; "SG"].
Definition time_keys : list string :=
  ["time"; "timestamp"; "createdAt"; "date"].
Definition nested_keys : list string := ["reading"; "data"; "values"].

(** One level of unwrapping: the nested object under [reading], [data] or
    [values] when there is one. *)
Definition unwrap (v : pyval) : pyval :=
  let nested := pick v nested_keys in
  if is_dict nested then nested else v.

(** What one answer to a latest-reading request is taken for. *)
Fixpoint first_item_under (d : dict) (keys : list string) : option pyval :=
  match keys with
  | [] => None
  | k :: keys' =>
      match dict_get d k with
      | PList (x :: _) => Some x
      | _ => first_item_under d keys'
      end
  end.

Definition reading_of_response (data : pyval) : pyval :=
  match data with
  | PList l => match l with x :: _ => x | [] => PNone end
  | PDict d =>
      match first_item_under d ["items"; "readings"; "data"; "results"] with
      | Some x => x
      | None =>
          if existsb (dict_mem d)
               ["temperature"; "temp"; "density"; "sg"; "specificGravity"; "gravity"]
          then data else PNone
      end
  | _ => PNone
  end.

(** The candidate requests of [_get_latest_reading]. *)
Definition candidates (device_id : string) : list (string * list (string * Z)) :=
  [ ("/devices/" +:+ device_id +:+ "/readings", [("limit", 1)]);
    ("/devices/" +:+ device_id +:+ "/readings", [("take", 1)]);
    ("/devices/" +:+ device_id +:+ "/readings", [("pageSize", 1); ("page", 1)]);
    ("/devices/" +:+ device_id +:+ "/measurements", [("limit", 1)]) ].

(** The parameter variants the batch request is tried with. *)
Definition batch_variants : list (option (list (string * Z))) :=
  [None; Some [("limit", 200)]; Some [("take", 200)]; Some [("pageSize", 200); ("page", 1)]].

(** The record [fetch_readings] stores for a device. *)
Definition reading_record (name battery wifi temp sg time fermenter batch : pyval) : pyval :=
  PDict [ ("name", name); ("batteryLevel", battery); ("wifiStrength", wifi);
          ("temperature", temp); ("density", sg); ("time", time);
          ("fermenter", fermenter); ("batch", batch) ].

(** *** The requests *)

Section Client.

Context {world : Type}.

(** The network: what [session.get(...)], [raise_for_status()] and [json()]
    give for a request, and the world after it. *)
Variable session_get : request -> world -> result pyval * world.

Definition M (A : Type) : Type := world -> result A * world.

Definition ret {A : Type} (a : A) : M A := fun w => (Ok a, w).

Definition bind {A B : Type} (m : M A) (k : A -> M B) : M B :=
  fun w =>
    match m w with
    | (Ok a, w') => k a w'
    | (Raise e, w') => (Raise e, w')
    end.

Definition lift {A : Type} (r : result A) : M A := fun w => (r, w).

(** [try: m except Exception: h]. *)
Definition try_except {A : Type} (m : M A) (h : M A) : M A :=
  fun w =>
    match m w with
    | (Ok a, w') => (Ok a, w')
    | (Raise _, w') => h w'
    end.

Notation "'let*' x ':=' m 'in' k" := (bind m (fun x => k))
  (at level 10, x name, m at level 100, k at level 200).

Variable self : client.

(** [_get(path, params)]. *)
Definition _get (path : string) (params : option (list (string * Z))) : M pyval :=
  session_get
    (mk_request (_base_url self +:+ path)
       [("x-plaato-api-key", _api_key self); ("Accept", "application/json")]
       params 20).

(** The loop of [_get_latest_reading]: a candidate that raises is skipped,
    the first one that answers decides. *)
Fixpoint try_candidates (cands : list (string * list (string * Z))) : M pyval :=
  match cands with
  | [] => ret PNone
  | (path, params) :: rest =>
      fun w =>
        match _get path (Some params) w with
        | (Raise _, w') => try_candidates rest w'
        | (Ok data, w') => (Ok (reading_of_response data), w')
        end
  end.

(** [_get_latest_reading(device_id)]. *)
Definition _get_latest_reading (device_id : string) : M pyval :=
  try_candidates (candidates device_id).

(** The fermenter request of [fetch_readings]. *)
Definition fetch_fermenters : M (list dict) :=
  try_except
    (let* data := _get "/fermenters" None in ret (normalize_list_response data))
    (ret []).

(** The batch loop of [fetch_readings] over the parameter variants. *)
Fixpoint fetch_batches_from (variants : list (option (list (string * Z))))
    (batches : list dict) : M (list dict) :=
  match variants with
  | [] => ret batches
  | params :: rest =>
      fun w =>
        match _get "/batches" params w with
        | (Ok raw, w') =>
            match normalize_list_response raw with
            | [] => fetch_batches_from rest [] w'
            | found => (Ok found, w')
            end
        | (Raise _, w') => fetch_batches_from rest batches w'
        end
  end.

Definition fetch_batches : M (list dict) := fetch_batches_from batch_variants [].

(** A value still missing after the first look is read again from a nested
    object: [latest[key]] with the fields [inner]. *)
Definition refine_nested (latest : pyval) (key : string) (inner : list string)
    (cur : pyval) : M pyval :=
  if is_none cur then
    let* field := lift (py_get latest key) in
    if is_dict field then lift (as_float (pick field inner)) else ret cur
  else ret cur.

(** A value still missing is read from the secondary reading. *)
Definition from_reading (reading : pyval) (keys inner : list string) (cur : pyval) : M pyval :=
  if is_none cur then
    let v := pick reading keys in
    lift (if is_dict v then as_float (pick v inner) else as_float v)
  else ret cur.

(** The body of the device loop of [fetch_readings]. *)
Definition process_device (ferm : gmap string string) (best : gmap string dict)
    (out : gmap string pyval) (dev : pyval) : M (gmap string pyval) :=
  let* dev_id := lift (py_get dev "id") in
  if negb (truthy dev_id) then ret out
  else
    let dev_id := py_str dev_id in
    let* latest := lift (py_get dev "latestReading") in
    let latest := unwrap (py_or latest (PDict [])) in
    let* temp := lift (as_float (pick latest temp_keys)) in
    let* sg := lift (as_float (pick latest sg_keys)) in
    let time := py_or (pick latest time_keys) (pick dev ["latestReadingTime"]) in
    let* temp := refine_nested latest "temperature" ["celsius"; "fahrenheit"] temp in
    let* sg := refine_nested latest "density" ["specificGravity"; "plato"] sg in
    let* found :=
      if is_none temp || is_none sg then
        let* reading := _get_latest_reading dev_id in
        if is_dict reading then
          let reading := unwrap reading in
          let* temp := from_reading reading temp_keys ["celsius"; "fahrenheit"] temp in
          let* sg := from_reading reading sg_keys ["specificGravity"; "plato"] sg in
          ret (temp, sg, py_or time (pick reading time_keys))
        else ret (temp, sg, time)
      else ret (temp, sg, time) in
    let '(temp, sg, time) := found in
    let* name := lift (py_get dev "name") in
    let fermenter := match ferm !! dev_id with Some n => PStr n | None => PNone end in
    let batch := match best !! dev_id with Some b => batch_label b | None => PNone end in
    ret (<[dev_id :=
             reading_record
               (py_or name (PStr ("Plaato " +:+ dev_id)))
               (pick dev ["batteryLevel"; "battery"; "battery_percent"])
               (pick dev ["wifiStrength"; "rssi"; "signal"])
               temp sg time fermenter batch]> out).

(** The device loop. *)
Fixpoint process_devices (ferm : gmap string string) (best : gmap string dict)
    (devs : list pyval) (out : gmap string pyval) : M (gmap string pyval) :=
  match devs with
  | [] => ret out
  | dev :: devs' =>
      let* out' := process_device ferm best out dev in
      process_devices ferm best devs' out'
  end.

(** [fetch_readings] once the three collections are there. *)
Definition build_output (devices : pyval) (fermenters batches : list dict)
    : M (gmap string pyval) :=
  let ferm := fermenter_names fermenters in
  let best := best_batches batches in
  let* devs := lift (py_iter (py_or devices (PList []))) in
  process_devices ferm best devs ∅.

(** [fetch_readings()]. *)
Definition fetch_readings : M (gmap string pyval) :=
  let* devices := _get "/devices" None in
  let* fermenters := fetch_fermenters in
  let* batches := fetch_batches in
  build_output devices fermenters batches.

End Client.

End Api.

(** ** [datetime.datetime] and [datetime.fromisoformat]

    The parser follows CPython 3.11, which reads the UTF-8 bytes of the text
    with a cursor; reading at or past the end yields the terminating zero. *)

Module Datetime.

Import Py.

Record datetime : Type := mk_datetime {
  year : Z; month : Z; day : Z;
  hour : Z; minute : Z; second : Z; microsecond : Z;
  (** [tzinfo]: the UTC offset in microseconds of an aware value *)
  tzinfo : option Z
}.

Definition utf8_char (c : ascii) : list Z :=
  let n := code c in
  if n <? 128 then [n] else [192 + n / 64; 128 + n mod 64].

Fixpoint utf8 (s : string) : list Z :=
  match s with
  | EmptyString => []
  | String c s' => utf8_char c ++ utf8 s'
  end.

Definition at_ (b : list Z) (i : nat) : Z := nth i b 0.

Definition is_digit (c : Z) : bool := (48 <=? c) && (c <=? 57).

(** [parse_digits]: [n] digits from position [p]; the value and the position
    after them. *)
Fixpoint parse_digits (b : list Z) (p : nat) (n : nat) (acc : Z) : option (Z * nat) :=
  match n with
  | O => Some (acc, p)
  | S n' =>
      let c := at_ b p in
      if is_digit c then parse_digits b (S p) n' (10 * acc + (c - 48)) else None
  end.

Definition is_leap (y : Z) : bool :=
  (y mod 4 =? 0) && (negb (y mod 100 =? 0) || (y mod 400 =? 0)).

Definition days_in_month (y m : Z) : Z :=
  if (m =? 2) then (if is_leap y then 29 else 28)
  else if (m =? 4) || (m =? 6) || (m =? 9) || (m =? 11) then 30 else 31.

Fixpoint days_before_month_aux (y : Z) (m : nat) : Z :=
  match m with
  | O => 0
  | S m' => days_before_month_aux y m' + days_in_month y (Z.of_nat m)
  end.

(** Days of the year before the first of month [m]. *)
Definition days_before_month (y m : Z) : Z :=
  days_before_month_aux y (Z.to_nat (m - 1)).

Definition days_before_year (y : Z) : Z :=
  let y1 := y - 1 in
  y1 * 365 + y1 / 4 - y1 / 100 + y1 / 400.

Definition ymd_to_ord (y m d : Z) : Z :=
  days_before_year y + days_before_month y m + d.

Definition DI400Y : Z := 146097.
Definition DI100Y : Z := 36524.
Definition DI4Y : Z := 1461.

Fixpoint month_of_day (fuel : nat) (y m n : Z) : Z * Z :=
  match fuel with
  | O => (m, n + 1)
  | S fuel' =>
      let dim := days_in_month y m in
      if n <? dim then (m, n + 1) else month_of_day fuel' y (m + 1) (n - dim)
  end.

(** [ord_to_ymd] for a proleptic ordinal [1 <= ordinal]. *)
Definition ord_to_ymd (ordinal : Z) : Z * Z * Z :=
  let o := ordinal - 1 in
  let n400 := o / DI400Y in
  let n := o mod DI400Y in
  let n100 := n / DI100Y in
  let n := n mod DI100Y in
  let n4 := n / DI4Y in
  let n := n mod DI4Y in
  let n1 := n / 365 in
  let n := n mod 365 in
  let y := n400 * 400 + 1 + n100 * 100 + n4 * 4 + n1 in
  if (n1 =? 4) || (n100 =? 4) then (y - 1, 12, 31)
  else let '(m, d) := month_of_day 12 y 1 n in (y, m, d).

Definition weekday (y m d : Z) : Z := (ymd_to_ord y m d + 6) mod 7.

Definition iso_week1_monday (y : Z) : Z :=
  let first_day := ymd_to_ord y 1 1 in
  let first_weekday := (first_day + 6) mod 7 in
  let week1_monday := first_day - first_weekday in
  if 3 <? first_weekday then week1_monday + 7 else week1_monday.

(** [iso_to_ymd]: an ISO week date as a calendar date. *)
Definition iso_to_ymd (iso_year iso_week iso_day : Z) : option (Z * Z * Z) :=
  let week_ok :=
    if (iso_week <=? 0) || (53 <=? iso_week) then
      (iso_week =? 53) &&
      (let fw := weekday iso_year 1 1 in (fw =? 3) || ((fw =? 2) && is_leap iso_year))
    else true in
  if negb week_ok then None
  else if (iso_day <=? 0) || (8 <=? iso_day) then None
  else if iso_year <? 1 then None
  else Some (ord_to_ymd (iso_week1_monday iso_year + (iso_week - 1) * 7 + iso_day - 1)).

Fixpoint skip_digits (fuel : nat) (b : list Z) (p : nat) : nat :=
  match fuel with
  | O => p
  | S fuel' => if is_digit (at_ b p) then skip_digits fuel' b (S p) else p
  end.

(** [_find_isoformat_datetime_separator]: where the date part ends. *)
Definition find_separator (b : list Z) : option nat :=
  let len := length b in
  let dash := 45 in
  let W := 87 in
  if Nat.eqb len 7 then Some 7%nat
  else if at_ b 4 =? dash then
    if at_ b 5 =? W then
      if Nat.ltb len 8 then None
      else if Nat.ltb 8 len && (at_ b 8 =? dash) then
        if Nat.eqb len 9 then None
        else if Nat.ltb 10 len && is_digit (at_ b 10) then Some 8%nat
        else Some 10%nat
      else Some 8%nat
    else Some 10%nat
  else if at_ b 4 =? W then
    let idx := skip_digits (len - 7) b 7 in
    if Nat.ltb idx 9 then Some idx
    else if Nat.even idx then Some 7%nat else Some 8%nat
  else Some 8%nat.

(** [parse_isoformat_date]: the date of [sep] bytes at the start. *)
Definition parse_isoformat_date (b : list Z) (sep : nat) : option (Z * Z * Z) :=
  match parse_digits b 0 4 0 with
  | None => None
  | Some (y, p) =>
      let uses_separator := at_ b p =? 45 in
      let p := if uses_separator then S p else p in
      if at_ b p =? 87 then
        match parse_digits b (S p) 2 0 with
        | None => None
        | Some (w, p) =>
            if Nat.ltb p sep then
              if uses_separator && negb (at_ b p =? 45) then None
              else
                let p := if uses_separator then S p else p in
                match parse_digits b p 1 0 with
                | None => None
                | Some (d, _) => iso_to_ymd y w d
                end
            else iso_to_ymd y w 1
        end
      else
        match parse_digits b p 2 0 with
        | None => None
        | Some (m, p) =>
            if uses_separator && negb (at_ b p =? 45) then None
            else
              let p := if uses_separator then S p else p in
              match parse_digits b p 2 0 with
              | None => None
              | Some (d, _) => Some (y, m, d)
              end
        end
  end.

Definition correction (to_parse : nat) : Z :=
  match to_parse with
  | 1%nat => 100000
  | 2%nat => 10000
  | 3%nat => 1000
  | 4%nat => 100
  | 5%nat => 10
  | _ => 1
  end.

(** The fraction after the seconds, from position [p]: the microseconds
    and whether text is left after the digits. *)
Definition parse_fraction (b : list Z) (p p_end : nat) : option (Z * bool) :=
  let len_remains := (p_end - p)%nat in
  let to_parse := Nat.min len_remains 6 in
  match parse_digits b p to_parse 0 with
  | None => None
  | Some (us, p') =>
      let p'' := skip_digits (length b) b p' in
      Some (us * correction to_parse, negb (at_ b p'' =? 0))
  end.

(** [parse_hh_mm_ss_ff] between [p] and [p_end]: hours, minutes, seconds,
    microseconds, and whether text is left. *)
Fixpoint parse_hms (fuel : nat) (b : list Z) (p p_end : nat) (first : bool)
    (has_separator : bool) (acc : list Z) : option (list Z * Z * bool) :=
  match fuel with
  | O =>
      match parse_fraction b p p_end with
      | Some (us, more) => Some (acc, us, more)
      | None => None
      end
  | S fuel' =>
      match parse_digits b p 2 0 with
      | None => None
      | Some (v, p1) =>
          let c := at_ b p1 in
          let p2 := S p1 in
          let has_separator := if first then c =? 58 else has_separator in
          let acc := acc ++ [v] in
          if Nat.leb p_end p2 then Some (acc, 0, negb (c =? 0))
          else if has_separator && (c =? 58) then parse_hms fuel' b p2 p_end false has_separator acc
          else if (c =? 46) || (c =? 44) then
            match parse_fraction b p2 p_end with
            | Some (us, more) => Some (acc, us, more)
            | None => None
            end
          else if negb has_separator then parse_hms fuel' b p1 p_end false has_separator acc
          else None
      end
  end.

Definition parse_hh_mm_ss_ff (b : list Z) (p p_end : nat) : option (Z * Z * Z * Z * bool) :=
  match parse_hms 3 b p p_end true true [] with
  | None => None
  | Some (vals, us, more) => Some (nth 0 vals 0, nth 1 vals 0, nth 2 vals 0, us, more)
  end.

Definition is_tz_char (c : Z) : bool := (c =? 90) || (c =? 43) || (c =? 45).

(** The first position from [p] on, below [p_end], that holds [Z], [+] or
    [-]; the first position is looked at in any case. *)
Fixpoint find_tz (fuel : nat) (b : list Z) (p p_end : nat) : nat :=
  match fuel with
  | O => p
  | S fuel' =>
      if is_tz_char (at_ b p) then p
      else if Nat.ltb (S p) p_end then find_tz fuel' b (S p) p_end else S p
  end.

(** [parse_isoformat_time] from [p] to the end: the time of day and the
    offset in microseconds. *)
Definition parse_isoformat_time (b : list Z) (p : nat) : option (Z * Z * Z * Z * option Z) :=
  let p_end := length b in
  let tzpos := find_tz (S (length b)) b p p_end in
  match parse_hh_mm_ss_ff b p tzpos with
  | None => None
  | Some (h, mi, s, us, more) =>
      if Nat.eqb tzpos p_end then
        if more then None else Some (h, mi, s, us, None)
      else if at_ b tzpos =? 90 then
        if at_ b (S tzpos) =? 0 then Some (h, mi, s, us, Some 0) else None
      else
        let tzsign := if at_ b tzpos =? 45 then -1 else 1 in
        match parse_hh_mm_ss_ff b (S tzpos) p_end with
        | Some (th, tm, ts, tus, false) =>
            (* an offset of no whole second is UTC, whatever its fraction *)
            let secs := th * 3600 + tm * 60 + ts in
            Some (h, mi, s, us,
                  Some (if secs =? 0 then 0 else tzsign * (secs * 1000000 + tus)))
        | _ => None
        end
  end.

(** The range checks of the [datetime] and [timezone] constructors. *)
Definition valid_date (y m d : Z) : bool :=
  (1 <=? y) && (y <=? 9999) && (1 <=? m) && (m <=? 12)
  && (1 <=? d) && (d <=? days_in_month y m).

Definition valid_time (h mi s us : Z) : bool :=
  (0 <=? h) && (h <=? 23) && (0 <=? mi) && (mi <=? 59)
  && (0 <=? s) && (s <=? 59) && (0 <=? us) && (us <=? 999999).

Definition valid_offset (tz : option Z) : bool :=
  match tz with
  | None => true
  | Some off => (-86400000000 <? off) && (off <? 86400000000)
  end.

(** Bytes the separator takes: a UTF-8 sequence is as long as its first
    byte says. *)
Definition separator_width (c : Z) : nat :=
  if c <? 128 then 1%nat
  else if Z.land c 240 =? 224 then 3%nat
  else if Z.land c 240 =? 240 then 4%nat
  else 2%nat.

(** [datetime.fromisoformat] on the bytes of its argument. *)
Definition parse_bytes (b : list Z) : option datetime :=
  let len := length b in
  if Nat.ltb len 7 then None
  else
    match find_separator b with
    | None => None
    | Some sep =>
        match parse_isoformat_date b sep with
        | None => None
        | Some (y, m, d) =>
            let time :=
              if Nat.ltb sep len then
                parse_isoformat_time b (sep + separator_width (at_ b sep))
              else Some (0, 0, 0, 0, None) in
            match time with
            | None => None
            | Some (h, mi, sec, us, tz) =>
                if valid_offset tz && valid_date y m d && valid_time h mi sec us
                then Some (mk_datetime y m d h mi sec us tz)
                else None
            end
        end
    end.

(** [datetime.fromisoformat(s)]; [None] stands for [ValueError]. *)
Definition fromisoformat (s : string) : option datetime := parse_bytes (utf8 s).

End Datetime.

(** ** The sensor entities ([sensor.py]) *)

Module Sensor.

Import Py Datetime.

Inductive SensorDeviceClass : Type :=
| TEMPERATURE
| BATTERY
| SIGNAL_STRENGTH
| TIMESTAMP.

Inductive SensorStateClass : Type :=
| MEASUREMENT.

Record ReadingDef : Type := mk_reading {
  key : string;
  name : string;
  unit : option string;
  device_class : option SensorDeviceClass;
  state_class : option SensorStateClass
}.

Definition degree_celsius : string := String (ascii_of_N 176) "C".

Definition READINGS : list ReadingDef :=
  [ mk_reading "temperature" "Temperature" (Some degree_celsius) (Some TEMPERATURE) (Some MEASUREMENT);
    mk_reading "density" "Specific Gravity" (Some "SG") None (Some MEASUREMENT);
    mk_reading "gravity_points" "Gravity Points" (Some "pts") None (Some MEASUREMENT);
    mk_reading "batteryLevel" "Battery" (Some "%") (Some BATTERY) (Some MEASUREMENT);
    mk_reading "wifiStrength" "WiFi Strength" None (Some SIGNAL_STRENGTH) (Some MEASUREMENT);
    mk_reading "time" "Last Reading" None (Some TIMESTAMP) None;
    mk_reading "fermenter" "Fermenter" None None None;
    mk_reading "batch" "Current Batch" None None None ].

(** What a field of a device payload, or a sensor state, holds: a plain
    value or a [datetime]. *)
Inductive value : Type :=
| VPy (v : pyval)
| VDatetime (dt : datetime).

Definition payload : Type := list (string * value).

Fixpoint payload_lookup (d : payload) (k : string) : option value :=
  match d with
  | [] => None
  | (k', v) :: d' => if String.eqb k' k then Some v else payload_lookup d' k
  end.

(** [device_payload.get(k)]. *)
Definition payload_get (d : payload) (k : string) : value :=
  match payload_lookup d k with Some v => v | None => VPy PNone end.

(** A record of [fetch_readings] as the coordinator hands it on. *)
Definition payload_of_record (r : pyval) : payload :=
  match r with
  | PDict d => map (fun kv => (fst kv, VPy (snd kv))) d
  | _ => []
  end.

Definition float_one : spec_float := S754_finite false 4503599627370496 (-52).
Definition float_1000 : spec_float := S754_finite false 8796093022208000 (-43).

(** [float(v)] for [v] an [int] or a [float]. *)
Definition to_float (v : pyval) : result spec_float :=
  match v with
  | PBool b => Ok (float_of_bool b)
  | PInt n => float_of_int n
  | PFloat x => Ok x
  | _ => Raise TypeError
  end.

(** [round((float(sg) - 1.0) * 1000)]. *)
Definition gravity_points (sg : pyval) : result value :=
  rbind (to_float sg) (fun x =>
  rbind (py_round (SFmul prec emax (SFsub prec emax x float_one) float_1000)) (fun n =>
  Ok (VPy (PInt n)))).

(** [round(float(val), 4)]. *)
Definition rounded_gravity (val : pyval) : result value :=
  rbind (to_float val) (fun x => Ok (VPy (PFloat (py_round_digits x 4)))).

(** A [str] is first read as a float: the two numeric branches of
    [native_value] start alike and end in [finish]. *)
Definition numeric_state (finish : pyval -> result value) (v : value) : result value :=
  match v with
  | VPy (PStr s) =>
      match float_of_str (strip s) with
      | Some x => finish (PFloat x)
      | None => Ok (VPy PNone)
      end
  | VPy p => if is_int_or_float p then finish p else Ok (VPy PNone)
  | VDatetime _ => Ok (VPy PNone)
  end.

(** The timestamp branch of [native_value]. *)
Definition timestamp_state (val : value) : value :=
  match val with
  | VDatetime _ => val
  | VPy PNone => val
  | VPy (PStr s) =>
      match fromisoformat (replace_char "Z" "+00:00" s) with
      | Some dt => VDatetime dt
      | None => val
      end
  | _ => val
  end.

(** [(self.coordinator.data or {}).get(self._device_id) or {}]. *)
Definition device_payload (data : option (gmap string payload)) (device_id : string) : payload :=
  match data with
  | Some m => match m !! device_id with Some d => d | None => [] end
  | None => []
  end.

(** [native_value] of the sensor for [reading] of device [device_id], given
    [coordinator.data]. *)
Definition native_value (reading : ReadingDef) (device_id : string)
    (data : option (gmap string payload)) : result value :=
  let payload := device_payload data device_id in
  if String.eqb (key reading) "gravity_points" then
    numeric_state gravity_points (payload_get payload "density")
  else
    let val := payload_get payload (key reading) in
    if String.eqb (key reading) "density" then numeric_state rounded_gravity val
    else
      match device_class reading with
      | Some TIMESTAMP => Ok (timestamp_state val)
      | _ => Ok val
      end.

End Sensor.

(** ** The sensor platform ([sensor.py]): the entities of the setup *)

Module Platform.

Import Py Sensor.

(** [bool(v)] for a payload field: a [datetime] is always true. *)
Definition value_truthy (v : value) : bool :=
  match v with
  | VPy p => truthy p
  | VDatetime _ => true
  end.

(** [PlaatoReadingSensor]: the fields [__init__] sets.  Of the config entry
    only [entry_id] is read. *)
Record PlaatoReadingSensor : Type := mk_sensor {
  _entry : string;
  _device_id : string;
  _device_name : value;
  _reading : ReadingDef;
  _attr_name : string;
  _attr_unique_id : string;
  _attr_native_unit_of_measurement : option string;
  _attr_device_class : option SensorDeviceClass;
  _attr_state_class : option SensorStateClass
}.

(** [PlaatoReadingSensor.__init__]. *)
Definition new_sensor (entry_id device_id : string) (device_name : value)
    (reading : ReadingDef) : PlaatoReadingSensor :=
  mk_sensor entry_id device_id device_name reading
    (name reading)
    (entry_id +:+ "_" +:+ device_id +:+ "_" +:+ key reading)
    (unit reading) (device_class reading) (state_class reading).

(** [device_name] of [async_setup_entry]. *)
Definition device_name_of (device_id : string) (device_payload : payload) : value :=
  let n := payload_get device_payload "name" in
  if value_truthy n then n else VPy (PStr ("Plaato " +:+ device_id)).

(** [async_setup_entry]: the entities handed to [async_add_entities].
    [data] is [coordinator.data] as [items()] lists it, in insertion order
    and with distinct keys; the keys are [str] already. *)
Definition async_setup_entry (entry_id : string) (data : option (list (string * payload)))
    : list PlaatoReadingSensor :=
  flat_map
    (fun item =>
       map (new_sensor entry_id (fst item) (device_name_of (fst item) (snd item))) READINGS)
    (match data with Some items => items | None => [] end).

(** The dictionary [device_info] returns. *)
Record DeviceInfo : Type := mk_device_info {
  identifiers : list (string * string);
  info_name : value;
  manufacturer : string
}.

(** [PlaatoReadingSensor.device_info]; [DOMAIN] comes from [const.py]. *)
Definition device_info (DOMAIN : string) (s : PlaatoReadingSensor) : DeviceInfo :=
  mk_device_info [(DOMAIN, _device_id s)] (_device_name s) "Plaato".

End Platform.

(** ** The clients of the config flow ([config_flow.py]) and of the setup
       ([__init__.py]) *)

Module Setup.

Import Py Api.

(** [user_input] of the config flow, kept as [entry.data]. *)
Record user_input : Type := mk_user_input {
  base_url : string;
  api_key : string
}.

(** The client [async_step_user] validates the input with. *)
Definition validation_client (u : user_input) : client :=
  new_client (rstrip_char "/" (strip (base_url u))) (strip (api_key u)).

(** The client [async_setup_entry] of the integration polls with: it is made
    from [entry.data], which is the [user_input] as typed. *)
Definition setup_client (entry_data : user_input) : client :=
  new_client (base_url entry_data) (api_key entry_data).

End Setup.

(** * Vocabulary of the statements *)

Import Py Api Datetime Sensor.




(** [None] or a [float]. *)
Definition float_or_none (v : pyval) : Prop := v = PNone \/ exists x, v = PFloat x.

(** [None] or a [str]. *)
Definition str_or_none (v : pyval) : Prop := v = PNone \/ exists t, v = PStr t.

Definition is_str (v : pyval) : bool :=
  match v with PStr _ => true | _ => false end.

(** The record [rec] stored under [k] is the one the device loop builds from
    the device entry [dev]. *)
Definition record_of_device (dev : pyval) (k : string) (rec : pyval) : Prop :=
  exists (d : dict) (temp sg time fermenter batch : pyval),
    dev = PDict d /\ truthy (dict_get d "id") = true /\ k = py_str (dict_get d "id") /\
    rec = reading_record
            (py_or (dict_get d "name") (PStr ("Plaato " +:+ k)))
            (pick dev ["batteryLevel"; "battery"; "battery_percent"])
            (pick dev ["wifiStrength"; "rssi"; "signal"])
            temp sg time fermenter batch /\
    float_or_none temp /\ float_or_none sg /\ str_or_none fermenter.

(** A payload field that is neither a number nor a numeric text. *)
Definition non_numeric (v : value) : Prop :=
  match v with
  | VPy (PStr s) => float_of_str (strip s) = None
  | VPy p => is_int_or_float p = false
  | VDatetime _ => True
  end.

(** The keys of a [dict], in order. *)
Definition dict_keys (d : dict) : list string := map fst d.

(** A float written as its decimal literal. *)
Definition float_lit (s : string) : spec_float :=
  match float_of_str s with Some x => x | None => S754_nan end.

(** Two and four decimal digits before [rest]. *)
Definition digits2 (n : Z) (rest : string) : string :=
  String (char_of_digit (n / 10)) (String (char_of_digit (n mod 10)) rest).

Definition digits4 (n : Z) (rest : string) : string :=
  String (char_of_digit (n / 1000)) (String (char_of_digit (n / 100 mod 10))
    (digits2 (n mod 100) rest)).

(** The text [YYYY-MM-DDTHH:MM:SS] followed by [suffix]. *)
Definition iso_text (y mo d h mi s : Z) (suffix : string) : string :=
  digits4 y (String "-" (digits2 mo (String "-" (digits2 d (String "T"
    (digits2 h (String ":" (digits2 mi (String ":" (digits2 s suffix)))))))))).

(** The UTF-8 bytes of [YYYY-MM-DDTHH:MM:SS+00:00], digit by digit. *)
Definition ext_bytes (y1 y2 y3 y4 m1 m2 d1 d2 h1 h2 n1 n2 s1 s2 : Z) : list Z :=
  [48 + y1; 48 + y2; 48 + y3; 48 + y4; 45; 48 + m1; 48 + m2; 45; 48 + d1; 48 + d2; 84;
   48 + h1; 48 + h2; 58; 48 + n1; 48 + n2; 58; 48 + s1; 48 + s2; 43; 48; 48; 58; 48; 48].

(** Three decimal digits before [rest]. *)
Definition digits3 (n : Z) (rest : string) : string :=
  String (char_of_digit (n / 100)) (digits2 (n mod 100) rest).

(** The digits [ds] before [rest]. *)
Fixpoint digits_text (ds : list Z) (rest : string) : string :=
  match ds with
  | [] => rest
  | d :: ds' => String (char_of_digit d) (digits_text ds' rest)
  end.

(** The text [YYYY-MM-DDTHH:MM] followed by [suffix]. *)
Definition iso_minute_text (y mo d h mi : Z) (suffix : string) : string :=
  digits4 y (String "-" (digits2 mo (String "-" (digits2 d (String "T"
    (digits2 h (String ":" (digits2 mi suffix)))))))).

(** The text [YYYYMMDDTHHMMSS] followed by [suffix]. *)
Definition iso_basic_text (y mo d h mi s : Z) (suffix : string) : string :=
  digits4 y (digits2 mo (digits2 d (String "T" (digits2 h (digits2 mi (digits2 s suffix)))))).

(** The text [YYYY-DDDTHH:MM:SS] followed by [suffix]: an ordinal date. *)
Definition iso_ordinal_text (y n h mi s : Z) (suffix : string) : string :=
  digits4 y (String "-" (digits3 n (String "T"
    (digits2 h (String ":" (digits2 mi (String ":" (digits2 s suffix)))))))).

(** The UTF-8 bytes of [YYYY-MM-DDTHH:MM+00:00], digit by digit. *)
Definition min_bytes (y1 y2 y3 y4 m1 m2 d1 d2 h1 h2 n1 n2 : Z) : list Z :=
  [48 + y1; 48 + y2; 48 + y3; 48 + y4; 45; 48 + m1; 48 + m2; 45; 48 + d1; 48 + d2; 84;
   48 + h1; 48 + h2; 58; 48 + n1; 48 + n2; 43; 48; 48; 58; 48; 48].

(** The UTF-8 bytes of [YYYYMMDDTHHMMSS+00:00]. *)
Definition basic_bytes (y1 y2 y3 y4 m1 m2 d1 d2 h1 h2 n1 n2 s1 s2 : Z) : list Z :=
  [48 + y1; 48 + y2; 48 + y3; 48 + y4; 48 + m1; 48 + m2; 48 + d1; 48 + d2; 84;
   48 + h1; 48 + h2; 48 + n1; 48 + n2; 48 + s1; 48 + s2; 43; 48; 48; 58; 48; 48].

(** The UTF-8 bytes of [YYYY-DDDTHH:MM:SS+00:00]. *)
Definition ordinal_bytes (y1 y2 y3 y4 o1 o2 o3 h1 h2 n1 n2 s1 s2 : Z) : list Z :=
  [48 + y1; 48 + y2; 48 + y3; 48 + y4; 45; 48 + o1; 48 + o2; 48 + o3; 84;
   48 + h1; 48 + h2; 58; 48 + n1; 48 + n2; 58; 48 + s1; 48 + s2; 43; 48; 48; 58; 48; 48].

(** The UTF-8 bytes of [YYYY-MM-DDTHH:MM:SS.f+00:00] with the fraction
    digits [fs]. *)
Definition frac_bytes (y1 y2 y3 y4 m1 m2 d1 d2 h1 h2 n1 n2 s1 s2 : Z) (fs : list Z)
    : list Z :=
  [48 + y1; 48 + y2; 48 + y3; 48 + y4; 45; 48 + m1; 48 + m2; 45; 48 + d1; 48 + d2; 84;
   48 + h1; 48 + h2; 58; 48 + n1; 48 + n2; 58; 48 + s1; 48 + s2; 46]
  ++ map (Z.add 48) fs ++ [43; 48; 48; 58; 48; 48].

(** The days of the year [y]. *)
Definition days_in_year (y : Z) : Z := if is_leap y then 366 else 365.

(** Date and time of day in UTC as ISO 8601 writes them in the extended
    format, with the designator [Z]: the date as a calendar date or as an
    ordinal date. *)
Inductive iso_8601_utc : string -> Prop :=
| iso_calendar (y mo d h mi s : Z) :
    valid_date y mo d = true -> valid_time h mi s 0 = true ->
    iso_8601_utc (iso_text y mo d h mi s "Z")
| iso_ordinal (y n h mi s : Z) :
    1 <= y <= 9999 -> 1 <= n <= days_in_year y -> valid_time h mi s 0 = true ->
    iso_8601_utc (iso_ordinal_text y n h mi s "Z").

(** A scripted network for the examples: the world is the list of requests
    made so far, and a route table fixes the answers. *)
Definition route : Type := string * option (list (string * Z)) * result pyval.

Fixpoint answer (routes : list route) (r : request) : result pyval :=
  match routes with
  | [] => Raise (HTTPError 404)
  | (u, p, a) :: routes' =>
      if String.eqb (url r) u && bool_decide (params r = p) then a else answer routes' r
  end.

Definition serve (routes : list route) (r : request) (log : list request)
    : result pyval * list request :=
  (answer routes r, log ++ [r]).

Definition example_client : client := new_client "https://api.example/v1/" "key".

(** The answers of the examples. *)
Definition base : string := "https://api.example/v1".

Definition sample_reading : pyval :=
  PDict [("temperature", PFloat (float_lit "20.5")); ("density", PFloat (float_lit "1.05"))].

(** The first latest-reading request is answered by an empty list, the
    second one by a reading. *)
Definition empty_then_reading : list route :=
  [ (base +:+ "/devices/d1/readings", Some [("limit", 1)], Ok (PList []));
    (base +:+ "/devices/d1/readings", Some [("take", 1)], Ok (PList [sample_reading])) ].

(** One device with its reading embedded; [/fermenters] and [/batches] are
    not served. *)
Definition devices_only : list route :=
  [ (base +:+ "/devices", None,
     Ok (PList [PDict [("id", PStr "d1"); ("name", PStr "Fermenter 1");
                       ("latestReading", sample_reading)]])) ].

(** A device that carries nothing but its identifier; nothing else is
    served. *)
Definition bare_device : list route :=
  [ (base +:+ "/devices", None, Ok (PList [PDict [("id", PStr "d1")]])) ].

(** A device whose name is a number. *)
Definition numeric_name : list route :=
  [ (base +:+ "/devices", None,
     Ok (PList [PDict [("id", PStr "d1"); ("name", PInt 123);
                       ("latestReading", sample_reading)]])) ].

(** A device whose temperature is an integer beyond the floats. *)
Definition huge_temperature : list route :=
  [ (base +:+ "/devices", None,
     Ok (PList [PDict [("id", PStr "d1");
                       ("latestReading", PDict [("temperature", PInt (10 ^ 400))])]])) ].

(** Devices without a usable identifier next to one with it. *)
Definition falsy_ids : list route :=
  [ (base +:+ "/devices", None,
     Ok (PList [PDict [("name", PStr "no id")];
                PDict [("id", PNone)];
                PDict [("id", PStr EmptyString)];
                PDict [("id", PInt 0)];
                PDict [("id", PInt 7); ("latestReading", sample_reading)]])) ].

(** The end-to-end example of the specification. *)
Definition end_to_end : list route :=
  [ (base +:+ "/devices", None,
     Ok (PList [PDict [("id", PStr "d1"); ("name", PStr "Fermenter 1");
                       ("latestReading", sample_reading)]]));
    (base +:+ "/fermenters", None,
     Ok (PList [PDict [("name", PStr "FV1"); ("devices", PList [PStr "d1"])]]));
    (base +:+ "/batches", None,
     Ok (PList [PDict [("name", PStr "IPA"); ("devices", PList [PStr "d1"]);
                       ("enabled", PBool true)]])) ].

(** The field names of a record, in order. *)
Definition record_fields : list string :=
  ["name"; "batteryLevel"; "wifiStrength"; "temperature"; "density"; "time";
   "fermenter"; "batch"].

(** A decimal digit as a number. *)
Definition is_digit_value (d : Z) : Prop := 0 <= d <= 9.

(** Symbolic runs of the parser: a test on numbers is settled by [lia]. *)
Ltac resolve_test :=
  match goal with
  | |- context [Z.eqb ?a ?b] =>
      first [ rewrite (proj2 (Z.eqb_eq a b)) by lia | rewrite (proj2 (Z.eqb_neq a b)) by lia ]
  | |- context [Z.leb ?a ?b] =>
      first [ rewrite (proj2 (Z.leb_le a b)) by lia | rewrite (proj2 (Z.leb_gt a b)) by lia ]
  | |- context [Z.ltb ?a ?b] =>
      first [ rewrite (proj2 (Z.ltb_lt a b)) by lia | rewrite (proj2 (Z.ltb_ge a b)) by lia ]
  end.

Ltac run_parser :=
  repeat (repeat resolve_test;
          cbn -[Z.add Z.mul Z.sub Z.eqb Z.leb Z.ltb valid_date valid_time]).

(** ** Vocabulary of the further properties *)

(** A [list]. *)
Definition is_list (v : pyval) : bool :=
  match v with PList _ => true | _ => false end.

(** The first truthy identifier field of a list element is the same in the
    two orders the extractors read the fields in. *)
Definition one_identifier (item : pyval) : Prop :=
  match item with
  | PDict d =>
      truthy (dict_get d "id") = true \/ truthy (dict_get d "_id") = false
      \/ (truthy (dict_get d "deviceId") = false /\ truthy (dict_get d "proId") = false)
  | _ => True
  end.

(** The network with a journal: every request is written down, whatever the
    answer. *)
Definition logged {world : Type} (session_get : request -> world -> result pyval * world)
    (r : request) (w : world * list request) : result pyval * (world * list request) :=
  let '(a, w') := session_get r (fst w) in (a, (w', snd w ++ [r])).

(** The request [_get(path, params)] hands to the session. *)
Definition get_request (self : client) (path : string)
    (params : option (list (string * Z))) : request :=
  mk_request (_base_url self +:+ path)
    [("x-plaato-api-key", _api_key self); ("Accept", "application/json")] params 20.

(** The entries the device loop visits for a [/devices] answer. *)
Definition entries (devices : pyval) : list pyval :=
  match py_iter (py_or devices (PList [])) with
  | Ok l => l
  | Raise _ => []
  end.

(** The paths and parameters a poll cycle asks for once [/devices] has
    answered [devices]: the fermenters, the batches with one of the
    parameter variants, and the candidates of the latest reading of a device
    entry with a truthy [id]. *)
Inductive endpoint (devices : pyval) : string -> option (list (string * Z)) -> Prop :=
| fermenters_endpoint : endpoint devices "/fermenters" None
| batches_endpoint (p : option (list (string * Z))) :
    In p batch_variants -> endpoint devices "/batches" p
| reading_endpoint (d : dict) (c : string * list (string * Z)) :
    In (PDict d) (entries devices) -> truthy (dict_get d "id") = true ->
    In c (candidates (py_str (dict_get d "id"))) ->
    endpoint devices (fst c) (Some (snd c)).

(** A request of the client [self] for one of them. *)
Definition client_request (self : client) (devices : pyval) (r : request) : Prop :=
  exists path params, endpoint devices path params /\ r = get_request self path params.

(** The requests of the latest-reading lookup for [device_id] satisfy [P]. *)
Definition reading_requests (self : client) (P : request -> Prop) (device_id : string)
    : Prop :=
  forall c, In c (candidates device_id) -> P (get_request self (fst c) (Some (snd c))).

(** A computation over the journalled network adds at most [n] requests to
    the journal, all of them satisfying [P]. *)
Definition sends {world A : Type} (P : request -> Prop) (n : nat)
    (m : @M (world * list request) A) : Prop :=
  forall w log, exists rs,
    snd (snd (m (w, log))) = log ++ rs /\ Forall P rs /\ (length rs <= n)%nat.

(** The request with these parameters raises, or its answer holds no batch. *)
Definition no_batches_with {world : Type}
    (session_get : request -> world -> result pyval * world) (self : client)
    (p : option (list (string * Z))) : Prop :=
  forall w0,
    (exists e w1, _get session_get self "/batches" p w0 = (Raise e, w1))
    \/ (exists raw w1, _get session_get self "/batches" p w0 = (Ok raw, w1)
                       /\ normalize_list_response raw = []).

(** The record of [k] carries the fermenter and the batch the two
    associations hold for [k]. *)
Definition carries (ferm : gmap string string) (best : gmap string dict)
    (k : string) (rec : pyval) : Prop :=
  exists name battery wifi temp sg time,
    rec = reading_record name battery wifi temp sg time
            (match ferm !! k with Some n => PStr n | None => PNone end)
            (match best !! k with Some b => batch_label b | None => PNone end).

(** A [list] with an element. *)
Definition is_nonempty_list (v : pyval) : bool :=
  match v with PList (_ :: _) => true | _ => false end.

(** The value the device loop reads from a looked-up reading: the field
    under the first of [keys], or the first of [inner] in it when it is an
    object. *)
Definition reading_value (reading : pyval) (keys inner : list string) : result pyval :=
  let v := pick reading keys in
  if is_dict v then as_float (pick v inner) else as_float v.

(** The plain batch request is answered by an empty list, the one with
    [limit] by a batch. *)
Definition batches_on_second_request : list route :=
  [ (base +:+ "/batches", None, Ok (PList []));
    (base +:+ "/batches", Some [("limit", 200)],
     Ok (PDict [("items", PList [PDict [("name", PStr "IPA")]; PStr "x"])])) ].

(** The lookup of the reading of [d1] is answered by a reading with another
    temperature. *)
Definition reading_on_request : list route :=
  [ (base +:+ "/devices/d1/readings", Some [("limit", 1)],
     Ok (PList [PDict [("temperature", PFloat (float_lit "99.0"));
                       ("density", PFloat (float_lit "1.05"));
                       ("time", PStr "2024-06-01T12:00:00Z")]])) ].

(** Equality of floats as data: a NaN equals a NaN, the zeros differ. *)
Definition float_eqb (x y : spec_float) : bool :=
  match x, y with
  | S754_zero a, S754_zero b => Bool.eqb a b
  | S754_infinity a, S754_infinity b => Bool.eqb a b
  | S754_nan, S754_nan => true
  | S754_finite a m e, S754_finite b m' e' => Bool.eqb a b && Pos.eqb m m' && (e =? e')
  | _, _ => false
  end.

(** The integers from [start], [n] of them. *)
Fixpoint zrange (n : nat) (start : Z) : list Z :=
  match n with
  | O => []
  | S n' => start :: zrange n' (start + 1)
  end.

(** The float [float] reads from a decimal with [digits] decimals after the
    point, [n] being its digits as a number. *)
Definition decimal (n : Z) (digits : Z) : spec_float := float_of_decimal false n (- digits).

(** The text [d.dddd] of [n / 10000]. *)
Definition decimal4_text (n : Z) : string :=
  int_str (n / 10000) +:+ "." +:+ digits4 (n mod 10000) EmptyString.

(** A finite float or a zero. *)
Definition is_finite (x : spec_float) : bool :=
  match x with
  | S754_zero _ | S754_finite _ _ _ => true
  | _ => false
  end.

(** [(x - 1.0) * 1000] as [native_value] computes it. *)
Definition points_product (x : spec_float) : spec_float :=
  SFmul prec emax (SFsub prec emax x float_one) float_1000.

(** The density sensor keeps a four-decimal density, given as a float or as
    its text. *)
Definition density_kept (n : Z) : bool :=
  match numeric_state rounded_gravity (VPy (PFloat (decimal n 4))),
        numeric_state rounded_gravity (VPy (PStr (decimal4_text n))) with
  | Ok (VPy (PFloat x)), Ok (VPy (PFloat y)) =>
      float_eqb x (decimal n 4) && float_eqb y (decimal n 4)
  | _, _ => false
  end.

(** The gravity points of a three-decimal density are its thousandths above
    one. *)
Definition points_exact (n : Z) : bool :=
  match gravity_points (PFloat (decimal n 3)) with
  | Ok (VPy (PInt k)) => k =? n - 1000
  | _ => false
  end.

(** The gravity points of an [int] density are its thousandths above
    one. *)
Definition int_points_exact (n : Z) : bool :=
  match gravity_points (PInt n) with
  | Ok (VPy (PInt k)) => k =? (n - 1) * 1000
  | _ => false
  end.

(** The gravity points of a four-decimal density: the nearest integer to
    [(n - 10000) / 10], either neighbour on a tie. *)
Definition points_near (n : Z) : bool :=
  match gravity_points (PFloat (decimal n 4)) with
  | Ok (VPy (PInt k)) =>
      if (n - 10000) mod 10 =? 5 then (k =? (n - 10000) / 10) || (k =? (n - 10000) / 10 + 1)
      else k =? round_half_even (n - 10000) 10
  | _ => false
  end.

(** [s] ends with [suffix]. *)
Fixpoint ends_with (suffix s : string) : bool :=
  String.eqb s suffix
  || match s with
     | EmptyString => false
     | String _ s' => ends_with suffix s'
     end.

(** No key of [READINGS] ends in an underscore and another key. *)
Definition keys_apart : bool :=
  forallb (fun r1 =>
    forallb (fun r2 =>
      String.eqb (key r1) (key r2)
      || negb (ends_with (String "_" (key r1)) (String "_" (key r2))))
      READINGS)
    READINGS.

(** * Properties *)

(** ** The order of ranks *)









(** ** The batch association *)









(** ** The requests and the device loop *)

Section ClientFacts.

Context {world : Type}.
Variable session_get : request -> world -> result pyval * world.
Variable self : client.

Lemma bind_ok {A B : Type} (m : M A) (k : A -> M B) (w w' : world) (b : B) :
  bind m k w = (Ok b, w') ->
  exists a w1, m w = (Ok a, w1) /\ k a w1 = (Ok b, w').
Proof.
  unfold bind. destruct (m w) as [[a|e] w1]; [eauto | discriminate].
Qed.

Lemma lift_ok {A : Type} (r : result A) (w w' : world) (a : A) :
  lift r w = (Ok a, w') -> r = Ok a /\ w' = w.
Proof. unfold lift. intros [= -> ->]. split; reflexivity. Qed.

Lemma ret_ok {A : Type} (a a' : A) (w w' : world) :
  ret a w = (Ok a', w') -> a' = a /\ w' = w.
Proof. unfold ret. intros [= -> ->]. split; reflexivity. Qed.

Lemma as_float_shape (v r : pyval) : as_float v = Ok r -> float_or_none r.
Proof.
  unfold float_or_none.
  destruct v; simpl; try (intros [= <-]; eauto; fail).
  - destruct (float_of_int n); simpl; [intros [= <-]; eauto | discriminate].
  - destruct (float_of_str (strip s)); intros [= <-]; eauto.
Qed.

Lemma refine_nested_shape (latest : pyval) (key : string) (inner : list string)
    (cur r : pyval) (w w' : world) :
  float_or_none cur ->
  refine_nested latest key inner cur w = (Ok r, w') -> float_or_none r /\ w' = w.
Proof.
  unfold refine_nested. intros Hc.
  destruct (is_none cur).
  - intros H. apply bind_ok in H as (f & w1 & Hf & H).
    apply lift_ok in Hf as [_ ->].
    destruct (is_dict f).
    + apply lift_ok in H as [H ->]. split; [eapply as_float_shape; eassumption | reflexivity].
    + apply ret_ok in H as [-> ->]. auto.
  - intros H. apply ret_ok in H as [-> ->]. auto.
Qed.

Lemma from_reading_shape (reading : pyval) (keys inner : list string)
    (cur r : pyval) (w w' : world) :
  float_or_none cur ->
  from_reading reading keys inner cur w = (Ok r, w') -> float_or_none r /\ w' = w.
Proof.
  unfold from_reading. intros Hc.
  destruct (is_none cur).
  - intros H. apply lift_ok in H as [H ->].
    split; [|reflexivity].
    destruct (is_dict (pick reading keys)); eapply as_float_shape; eassumption.
  - intros H. apply ret_ok in H as [-> ->]. auto.
Qed.

Lemma process_device_ok (ferm : gmap string string) (best : gmap string dict)
    (out out' : gmap string pyval) (dev : pyval) (w w' : world) :
  process_device session_get self ferm best out dev w = (Ok out', w') ->
  (out' = out /\ w' = w /\ exists d, dev = PDict d /\ truthy (dict_get d "id") = false)
  \/ (exists k rec, out' = <[k := rec]> out /\ record_of_device dev k rec).
Proof.
  unfold process_device. intros H.
  apply bind_ok in H as (idv & w1 & Hid & H). apply lift_ok in Hid as [Hid ->].
  destruct dev as [| | | | |l|d]; try discriminate Hid.
  injection Hid as <-.
  destruct (truthy (dict_get d "id")) eqn:Htr; cbn [negb] in H.
  2: { apply ret_ok in H as [-> ->]. left. eauto. }
  right.
  apply bind_ok in H as (latest & w1 & Hl & H). apply lift_ok in Hl as [_ ->].
  apply bind_ok in H as (temp & w1 & Ht & H). apply lift_ok in Ht as [Ht ->].
  apply bind_ok in H as (sg & w1 & Hs & H). apply lift_ok in Hs as [Hs ->].
  apply as_float_shape in Ht, Hs.
  apply bind_ok in H as (temp2 & w1 & Ht2 & H).
  apply refine_nested_shape in Ht2 as [Ht2 ->]; [|assumption].
  apply bind_ok in H as (sg2 & w1 & Hs2 & H).
  apply refine_nested_shape in Hs2 as [Hs2 ->]; [|assumption].
  apply bind_ok in H as ([[temp3 sg3] time3] & w1 & Hf & H).
  apply bind_ok in H as (name & w2 & Hn & H). apply lift_ok in Hn as [[= <-] ->].
  apply ret_ok in H as [-> ->].
  assert (Hshape : float_or_none temp3 /\ float_or_none sg3).
  { destruct (is_none temp2 || is_none sg2).
    - apply bind_ok in Hf as (reading & w3 & _ & Hf).
      destruct (is_dict reading).
      + apply bind_ok in Hf as (t4 & w4 & Ht4 & Hf).
        apply from_reading_shape in Ht4 as [Ht4 ->]; [|assumption].
        apply bind_ok in Hf as (s4 & w5 & Hs4 & Hf).
        apply from_reading_shape in Hs4 as [Hs4 ->]; [|assumption].
        apply ret_ok in Hf as [[= -> -> ->] _]. auto.
      + apply ret_ok in Hf as [[= -> -> ->] _]. auto.
    - apply ret_ok in Hf as [[= -> -> ->] _]. auto. }
  destruct Hshape as [Ht3 Hs3].
  eexists _, _. split; [reflexivity|].
  exists d, temp3, sg3, time3.
  eexists _, _. repeat split; try eassumption; try reflexivity.
  unfold str_or_none. destruct (ferm !! _); eauto.
Qed.

Lemma process_devices_ok (ferm : gmap string string) (best : gmap string dict)
    (devs : list pyval) (out out' : gmap string pyval) (w w' : world) :
  process_devices session_get self ferm best devs out w = (Ok out', w') ->
  forall k rec, out' !! k = Some rec ->
    out !! k = Some rec \/ exists dev, In dev devs /\ record_of_device dev k rec.
Proof.
  revert out w. induction devs as [|dev devs IH]; intros out w H k rec Hk.
  - apply ret_ok in H as [-> _]. auto.
  - cbn [process_devices] in H.
    apply bind_ok in H as (out1 & w1 & Hd & H).
    destruct (IH _ _ H k rec Hk) as [Hin|(dev' & Hin & Hr)].
    + apply process_device_ok in Hd as [(-> & _ & _)|(k' & rec' & -> & Hr)]; [auto|].
      destruct (decide (k' = k)) as [->|Hne].
      * rewrite lookup_insert_eq in Hin. injection Hin as ->.
        right. exists dev. split; [left; reflexivity | exact Hr].
      * rewrite lookup_insert_ne in Hin by exact Hne. auto.
    + right. exists dev'. split; [right; exact Hin | exact Hr].
Qed.


Lemma py_or_truthy (a b : pyval) : truthy b = true -> truthy (py_or a b) = true.
Proof. unfold py_or. destruct (truthy a) eqn:Ha; auto. Qed.

Lemma fetch_fermenters_total (w : world) :
  exists fs w', fetch_fermenters session_get self w = (Ok fs, w').
Proof.
  unfold fetch_fermenters, try_except, bind, ret.
  destruct (_get session_get self "/fermenters" None w) as [[data|e] w1]; eauto.
Qed.

Lemma fetch_batches_from_total variants (bs : list dict) (w : world) :
  exists found w', fetch_batches_from session_get self variants bs w = (Ok found, w').
Proof.
  revert bs w. induction variants as [|p rest IH]; intros bs w; cbn [fetch_batches_from].
  - unfold ret. eauto.
  - destruct (_get session_get self "/batches" p w) as [[raw|e] w1]; [|apply IH].
    destruct (normalize_list_response raw); [apply IH | eauto].
Qed.

Lemma fetch_batches_from_all_fail variants (bs : list dict) (w : world) :
  (forall p w0, In p variants -> exists e w1, _get session_get self "/batches" p w0 = (Raise e, w1)) ->
  exists w', fetch_batches_from session_get self variants bs w = (Ok bs, w').
Proof.
  revert w. induction variants as [|p rest IH]; intros w Hfail; cbn [fetch_batches_from].
  - unfold ret. eauto.
  - destruct (Hfail p w (or_introl eq_refl)) as (e & w1 & ->).
    apply IH. intros p' w0 Hin. apply Hfail. right. exact Hin.
Qed.

Lemma fetch_readings_records (w w' : world) (out : gmap string pyval) :
  fetch_readings session_get self w = (Ok out, w') ->
  exists devices w1 devs,
    _get session_get self "/devices" None w = (Ok devices, w1)
    /\ py_iter (py_or devices (PList [])) = Ok devs
    /\ forall k rec, out !! k = Some rec ->
         exists dev, In dev devs /\ record_of_device dev k rec.
Proof.
  unfold fetch_readings. intros H.
  apply bind_ok in H as (devices & w1 & Hd & H).
  apply bind_ok in H as (fs & w2 & _ & H).
  apply bind_ok in H as (bs & w3 & _ & H).
  unfold build_output in H.
  apply bind_ok in H as (devs & w4 & Hi & H). apply lift_ok in Hi as [Hi ->].
  exists devices, w1, devs. repeat split; try assumption.
  intros k rec Hk.
  destruct (process_devices_ok _ _ _ _ _ _ _ H k rec Hk) as [Hin|Hex]; [|exact Hex].
  rewrite lookup_empty in Hin. discriminate.
Qed.

End ClientFacts.

(** ** The latest-reading lookup *)

Section LatestReading.

Context {world : Type}.
Variable session_get : request -> world -> result pyval * world.
Variable self : client.

(** The first candidate that does not raise ends the lookup, whatever it
    answered. *)
Lemma first_answer_decides (device_id : string) (w w1 : world) (data : pyval) :
  _get session_get self ("/devices/" +:+ device_id +:+ "/readings") (Some [("limit", 1)]) w
    = (Ok data, w1) ->
  _get_latest_reading session_get self device_id w = (Ok (reading_of_response data), w1).
Proof.
  intros H. unfold _get_latest_reading, candidates. cbn [try_candidates].
  rewrite H. reflexivity.
Qed.

Lemma empty_list_is_no_reading : reading_of_response (PList []) = PNone.
Proof. reflexivity. Qed.

End LatestReading.

(** C1 (the code departs from it): the first candidate answers with an empty
    list, the second one would answer with a reading; the lookup returns
    [None] after the first request alone. *)
Theorem latest_reading_stops_at_empty_list :
  _get_latest_reading (serve empty_then_reading) example_client "d1" [] =
    (Ok PNone,
     [mk_request (base +:+ "/devices/d1/readings")
        [("x-plaato-api-key", "key"); ("Accept", "application/json")]
        (Some [("limit", 1)]) 20])
  /\ answer empty_then_reading
       (mk_request (base +:+ "/devices/d1/readings")
          [("x-plaato-api-key", "key"); ("Accept", "application/json")]
          (Some [("take", 1)]) 20) = Ok (PList [sample_reading])
  /\ reading_of_response (PList [sample_reading]) = sample_reading.
Proof. repeat split; vm_compute; reflexivity. Qed.

(** ** The float parser *)

Lemma as_float_raises_only_on_overflow (v : pyval) (e : exn) :
  as_float v = Raise e ->
  exists n, v = PInt n /\ e = OverflowError /\ float_of_int n = Raise OverflowError.
Proof.
  destruct v; cbn [as_float]; try discriminate.
  - destruct (float_of_int n) as [x|e'] eqn:Hn; cbn [rbind]; [discriminate|].
    intros [= <-].
    assert (He : e' = OverflowError).
    { revert Hn. unfold float_of_int.
      destruct (binary_normalize prec emax n 0 false); congruence. }
    subst e'. exists n. auto.
  - destruct (float_of_str (strip s)); discriminate.
Qed.

Lemma as_float_none_cases (v : pyval) :
  match v with
  | PNone | PList _ | PDict _ => as_float v = Ok PNone
  | PFloat x => as_float v = Ok (PFloat x)
  | PBool b => as_float v = Ok (PFloat (float_of_bool b))
  | PStr s =>
      as_float v = match float_of_str (strip s) with
                   | Some x => Ok (PFloat x)
                   | None => Ok PNone
                   end
  | PInt n =>
      as_float v = match float_of_int n with
                   | Ok x => Ok (PFloat x)
                   | Raise e => Raise e
                   end
  end.
Proof. destruct v; reflexivity. Qed.

Lemma app_cons (c : ascii) (a b : string) : String c a +:+ b = String c (a +:+ b).
Proof. reflexivity. Qed.

Lemma app_nil (b : string) : EmptyString +:+ b = b.
Proof. reflexivity. Qed.

Lemma lstrip_by_spaces (p : ascii -> bool) (ws s : string) :
  lstrip_by p ws = EmptyString -> lstrip_by p (ws +:+ s) = lstrip_by p s.
Proof.
  induction ws as [|c ws IH]; rewrite ?app_cons, ?app_nil; cbn [lstrip_by]; [reflexivity|].
  destruct (p c); [exact IH | discriminate].
Qed.

Lemma rstrip_by_spaces (p : ascii -> bool) (s ws : string) :
  rstrip_by p ws = EmptyString -> rstrip_by p (s +:+ ws) = rstrip_by p s.
Proof.
  intros Hws. induction s as [|c s IH]; rewrite ?app_cons, ?app_nil; cbn [rstrip_by].
  - exact Hws.
  - rewrite IH. reflexivity.
Qed.

Lemma lstrip_by_keeps_tail (p : ascii -> bool) (s ws : string) :
  lstrip_by p s <> EmptyString -> lstrip_by p (s +:+ ws) = lstrip_by p s +:+ ws.
Proof.
  induction s as [|c s IH]; rewrite ?app_cons, ?app_nil; cbn [lstrip_by]; [congruence|].
  destruct (p c); [exact IH | reflexivity].
Qed.

Lemma lstrip_by_head (p : ascii -> bool) (s r : string) (c : ascii) :
  lstrip_by p s = String c r -> p c = false.
Proof.
  induction s as [|a s IH]; cbn [lstrip_by]; [discriminate|].
  destruct (p a) eqn:Ha; [exact IH|]. intros [= <- _]. exact Ha.
Qed.

Lemma rstrip_by_head (p : ascii -> bool) (r : string) (c : ascii) :
  p c = false -> rstrip_by p (String c r) <> EmptyString.
Proof.
  intros Hc. cbn [rstrip_by].
  destruct (rstrip_by p r); [rewrite Hc|]; discriminate.
Qed.

Lemma rstrip_by_all (p : ascii -> bool) (s : string) :
  lstrip_by p s = EmptyString -> rstrip_by p s = EmptyString.
Proof.
  induction s as [|a s IH]; cbn [lstrip_by rstrip_by]; [reflexivity|].
  destruct (p a); [|discriminate]. intros H. rewrite (IH H). reflexivity.
Qed.

(** A text that [strip] empties is white space throughout. *)
Lemma strip_by_empty (p : ascii -> bool) (s : string) :
  strip_by p s = EmptyString -> lstrip_by p s = EmptyString.
Proof.
  unfold strip_by. destruct (lstrip_by p s) as [|c r] eqn:Hl; [reflexivity|].
  intros H. exfalso. exact (rstrip_by_head p r c (lstrip_by_head p s r c Hl) H).
Qed.

(** White space around a text changes nothing for [strip]. *)
Lemma strip_surrounding (before s after : string) :
  strip before = EmptyString -> strip after = EmptyString ->
  strip (before +:+ s +:+ after) = strip s.
Proof.
  unfold strip. intros Hb Ha.
  apply strip_by_empty in Hb, Ha.
  unfold strip_by. rewrite lstrip_by_spaces by exact Hb.
  destruct (lstrip_by is_space s) as [|c r] eqn:Hs.
  - rewrite lstrip_by_spaces by exact Hs. rewrite Ha. reflexivity.
  - rewrite lstrip_by_keeps_tail by (rewrite Hs; discriminate).
    rewrite Hs. apply rstrip_by_spaces, rstrip_by_all, Ha.
Qed.

(** Surrounding white space does not change what [as_float] returns. *)
Lemma as_float_surrounding_space (before s after : string) :
  strip before = EmptyString -> strip after = EmptyString ->
  as_float (PStr (before +:+ s +:+ after)) = as_float (PStr s).
Proof.
  intros Hb Ha. cbn [as_float]. rewrite strip_surrounding by assumption. reflexivity.
Qed.

(** C3 (the code departs from it): an [int] beyond the range of the floats
    makes [as_float] raise, and with it the whole poll cycle. *)
Theorem as_float_raises_on_huge_int :
  as_float (PInt (10 ^ 400)) = Raise OverflowError
  /\ fst (fetch_readings (serve huge_temperature) example_client []) = Raise OverflowError.
Proof. split; vm_compute; reflexivity. Qed.

Example as_float_examples :
  as_float (PInt 20) = Ok (PFloat (float_lit "20.0"))
  /\ as_float (PFloat (float_lit "1.0487")) = Ok (PFloat (float_lit "1.0487"))
  /\ as_float (PStr "  1.05 ") = Ok (PFloat (float_lit "1.05"))
  /\ as_float (PStr "1e3") = Ok (PFloat (float_lit "1000"))
  /\ as_float PNone = Ok PNone
  /\ as_float (PStr "abc") = Ok PNone
  /\ as_float (PStr EmptyString) = Ok PNone
  /\ as_float (PList [PInt 1]) = Ok PNone
  /\ as_float (PDict [("celsius", PInt 1)]) = Ok PNone
  /\ as_float (PBool true) = Ok (PFloat (float_lit "1.0"))
  /\ as_float (PInt (2 ^ 1024 - 2 ^ 970 - 1)) = Ok (PFloat (float_lit "1.7976931348623157e308"))
  /\ as_float (PInt (2 ^ 1024 - 2 ^ 970)) = Raise OverflowError.
Proof. repeat split; vm_compute; reflexivity. Qed.

(** ** The poll cycle *)

(** C6: when the device request raises, [fetch_readings] raises the same
    exception; a raising fermenter request leaves the empty list, and so do
    batch requests that all raise; neither of the two fetches ever raises; and
    after a successful device request the cycle is [build_output] run on what
    the two fetches left, the empty lists when they failed. *)
Theorem poll_cycle_failures {world : Type}
    (session_get : request -> world -> result pyval * world) (self : client) :
  (forall w e w1,
     _get session_get self "/devices" None w = (Raise e, w1) ->
     fetch_readings session_get self w = (Raise e, w1))
  /\ (forall w e w1,
        _get session_get self "/fermenters" None w = (Raise e, w1) ->
        fetch_fermenters session_get self w = (Ok [], w1))
  /\ (forall w,
        (forall p w0, In p batch_variants ->
           exists e w1, _get session_get self "/batches" p w0 = (Raise e, w1)) ->
        exists w', fetch_batches session_get self w = (Ok [], w'))
  /\ (forall w, exists fs w', fetch_fermenters session_get self w = (Ok fs, w'))
  /\ (forall w, exists bs w', fetch_batches session_get self w = (Ok bs, w'))
  /\ (forall w devices w1,
        _get session_get self "/devices" None w = (Ok devices, w1) ->
        exists fs w2 bs w3,
          fetch_fermenters session_get self w1 = (Ok fs, w2)
          /\ fetch_batches session_get self w2 = (Ok bs, w3)
          /\ fetch_readings session_get self w = build_output session_get self devices fs bs w3)
  /\ (forall w devices w1 e w2,
        _get session_get self "/devices" None w = (Ok devices, w1) ->
        _get session_get self "/fermenters" None w1 = (Raise e, w2) ->
        (forall p w0, In p batch_variants ->
           exists e w1, _get session_get self "/batches" p w0 = (Raise e, w1)) ->
        exists w3,
          fetch_readings session_get self w = build_output session_get self devices [] [] w3).
Proof.
  assert (Hferm : forall w e w1,
            _get session_get self "/fermenters" None w = (Raise e, w1) ->
            fetch_fermenters session_get self w = (Ok [], w1)).
  { intros w e w1 H. unfold fetch_fermenters, try_except, bind. rewrite H. reflexivity. }
  assert (Hcont : forall w devices w1,
            _get session_get self "/devices" None w = (Ok devices, w1) ->
            exists fs w2 bs w3,
              fetch_fermenters session_get self w1 = (Ok fs, w2)
              /\ fetch_batches session_get self w2 = (Ok bs, w3)
              /\ fetch_readings session_get self w
                 = build_output session_get self devices fs bs w3).
  { intros w devices w1 H.
    destruct (fetch_fermenters_total session_get self w1) as (fs & w2 & Hf).
    destruct (fetch_batches_from_total session_get self batch_variants [] w2) as (bs & w3 & Hb).
    exists fs, w2, bs, w3. repeat split; try assumption.
    unfold fetch_readings, bind at 1. rewrite H.
    unfold bind at 1. rewrite Hf.
    unfold bind at 1. unfold fetch_batches. rewrite Hb.
    reflexivity. }
  repeat split.
  - intros w e w1 H. unfold fetch_readings, bind at 1. rewrite H. reflexivity.
  - exact Hferm.
  - intros w H. apply (fetch_batches_from_all_fail session_get self batch_variants [] w H).
  - apply fetch_fermenters_total.
  - intros w. apply (fetch_batches_from_total session_get self batch_variants [] w).
  - exact Hcont.
  - intros w devices w1 e w2 Hd Hf Hb.
    destruct (Hcont w devices w1 Hd) as (fs & w2' & bs & w3 & Hf' & Hb' & Hr).
    rewrite (Hferm _ _ _ Hf) in Hf'. injection Hf' as <- <-.
    destruct (fetch_batches_from_all_fail session_get self batch_variants [] w2 Hb) as (w3' & Hb'').
    unfold fetch_batches in Hb'. rewrite Hb'' in Hb'.
    injection Hb' as <- <-. exists w3'. exact Hr.
Qed.

(** The cycle of C6 on an example: the device list is served, the fermenter
    and batch requests fail, and the mapping is produced all the same. *)
Lemma poll_cycle_failures_witness :
  exists log,
    fetch_readings (serve devices_only) example_client []
    = build_output (serve devices_only) example_client
        (PList [PDict [("id", PStr "d1"); ("name", PStr "Fermenter 1");
                       ("latestReading", sample_reading)]]) [] [] log
    /\ fst (build_output (serve devices_only) example_client
              (PList [PDict [("id", PStr "d1"); ("name", PStr "Fermenter 1");
                             ("latestReading", sample_reading)]]) [] [] log)
       = Ok {[ "d1" := reading_record (PStr "Fermenter 1") PNone PNone
                         (PFloat (float_lit "20.5")) (PFloat (float_lit "1.05"))
                         PNone PNone PNone ]}.
Proof.
  destruct (poll_cycle_failures (serve devices_only) example_client)
    as (_ & _ & _ & _ & _ & _ & H).
  destruct (H [] (PList [PDict [("id", PStr "d1"); ("name", PStr "Fermenter 1");
                                ("latestReading", sample_reading)]])
              [mk_request (base +:+ "/devices")
                 [("x-plaato-api-key", "key"); ("Accept", "application/json")] None 20]
              (HTTPError 404)
              [mk_request (base +:+ "/devices")
                 [("x-plaato-api-key", "key"); ("Accept", "application/json")] None 20;
               mk_request (base +:+ "/fermenters")
                 [("x-plaato-api-key", "key"); ("Accept", "application/json")] None 20])
    as (log & Hlog).
  - vm_compute. reflexivity.
  - vm_compute. reflexivity.
  - intros p w0 Hin. exists (HTTPError 404). eexists.
    unfold _get, serve.
    destruct Hin as [<-|[<-|[<-|[<-|[]]]]]; reflexivity.
  - exists log. split; [exact Hlog|].
    rewrite <- Hlog. vm_compute. reflexivity.
Defined.

(** ** The output mapping *)

Lemma record_of_device_name (dev : pyval) (k : string) (rec : pyval) :
  record_of_device dev k rec ->
  exists (d : dict) (name battery wifi temp sg time fermenter batch : pyval),
    dev = PDict d
    /\ rec = reading_record name battery wifi temp sg time fermenter batch
    /\ name = py_or (dict_get d "name") (PStr ("Plaato " +:+ k))
    /\ truthy name = true
    /\ float_or_none temp /\ float_or_none sg /\ str_or_none fermenter.
Proof.
  intros (d & temp & sg & time & fermenter & batch & -> & _ & _ & -> & Ht & Hs & Hf).
  exists d. do 8 eexists. repeat split; try eassumption; try reflexivity.
  apply py_or_truthy. reflexivity.
Qed.

(** C8, the counterexample: a device whose name field is the number 123
    gets a record whose name is that number, not a string. *)
Lemma record_name_may_be_a_number :
  ~ (forall (world : Type) (session_get : request -> world -> result pyval * world)
       (self : client) (w : world) (out : gmap string pyval) (k : string) (rec : dict),
       fst (fetch_readings session_get self w) = Ok out ->
       out !! k = Some (PDict rec) ->
       dict_keys rec = record_fields /\ is_str (dict_get rec "name") = true).
Proof.
  intros H.
  destruct (fst (fetch_readings (serve numeric_name) example_client [])) as [out|e] eqn:Hr;
    [|vm_compute in Hr; discriminate].
  assert (Hk : out !! "d1" =
               Some (reading_record (PInt 123) PNone PNone (PFloat (float_lit "20.5"))
                       (PFloat (float_lit "1.05")) PNone PNone PNone)).
  { vm_compute in Hr. injection Hr as <-. vm_compute. reflexivity. }
  destruct (H _ _ _ _ out "d1" _ Hr Hk) as [_ Hs].
  vm_compute in Hs. discriminate.
Qed.

(** C8 as amended: every record of the output has exactly the eight fields,
    in order, and is built from an entry of the [/devices] answer whose
    truthy [id] gives the key.  Its name is the [name] field of that entry
    when that is truthy, of whatever type, and the text [Plaato] with the
    identifier otherwise, so it is never null, and it is a string whenever
    the [name] field of the entry is a string or is missing or falsy;
    battery and signal are picked from the entry; temperature and density
    are null or floats, the fermenter is null or a string; and a device that
    carries nothing but its identifier gets a record in which every field
    but the name is null. *)
Theorem output_records_shape :
  (forall (world : Type) (session_get : request -> world -> result pyval * world)
     (self : client) (w w' : world) (out : gmap string pyval) (k : string) (rec : pyval),
     fetch_readings session_get self w = (Ok out, w') ->
     out !! k = Some rec ->
     exists (devices : pyval) (w1 : world) (devs : list pyval) (d fields : dict)
            (name battery wifi temp sg time fermenter batch : pyval),
       _get session_get self "/devices" None w = (Ok devices, w1)
       /\ py_iter (py_or devices (PList [])) = Ok devs
       /\ In (PDict d) devs
       /\ truthy (dict_get d "id") = true /\ k = py_str (dict_get d "id")
       /\ rec = PDict fields
       /\ dict_keys fields = record_fields
       /\ fields = [("name", name); ("batteryLevel", battery); ("wifiStrength", wifi);
                    ("temperature", temp); ("density", sg); ("time", time);
                    ("fermenter", fermenter); ("batch", batch)]
       /\ (truthy (dict_get d "name") = true -> name = dict_get d "name")
       /\ (truthy (dict_get d "name") = false -> name = PStr ("Plaato " +:+ k))
       /\ truthy name = true /\ name <> PNone
       /\ (is_str (dict_get d "name") = true \/ truthy (dict_get d "name") = false ->
           is_str name = true)
       /\ battery = pick (PDict d) ["batteryLevel"; "battery"; "battery_percent"]
       /\ wifi = pick (PDict d) ["wifiStrength"; "rssi"; "signal"]
       /\ float_or_none temp /\ float_or_none sg /\ str_or_none fermenter)
  /\ fst (fetch_readings (serve bare_device) example_client [])
     = Ok {[ "d1" := reading_record (PStr "Plaato d1") PNone PNone PNone PNone PNone PNone PNone ]}.
Proof.
  split; [|vm_compute; reflexivity].
  intros world session_get self w w' out k rec H Hk.
  destruct (fetch_readings_records session_get self w w' out H)
    as (devices & w1 & devs & Hd & Hi & Hrec).
  destruct (Hrec k rec Hk)
    as (dev & Hin & (d & temp & sg & time & fermenter & batch
                     & -> & Hid & -> & -> & Ht & Hs & Hf)).
  assert (Htr : truthy (py_or (dict_get d "name")
                          (PStr ("Plaato " +:+ py_str (dict_get d "id")))) = true)
    by (apply py_or_truthy; reflexivity).
  exists devices, w1, devs, d. eexists. 
  exists (py_or (dict_get d "name") (PStr ("Plaato " +:+ py_str (dict_get d "id")))).
  exists (pick (PDict d) ["batteryLevel"; "battery"; "battery_percent"]),
         (pick (PDict d) ["wifiStrength"; "rssi"; "signal"]),
         temp, sg, time, fermenter, batch.
  repeat split; try eassumption; try reflexivity.
  - intros Hn. unfold py_or. rewrite Hn. reflexivity.
  - intros Hn. unfold py_or. rewrite Hn. reflexivity.
  - intros Hn. rewrite Hn in Htr. discriminate Htr.
  - unfold py_or. intros [Hstr|Hfalsy].
    + destruct (truthy (dict_get d "name")); [exact Hstr | reflexivity].
    + rewrite Hfalsy. reflexivity.
Qed.

(** C10: every key of the output is [str] of the truthy [id] of a device
    entry of the response; an entry whose [id] is missing, null, the empty
    string or zero, or falsy in any other way, leaves the output and the
    world as they are. *)
Theorem output_keys_are_truthy_ids :
  (forall (world : Type) (session_get : request -> world -> result pyval * world)
     (self : client) (w w' : world) (out : gmap string pyval),
     fetch_readings session_get self w = (Ok out, w') ->
     exists devices w1 devs,
       _get session_get self "/devices" None w = (Ok devices, w1)
       /\ py_iter (py_or devices (PList [])) = Ok devs
       /\ forall k, is_Some (out !! k) ->
            exists d, In (PDict d) devs /\ truthy (dict_get d "id") = true
                      /\ k = py_str (dict_get d "id"))
  /\ (forall (world : Type) (session_get : request -> world -> result pyval * world)
        (self : client) (ferm : gmap string string) (best : gmap string dict)
        (out : gmap string pyval) (d : dict) (w : world),
        truthy (dict_get d "id") = false ->
        process_device session_get self ferm best out (PDict d) w = (Ok out, w))
  /\ (forall d : dict,
        dict_lookup d "id" = None \/ dict_get d "id" = PNone
        \/ dict_get d "id" = PStr EmptyString \/ dict_get d "id" = PInt 0 ->
        truthy (dict_get d "id") = false)
  /\ (exists out,
        fst (fetch_readings (serve falsy_ids) example_client []) = Ok out
        /\ dom out = {[ "7" ]}).
Proof.
  repeat split.
  - intros world session_get self w w' out H.
    destruct (fetch_readings_records session_get self w w' out H)
      as (devices & w1 & devs & Hd & Hi & Hrec).
    exists devices, w1, devs. repeat split; try assumption.
    intros k [rec Hk].
    destruct (Hrec k rec Hk) as (dev & Hin & (d & ? & ? & ? & ? & ? & -> & Htr & -> & _)).
    exists d. auto.
  - intros world session_get self ferm best out d w Hfalsy.
    unfold process_device, bind, lift. cbn [py_get]. rewrite Hfalsy. reflexivity.
  - intros d [H|[H|[H|H]]].
    + unfold dict_get. rewrite H. reflexivity.
    + rewrite H. reflexivity.
    + rewrite H. reflexivity.
    + rewrite H. reflexivity.
  - destruct (fst (fetch_readings (serve falsy_ids) example_client [])) as [out|e] eqn:Hr;
      [|vm_compute in Hr; discriminate].
    exists out. split; [reflexivity|].
    vm_compute in Hr. injection Hr as <-. vm_compute. reflexivity.
Qed.

(** The end-to-end example of the specification: the record of [d1] carries
    the fermenter [FV1] and the batch [IPA]. *)
Example end_to_end_example :
  fst (fetch_readings (serve end_to_end) example_client [])
  = Ok {[ "d1" := reading_record (PStr "Fermenter 1") PNone PNone
                    (PFloat (float_lit "20.5")) (PFloat (float_lit "1.05"))
                    PNone (PStr "FV1") (PStr "IPA") ]}.
Proof. vm_compute. reflexivity. Qed.

(** ** The fermenter association *)

Lemma inserts_lookup (v : string) (ids : list string) (m : gmap string string) (did : string) :
  fold_left (fun m d => <[d := v]> m) ids m !! did =
  if in_dec string_dec did ids then Some v else m !! did.
Proof.
  revert m. induction ids as [|i ids IH]; intros m; cbn [fold_left]; [reflexivity|].
  rewrite IH.
  destruct (in_dec string_dec did ids) as [Hin|Hnin],
           (in_dec string_dec did (i :: ids)) as [Hin'|Hnin'];
    try reflexivity; try (exfalso; apply Hnin'; right; exact Hin).
  - destruct Hin' as [->|Hin']; [apply lookup_insert_eq | contradiction].
  - apply lookup_insert_ne. intros ->. apply Hnin'. left. reflexivity.
Qed.

Lemma add_fermenter_lookup (m : gmap string string) (fer : dict) (did : string) :
  add_fermenter m fer !! did =
  if in_dec string_dec did (fermenter_device_ids fer)
  then Some (py_str (fermenter_name fer)) else m !! did.
Proof. apply inserts_lookup. Qed.

Lemma add_fermenters_others (post : list dict) (m : gmap string string) (did : string) :
  (forall f, In f post -> ~ In did (fermenter_device_ids f)) ->
  fold_left add_fermenter post m !! did = m !! did.
Proof.
  revert m. induction post as [|f post IH]; intros m Hno; cbn [fold_left]; [reflexivity|].
  rewrite IH by (intros f' Hf'; apply Hno; right; exact Hf').
  rewrite add_fermenter_lookup.
  destruct (in_dec string_dec did (fermenter_device_ids f)) as [Hin|_]; [|reflexivity].
  exfalso. exact (Hno f (or_introl eq_refl) Hin).
Qed.

(** The last fermenter that names a device gives it its name. *)
Lemma fermenter_names_last (pre post : list dict) (fer : dict) (did : string) :
  In did (fermenter_device_ids fer) ->
  (forall f, In f post -> ~ In did (fermenter_device_ids f)) ->
  fermenter_names (pre ++ fer :: post) !! did = Some (py_str (fermenter_name fer)).
Proof.
  intros Hin Hno. unfold fermenter_names.
  rewrite fold_left_app. cbn [fold_left].
  rewrite add_fermenters_others by exact Hno.
  rewrite add_fermenter_lookup.
  destruct (in_dec string_dec did (fermenter_device_ids fer)); [reflexivity | contradiction].
Qed.

Lemma collect_plain_ids (ids : list string) :
  collect_device_ids (PList (map PStr ids)) = ids.
Proof.
  cbn [collect_device_ids]. induction ids as [|i ids IH]; [reflexivity|].
  cbn [map flat_map]. rewrite IH. reflexivity.
Qed.

Lemma collect_object_ids (ids : list string) :
  (forall i, In i ids -> i <> EmptyString) ->
  collect_device_ids (PList (map (fun i => PDict [("id", PStr i)]) ids)) = ids.
Proof.
  cbn [collect_device_ids]. induction ids as [|i ids IH]; intros Hne; [reflexivity|].
  cbn [map flat_map]. rewrite IH by (intros j Hj; apply Hne; right; exact Hj).
  assert (Hi : i <> EmptyString) by (apply Hne; left; reflexivity).
  destruct i as [|c i]; [congruence|]. reflexivity.
Qed.

Lemma collect_cross_reference (fer : dict) (p : string) :
  dict_get fer "proId" = PStr p -> p <> EmptyString ->
  In p (fermenter_device_ids fer).
Proof.
  intros Hp Hne. unfold fermenter_device_ids, fermenter_containers.
  rewrite Hp. destruct p as [|c p]; [congruence|].
  cbn [flat_map truthy String.eqb negb].
  apply in_or_app. right. apply in_or_app. right.
  left. reflexivity.
Qed.

(** C5, the counterexample: of two fermenters that name the device [d1],
    the later one gives it its name. *)
Lemma later_fermenter_takes_the_device :
  ~ (forall (fermenters : list dict) (fer : dict),
       In fer fermenters ->
       dict_get fer "devices" = PList [PStr "d1"; PDict [("id", PStr "d2")]] ->
       fermenter_names fermenters !! "d1" = Some (py_str (fermenter_name fer))
       /\ fermenter_names fermenters !! "d2" = Some (py_str (fermenter_name fer))).
Proof.
  intros H.
  destruct (H [ [("name", PStr "FV1"); ("devices", PList [PStr "d1"; PDict [("id", PStr "d2")]])];
                [("name", PStr "FV2"); ("devices", PList [PStr "d1"])] ]
              [("name", PStr "FV1"); ("devices", PList [PStr "d1"; PDict [("id", PStr "d2")]])]
              (or_introl eq_refl) eq_refl) as [H1 _].
  vm_compute in H1. discriminate.
Qed.

(** C5 as amended: device references are read from a list of plain
    identifiers, from a list of objects that carry an identifier, and from
    the [proId] field; a fermenter whose devices field is
    [["d1", {"id": "d2"}]] gives its name to [d1] and to [d2], each unless
    a later fermenter of the list names that device too. *)
Theorem fermenter_association (pre post : list dict) (fer : dict) :
  dict_get fer "devices" = PList [PStr "d1"; PDict [("id", PStr "d2")]] ->
  ((forall f, In f post -> ~ In "d1" (fermenter_device_ids f)) ->
   fermenter_names (pre ++ fer :: post) !! "d1" = Some (py_str (fermenter_name fer)))
  /\ ((forall f, In f post -> ~ In "d2" (fermenter_device_ids f)) ->
      fermenter_names (pre ++ fer :: post) !! "d2" = Some (py_str (fermenter_name fer)))
  /\ (forall ids : list string, collect_device_ids (PList (map PStr ids)) = ids)
  /\ (forall ids : list string,
        (forall i, In i ids -> i <> EmptyString) ->
        collect_device_ids (PList (map (fun i => PDict [("id", PStr i)]) ids)) = ids)
  /\ (forall (f : dict) (p : string),
        dict_get f "proId" = PStr p -> p <> EmptyString -> In p (fermenter_device_ids f)).
Proof.
  intros Hdev.
  assert (Hids : In "d1" (fermenter_device_ids fer) /\ In "d2" (fermenter_device_ids fer)).
  { unfold fermenter_device_ids, fermenter_containers. rewrite Hdev.
    cbn [flat_map]. split; apply in_or_app; left; vm_compute; auto. }
  destruct Hids as [H1 H2].
  split; [|split; [|split; [|split]]].
  - intros Hno. apply fermenter_names_last; assumption.
  - intros Hno. apply fermenter_names_last; assumption.
  - exact collect_plain_ids.
  - exact collect_object_ids.
  - exact collect_cross_reference.
Qed.

Lemma fermenter_association_witness :
  fermenter_names
    [ [("name", PStr "FV0"); ("devices", PList [PStr "d1"])];
      [("name", PStr "FV1"); ("devices", PList [PStr "d1"; PDict [("id", PStr "d2")]])];
      [("name", PStr "FV2"); ("proId", PStr "d3")] ] !! "d1" = Some "FV1"
  /\ fermenter_names
       [ [("name", PStr "FV0"); ("devices", PList [PStr "d1"])];
         [("name", PStr "FV1"); ("devices", PList [PStr "d1"; PDict [("id", PStr "d2")]])];
         [("name", PStr "FV2"); ("proId", PStr "d3")] ] !! "d2" = Some "FV1".
Proof.
  destruct (fermenter_association
              [ [("name", PStr "FV0"); ("devices", PList [PStr "d1"])] ]
              [ [("name", PStr "FV2"); ("proId", PStr "d3")] ]
              [("name", PStr "FV1"); ("devices", PList [PStr "d1"; PDict [("id", PStr "d2")]])]
              eq_refl) as (H1 & H2 & _).
  split.
  - apply H1. intros f [<-|[]]. vm_compute. intros [H|[]]. discriminate H.
  - apply H2. intros f [<-|[]]. vm_compute. intros [H|[]]. discriminate H.
Defined.

(** ** The batch ranks *)

Lemma rank_gt_lex (a b : rank) :
  rank_gt a b = true <->
  (rank_enabled a > rank_enabled b
   \/ (rank_enabled a = rank_enabled b /\ rank_not_archived a > rank_not_archived b)
   \/ (rank_enabled a = rank_enabled b /\ rank_not_archived a = rank_not_archived b
       /\ rank_not_ended a > rank_not_ended b)
   \/ (rank_enabled a = rank_enabled b /\ rank_not_archived a = rank_not_archived b
       /\ rank_not_ended a = rank_not_ended b
       /\ String.compare (rank_recency a) (rank_recency b) = Gt)).
Proof.
  destruct a as [[[a1 a2] a3] a4], b as [[[b1 b2] b3] b4].
  unfold rank_gt, rank_compare, rank_enabled, rank_not_archived, rank_not_ended, rank_recency.
  cbn [fst snd].
  destruct (Z.compare_spec a1 b1); [|split; [discriminate | lia]|split; [lia | reflexivity]].
  destruct (Z.compare_spec a2 b2); [|split; [discriminate | lia]|split; [lia | reflexivity]].
  destruct (Z.compare_spec a3 b3); [|split; [discriminate | lia]|split; [lia | reflexivity]].
  destruct (String.compare a4 b4).
  1, 2: split; [discriminate|];
        intros [?|[[_ ?]|[(_ & _ & ?)|(_ & _ & _ & ?)]]]; try lia; discriminate.
  split; [intros _; right; right; right; auto | reflexivity].
Qed.


(** The examples of the specification: an active batch ranks above a
    disabled one whatever their dates, and of two batches alike but for the
    date the later one ranks higher. *)
Example batch_rank_examples :
  rank_gt (batch_rank [("enabled", PBool true); ("archived", PBool false); ("end", PNone);
                       ("updatedAt", PStr "2024-06-01")])
          (batch_rank [("enabled", PBool false); ("updatedAt", PStr "2025-01-01")]) = true
  /\ rank_gt (batch_rank [("name", PStr "B"); ("updatedAt", PStr "2024-06-02")])
             (batch_rank [("name", PStr "A"); ("updatedAt", PStr "2024-06-01")]) = true
  /\ best_batches
       [ [("name", PStr "old"); ("devices", PList [PStr "d1"]); ("end", PStr "2024-01-31")];
         [("name", PStr "IPA"); ("devices", PList [PStr "d1"; PInt 7])];
         [("name", PStr "off"); ("devices", PList [PDict [("id", PInt 7)]]);
          ("enabled", PBool false); ("updatedAt", PStr "2099-01-01")] ] !! "7"
     = Some [("name", PStr "IPA"); ("devices", PList [PStr "d1"; PInt 7])].
Proof. repeat split; vm_compute; reflexivity. Qed.

(** C9: a batch without an enabled field ranks as enabled, one without an
    archived field as not archived, one without an end field as not ended; a
    batch with none of the three ranks above every batch whose enabled field
    is false. *)
Theorem batch_rank_missing_flags (b : dict) :
  (dict_lookup b "enabled" = None -> rank_enabled (batch_rank b) = 1)
  /\ (dict_lookup b "archived" = None -> rank_not_archived (batch_rank b) = 1)
  /\ (dict_lookup b "end" = None -> rank_not_ended (batch_rank b) = 1)
  /\ (dict_lookup b "enabled" = None -> dict_lookup b "archived" = None ->
      dict_lookup b "end" = None ->
      batch_rank b = (1, 1, 1, rank_recency (batch_rank b))
      /\ forall b' : dict, dict_get b' "enabled" = PBool false ->
                           rank_gt (batch_rank b) (batch_rank b') = true).
Proof.
  unfold batch_rank, rank_enabled, rank_not_archived, rank_not_ended, rank_recency, dict_get.
  cbn [fst snd].
  repeat split.
  - intros ->. reflexivity.
  - intros ->. reflexivity.
  - intros ->. reflexivity.
  - rewrite H, H0, H1. reflexivity.
  - intros b' Hb'. apply rank_gt_lex. left.
    unfold rank_enabled. cbn [fst]. rewrite H. unfold dict_get in Hb'. rewrite Hb'. reflexivity.
Qed.

(** ** The sensor states *)

(** *** Reading a timestamp *)

Section ExtendedFormat.

Variables y1 y2 y3 y4 m1 m2 d1 d2 h1 h2 n1 n2 s1 s2 : Z.
Hypothesis (Hy1 : is_digit_value y1) (Hy2 : is_digit_value y2) (Hy3 : is_digit_value y3)
  (Hy4 : is_digit_value y4) (Hm1 : is_digit_value m1) (Hm2 : is_digit_value m2)
  (Hd1 : is_digit_value d1) (Hd2 : is_digit_value d2) (Hh1 : is_digit_value h1)
  (Hh2 : is_digit_value h2) (Hn1 : is_digit_value n1) (Hn2 : is_digit_value n2)
  (Hs1 : is_digit_value s1) (Hs2 : is_digit_value s2).

Local Abbreviation bytes := (ext_bytes y1 y2 y3 y4 m1 m2 d1 d2 h1 h2 n1 n2 s1 s2).

Lemma ext_separator : find_separator bytes = Some 10%nat.
Proof.
  unfold is_digit_value in *. unfold ext_bytes, find_separator. run_parser. reflexivity.
Qed.

Lemma ext_date :
  parse_isoformat_date bytes 10 =
  Some (1000 * y1 + 100 * y2 + 10 * y3 + y4, 10 * m1 + m2, 10 * d1 + d2).
Proof.
  unfold is_digit_value in *. unfold ext_bytes, parse_isoformat_date, is_digit. run_parser.
  unfold is_digit. run_parser. do 3 f_equal; lia.
Qed.

Lemma ext_find_tz : find_tz 26 bytes 11 25 = 19%nat.
Proof.
  unfold is_digit_value in *. unfold ext_bytes.
  do 8 (cbn [find_tz at_ nth]; unfold is_tz_char; repeat resolve_test;
        cbn [orb Nat.ltb Nat.leb]).
  cbn [find_tz at_ nth]; unfold is_tz_char; repeat resolve_test. reflexivity.
Qed.

Lemma ext_time :
  parse_hh_mm_ss_ff bytes 11 19 =
  Some (10 * h1 + h2, 10 * n1 + n2, 10 * s1 + s2, 0, true).
Proof.
  unfold is_digit_value in *. unfold ext_bytes, parse_hh_mm_ss_ff.
  cbn [parse_hms parse_digits at_ nth]. unfold is_digit. run_parser.
  do 4 f_equal; try lia. f_equal; lia.
Qed.

Lemma ext_offset : parse_hh_mm_ss_ff bytes 20 25 = Some (0, 0, 0, 0, false).
Proof. unfold ext_bytes. vm_compute. reflexivity. Qed.

(** The bytes of [YYYY-MM-DDTHH:MM:SS+00:00] are read as these fields with
    the offset zero, when the fields are in range. *)
Lemma parse_bytes_extended :
  parse_bytes bytes =
  if valid_date (1000 * y1 + 100 * y2 + 10 * y3 + y4) (10 * m1 + m2) (10 * d1 + d2)
     && valid_time (10 * h1 + h2) (10 * n1 + n2) (10 * s1 + s2) 0
  then Some (mk_datetime (1000 * y1 + 100 * y2 + 10 * y3 + y4) (10 * m1 + m2) (10 * d1 + d2)
               (10 * h1 + h2) (10 * n1 + n2) (10 * s1 + s2) 0 (Some 0))
  else None.
Proof.
  unfold parse_bytes. rewrite ext_separator, ext_date.
  replace (length bytes) with 25%nat by reflexivity.
  change (Nat.ltb 25 7) with false. change (Nat.ltb 10 25) with true. cbv iota.
  replace (at_ bytes 10) with 84 by reflexivity.
  change (10 + separator_width 84)%nat with 11%nat.
  unfold parse_isoformat_time.
  replace (length bytes) with 25%nat by reflexivity.
  rewrite ext_find_tz, ext_time.
  change (Nat.eqb 19 25) with false. cbv iota.
  replace (at_ bytes 19) with 43 by reflexivity.
  change (43 =? 90) with false. cbv iota. change (43 =? 45) with false. cbv iota.
  rewrite ext_offset. reflexivity.
Qed.

End ExtendedFormat.

Lemma digit_cases (d : Z) :
  is_digit_value d ->
  d = 0 \/ d = 1 \/ d = 2 \/ d = 3 \/ d = 4 \/ d = 5 \/ d = 6 \/ d = 7 \/ d = 8 \/ d = 9.
Proof. unfold is_digit_value. lia. Qed.

Lemma utf8_digit (d : Z) (rest : string) :
  is_digit_value d -> utf8 (String (char_of_digit d) rest) = (48 + d) :: utf8 rest.
Proof.
  intros H. apply digit_cases in H.
  repeat (destruct H as [->|H]; [reflexivity|idtac]). subst. reflexivity.
Qed.

Lemma utf8_ascii (c : ascii) (rest : string) :
  (code c <? 128) = true -> utf8 (String c rest) = code c :: utf8 rest.
Proof. intros H. cbn [utf8]. unfold utf8_char. rewrite H. reflexivity. Qed.

Lemma replace_digit (d : Z) (new rest : string) :
  is_digit_value d ->
  replace_char "Z" new (String (char_of_digit d) rest)
  = String (char_of_digit d) (replace_char "Z" new rest).
Proof.
  intros H. apply digit_cases in H.
  repeat (destruct H as [->|H]; [reflexivity|idtac]). subst. reflexivity.
Qed.

Lemma replace_other (old c : ascii) (new rest : string) :
  Ascii.eqb c old = false ->
  replace_char old new (String c rest) = String c (replace_char old new rest).
Proof. intros H. cbn [replace_char]. rewrite H. reflexivity. Qed.

Lemma digits_of_two (n : Z) :
  0 <= n <= 99 -> is_digit_value (n / 10) /\ is_digit_value (n mod 10)
                  /\ 10 * (n / 10) + n mod 10 = n.
Proof.
  unfold is_digit_value. intros H.
  repeat split; Z.to_euclidean_division_equations; lia.
Qed.

Lemma digits_of_four (n : Z) :
  0 <= n <= 9999 ->
  is_digit_value (n / 1000) /\ is_digit_value (n / 100 mod 10)
  /\ 0 <= n mod 100 <= 99
  /\ 1000 * (n / 1000) + 100 * (n / 100 mod 10) + n mod 100 = n.
Proof.
  unfold is_digit_value. intros H.
  repeat split; Z.to_euclidean_division_equations; lia.
Qed.

Lemma valid_date_range (y mo d : Z) :
  valid_date y mo d = true -> 0 <= y <= 9999 /\ 0 <= mo <= 99 /\ 0 <= d <= 99.
Proof.
  unfold valid_date, days_in_month. intros H.
  repeat (apply andb_prop in H as [H ?]).
  destruct (mo =? 2); [destruct (is_leap y)|destruct (_ || _)]; lia.
Qed.

Lemma valid_time_range (h mi s us : Z) :
  valid_time h mi s us = true -> 0 <= h <= 99 /\ 0 <= mi <= 99 /\ 0 <= s <= 99.
Proof.
  unfold valid_time. intros H. repeat (apply andb_prop in H as [H ?]). lia.
Qed.

(** [fromisoformat] reads [YYYY-MM-DDTHH:MM:SS+00:00] as its fields at UTC. *)
Lemma fromisoformat_extended (y mo d h mi s : Z) :
  valid_date y mo d = true -> valid_time h mi s 0 = true ->
  fromisoformat (iso_text y mo d h mi s "+00:00")
  = Some (mk_datetime y mo d h mi s 0 (Some 0)).
Proof.
  intros Hd Ht.
  destruct (valid_date_range _ _ _ Hd) as (Hy & Hmo & Hdd).
  destruct (valid_time_range _ _ _ _ Ht) as (Hh & Hmi & Hs).
  destruct (digits_of_four y Hy) as (Y1 & Y2 & Y34 & Yeq).
  destruct (digits_of_two (y mod 100) Y34) as (Y3 & Y4 & Y34eq).
  destruct (digits_of_two mo Hmo) as (M1 & M2 & Meq).
  destruct (digits_of_two d Hdd) as (D1 & D2 & Deq).
  destruct (digits_of_two h Hh) as (H1 & H2 & Heq).
  destruct (digits_of_two mi Hmi) as (N1 & N2 & Neq).
  destruct (digits_of_two s Hs) as (S1 & S2 & Seq).
  unfold fromisoformat, iso_text, digits4, digits2.
  repeat first [ rewrite utf8_digit by assumption
               | rewrite utf8_ascii by reflexivity ].
  change (utf8 "+00:00") with [43; 48; 48; 58; 48; 48].
  assert (Hb := parse_bytes_extended
                  (y / 1000) (y / 100 mod 10) (y mod 100 / 10) (y mod 100 mod 10)
                  (mo / 10) (mo mod 10) (d / 10) (d mod 10) (h / 10) (h mod 10)
                  (mi / 10) (mi mod 10) (s / 10) (s mod 10)
                  Y1 Y2 Y3 Y4 M1 M2 D1 D2 H1 H2 N1 N2 S1 S2).
  replace (1000 * (y / 1000) + 100 * (y / 100 mod 10) + 10 * (y mod 100 / 10)
           + y mod 100 mod 10) with y in Hb by lia.
  rewrite Meq, Deq, Heq, Neq, Seq, Hd, Ht in Hb.
  exact Hb.
Qed.

(** A trailing [Z] after a text of the form above becomes the offset. *)
Lemma replace_trailing_z (y mo d h mi s : Z) :
  valid_date y mo d = true -> valid_time h mi s 0 = true ->
  replace_char "Z" "+00:00" (iso_text y mo d h mi s "Z") = iso_text y mo d h mi s "+00:00".
Proof.
  intros Hd Ht.
  destruct (valid_date_range _ _ _ Hd) as (Hy & Hmo & Hdd).
  destruct (valid_time_range _ _ _ _ Ht) as (Hh & Hmi & Hs).
  destruct (digits_of_four y Hy) as (Y1 & Y2 & Y34 & _).
  destruct (digits_of_two (y mod 100) Y34) as (Y3 & Y4 & _).
  destruct (digits_of_two mo Hmo) as (M1 & M2 & _).
  destruct (digits_of_two d Hdd) as (D1 & D2 & _).
  destruct (digits_of_two h Hh) as (H1 & H2 & _).
  destruct (digits_of_two mi Hmi) as (N1 & N2 & _).
  destruct (digits_of_two s Hs) as (S1 & S2 & _).
  unfold iso_text, digits4, digits2.
  repeat first [ rewrite replace_digit by assumption
               | rewrite replace_other by reflexivity ].
  reflexivity.
Qed.

Lemma app_empty_r (s : string) : s +:+ EmptyString = s.
Proof.
  induction s as [|c s IH]; [reflexivity|]. rewrite app_cons, IH. reflexivity.
Qed.

Lemma replace_trailing (old : ascii) (new s : string) :
  contains_char old s = false ->
  replace_char old new (s +:+ String old EmptyString) = s +:+ new.
Proof.
  induction s as [|c s IH]; rewrite ?app_cons, ?app_nil; cbn [contains_char replace_char].
  - intros _. rewrite Ascii.eqb_refl. apply app_empty_r.
  - intros H. apply orb_false_elim in H as [Hc Hs].
    rewrite Hc, (IH Hs). reflexivity.
Qed.

(** *** Other layouts of a timestamp *)

Section MinuteFormat.

Variables y1 y2 y3 y4 m1 m2 d1 d2 h1 h2 n1 n2 : Z.
Hypothesis (Hy1 : is_digit_value y1) (Hy2 : is_digit_value y2) (Hy3 : is_digit_value y3)
  (Hy4 : is_digit_value y4) (Hm1 : is_digit_value m1) (Hm2 : is_digit_value m2)
  (Hd1 : is_digit_value d1) (Hd2 : is_digit_value d2) (Hh1 : is_digit_value h1)
  (Hh2 : is_digit_value h2) (Hn1 : is_digit_value n1) (Hn2 : is_digit_value n2).

Local Abbreviation bytes := (min_bytes y1 y2 y3 y4 m1 m2 d1 d2 h1 h2 n1 n2).

Lemma min_separator : find_separator bytes = Some 10%nat.
Proof.
  unfold is_digit_value in *. unfold min_bytes, find_separator. run_parser. reflexivity.
Qed.

Lemma min_date :
  parse_isoformat_date bytes 10 =
  Some (1000 * y1 + 100 * y2 + 10 * y3 + y4, 10 * m1 + m2, 10 * d1 + d2).
Proof.
  unfold is_digit_value in *. unfold min_bytes, parse_isoformat_date, is_digit. run_parser.
  unfold is_digit. run_parser. do 3 f_equal; lia.
Qed.

Lemma min_find_tz : find_tz 23 bytes 11 22 = 16%nat.
Proof.
  unfold is_digit_value in *. unfold min_bytes.
  repeat (cbn [find_tz at_ nth]; unfold is_tz_char; repeat resolve_test;
          cbn [orb Nat.ltb Nat.leb]).
  reflexivity.
Qed.

Lemma min_time :
  parse_hh_mm_ss_ff bytes 11 16 = Some (10 * h1 + h2, 10 * n1 + n2, 0, 0, true).
Proof.
  unfold is_digit_value in *. unfold min_bytes, parse_hh_mm_ss_ff.
  cbn [parse_hms parse_digits at_ nth]. unfold is_digit. run_parser.
  do 4 f_equal; try lia. f_equal; lia.
Qed.

Lemma min_offset : parse_hh_mm_ss_ff bytes 17 22 = Some (0, 0, 0, 0, false).
Proof. unfold min_bytes. vm_compute. reflexivity. Qed.

(** The bytes of [YYYY-MM-DDTHH:MM+00:00] are read as these fields, zero
    seconds and the offset zero, when the fields are in range. *)
Lemma parse_bytes_minutes :
  parse_bytes bytes =
  if valid_date (1000 * y1 + 100 * y2 + 10 * y3 + y4) (10 * m1 + m2) (10 * d1 + d2)
     && valid_time (10 * h1 + h2) (10 * n1 + n2) 0 0
  then Some (mk_datetime (1000 * y1 + 100 * y2 + 10 * y3 + y4) (10 * m1 + m2) (10 * d1 + d2)
               (10 * h1 + h2) (10 * n1 + n2) 0 0 (Some 0))
  else None.
Proof.
  unfold parse_bytes. rewrite min_separator, min_date.
  replace (length bytes) with 22%nat by reflexivity.
  change (Nat.ltb 22 7) with false. change (Nat.ltb 10 22) with true. cbv iota.
  replace (at_ bytes 10) with 84 by reflexivity.
  change (10 + separator_width 84)%nat with 11%nat.
  unfold parse_isoformat_time.
  replace (length bytes) with 22%nat by reflexivity.
  rewrite min_find_tz, min_time.
  change (Nat.eqb 16 22) with false. cbv iota.
  replace (at_ bytes 16) with 43 by reflexivity.
  change (43 =? 90) with false. cbv iota. change (43 =? 45) with false. cbv iota.
  rewrite min_offset. reflexivity.
Qed.

End MinuteFormat.

Section BasicFormat.

Variables y1 y2 y3 y4 m1 m2 d1 d2 h1 h2 n1 n2 s1 s2 : Z.
Hypothesis (Hy1 : is_digit_value y1) (Hy2 : is_digit_value y2) (Hy3 : is_digit_value y3)
  (Hy4 : is_digit_value y4) (Hm1 : is_digit_value m1) (Hm2 : is_digit_value m2)
  (Hd1 : is_digit_value d1) (Hd2 : is_digit_value d2) (Hh1 : is_digit_value h1)
  (Hh2 : is_digit_value h2) (Hn1 : is_digit_value n1) (Hn2 : is_digit_value n2)
  (Hs1 : is_digit_value s1) (Hs2 : is_digit_value s2).

Local Abbreviation bytes := (basic_bytes y1 y2 y3 y4 m1 m2 d1 d2 h1 h2 n1 n2 s1 s2).

Lemma basic_separator : find_separator bytes = Some 8%nat.
Proof.
  unfold is_digit_value in *. unfold basic_bytes, find_separator. run_parser. reflexivity.
Qed.

Lemma basic_date :
  parse_isoformat_date bytes 8 =
  Some (1000 * y1 + 100 * y2 + 10 * y3 + y4, 10 * m1 + m2, 10 * d1 + d2).
Proof.
  unfold is_digit_value in *. unfold basic_bytes, parse_isoformat_date, is_digit. run_parser.
  unfold is_digit. run_parser. do 3 f_equal; lia.
Qed.

Lemma basic_find_tz : find_tz 22 bytes 9 21 = 15%nat.
Proof.
  unfold is_digit_value in *. unfold basic_bytes.
  repeat (cbn [find_tz at_ nth]; unfold is_tz_char; repeat resolve_test;
          cbn [orb Nat.ltb Nat.leb]).
  reflexivity.
Qed.

Lemma basic_time :
  parse_hh_mm_ss_ff bytes 9 15 =
  Some (10 * h1 + h2, 10 * n1 + n2, 10 * s1 + s2, 0, true).
Proof.
  unfold is_digit_value in *. unfold basic_bytes, parse_hh_mm_ss_ff.
  cbn [parse_hms parse_digits at_ nth]. unfold is_digit. run_parser.
  do 4 f_equal; try lia. f_equal; lia.
Qed.

Lemma basic_offset : parse_hh_mm_ss_ff bytes 16 21 = Some (0, 0, 0, 0, false).
Proof. unfold basic_bytes. vm_compute. reflexivity. Qed.

(** The bytes of [YYYYMMDDTHHMMSS+00:00] are read as these fields with the
    offset zero, when the fields are in range. *)
Lemma parse_bytes_basic :
  parse_bytes bytes =
  if valid_date (1000 * y1 + 100 * y2 + 10 * y3 + y4) (10 * m1 + m2) (10 * d1 + d2)
     && valid_time (10 * h1 + h2) (10 * n1 + n2) (10 * s1 + s2) 0
  then Some (mk_datetime (1000 * y1 + 100 * y2 + 10 * y3 + y4) (10 * m1 + m2) (10 * d1 + d2)
               (10 * h1 + h2) (10 * n1 + n2) (10 * s1 + s2) 0 (Some 0))
  else None.
Proof.
  unfold parse_bytes. rewrite basic_separator, basic_date.
  replace (length bytes) with 21%nat by reflexivity.
  change (Nat.ltb 21 7) with false. change (Nat.ltb 8 21) with true. cbv iota.
  replace (at_ bytes 8) with 84 by reflexivity.
  change (8 + separator_width 84)%nat with 9%nat.
  unfold parse_isoformat_time.
  replace (length bytes) with 21%nat by reflexivity.
  rewrite basic_find_tz, basic_time.
  change (Nat.eqb 15 21) with false. cbv iota.
  replace (at_ bytes 15) with 43 by reflexivity.
  change (43 =? 90) with false. cbv iota. change (43 =? 45) with false. cbv iota.
  rewrite basic_offset. reflexivity.
Qed.

End BasicFormat.

Section OrdinalFormat.

Variables y1 y2 y3 y4 o1 o2 o3 h1 h2 n1 n2 s1 s2 : Z.
Hypothesis (Hy1 : is_digit_value y1) (Hy2 : is_digit_value y2) (Hy3 : is_digit_value y3)
  (Hy4 : is_digit_value y4) (Ho1 : is_digit_value o1) (Ho2 : is_digit_value o2)
  (Ho3 : is_digit_value o3).

Local Abbreviation bytes := (ordinal_bytes y1 y2 y3 y4 o1 o2 o3 h1 h2 n1 n2 s1 s2).

Lemma ordinal_separator : find_separator bytes = Some 10%nat.
Proof.
  unfold is_digit_value in *. unfold ordinal_bytes, find_separator. run_parser. reflexivity.
Qed.

(** The third digit of the day stands where the second dash is looked
    for. *)
Lemma ordinal_date : parse_isoformat_date bytes 10 = None.
Proof.
  unfold is_digit_value in *. unfold ordinal_bytes, parse_isoformat_date, is_digit. run_parser.
  unfold is_digit. run_parser. reflexivity.
Qed.

Lemma parse_bytes_ordinal : parse_bytes bytes = None.
Proof.
  unfold parse_bytes. rewrite ordinal_separator, ordinal_date.
  replace (length bytes) with 23%nat by reflexivity. reflexivity.
Qed.

End OrdinalFormat.

(** The stages of the parser on a text with a fraction; each stage is run
    on its own. *)
Ltac frac_separator :=
  match goal with
  | |- context [find_separator ?b] =>
      replace (find_separator b) with (Some 10%nat)
        by (symmetry; unfold find_separator; run_parser; reflexivity)
  end.

Ltac frac_date y mo d :=
  match goal with
  | |- context [parse_isoformat_date ?b 10] =>
      replace (parse_isoformat_date b 10) with (Some (y, mo, d))
        by (symmetry; unfold parse_isoformat_date, is_digit; run_parser;
            unfold is_digit; run_parser; do 3 f_equal; lia)
  end.

Ltac frac_find_tz tzpos :=
  match goal with
  | |- context [find_tz ?fuel ?b 11 ?e] =>
      replace (find_tz fuel b 11 e) with tzpos
        by (symmetry;
            repeat (cbn [find_tz at_ nth]; unfold is_tz_char; repeat resolve_test;
                    cbn [orb Nat.ltb Nat.leb]);
            reflexivity)
  end.

Ltac run_digits :=
  repeat (cbn [parse_digits at_ nth]; unfold is_digit; repeat resolve_test; cbn [andb]).

Ltac frac_fraction tzpos us :=
  match goal with
  | |- context [parse_fraction ?b 20 tzpos] =>
      replace (parse_fraction b 20 tzpos) with (Some (us, true))
        by (symmetry; unfold parse_fraction; cbn [Nat.sub Nat.min length]; run_digits;
            match goal with
            | |- context [skip_digits ?fuel ?b' tzpos] =>
                replace (skip_digits fuel b' tzpos) with tzpos by (vm_compute; reflexivity)
            end;
            cbn [at_ nth]; cbn [correction]; do 2 f_equal; lia)
  end.

Ltac frac_time tzpos h mi s us :=
  match goal with
  | |- context [parse_hh_mm_ss_ff ?b 11 tzpos] =>
      replace (parse_hh_mm_ss_ff b 11 tzpos) with (Some (h, mi, s, us, true))
        by (symmetry; unfold parse_hh_mm_ss_ff;
            cbn [parse_hms parse_digits at_ nth]; unfold is_digit;
            repeat (repeat resolve_test;
                    cbn -[Z.add Z.mul Z.sub Z.eqb Z.leb Z.ltb parse_fraction]);
            frac_fraction tzpos us; cbn [nth];
            do 4 f_equal; try lia; f_equal; lia)
  end.

Ltac frac_offset tzpos :=
  match goal with
  | |- context [parse_hh_mm_ss_ff ?b (S tzpos) ?e] =>
      replace (parse_hh_mm_ss_ff b (S tzpos) e) with (Some (0, 0, 0, 0, false))
        by (vm_compute; reflexivity)
  end.

(** The whole parser on such a text: [tzpos] is where the offset starts,
    [us] the microseconds. *)
Ltac run_fraction tzpos y mo d h mi s us :=
  unfold is_digit_value in *;
  unfold frac_bytes; cbn [app map]; unfold parse_bytes;
  frac_separator; frac_date y mo d;
  cbn [length Nat.ltb Nat.leb]; cbv iota;
  match goal with
  | |- context [at_ ?b 10] => replace (at_ b 10) with 84 by reflexivity
  end;
  change (10 + separator_width 84)%nat with 11%nat;
  unfold parse_isoformat_time; cbn [length];
  frac_find_tz tzpos; frac_time tzpos h mi s us;
  cbn [Nat.eqb]; cbv iota;
  match goal with
  | |- context [at_ ?b tzpos] => replace (at_ b tzpos) with 43 by reflexivity
  end;
  change (43 =? 90) with false; cbv iota; change (43 =? 45) with false; cbv iota;
  frac_offset tzpos; reflexivity.

Section FractionFormat.

Variables y1 y2 y3 y4 m1 m2 d1 d2 h1 h2 n1 n2 s1 s2 : Z.
Hypothesis (Hy1 : is_digit_value y1) (Hy2 : is_digit_value y2) (Hy3 : is_digit_value y3)
  (Hy4 : is_digit_value y4) (Hm1 : is_digit_value m1) (Hm2 : is_digit_value m2)
  (Hd1 : is_digit_value d1) (Hd2 : is_digit_value d2) (Hh1 : is_digit_value h1)
  (Hh2 : is_digit_value h2) (Hn1 : is_digit_value n1) (Hn2 : is_digit_value n2)
  (Hs1 : is_digit_value s1) (Hs2 : is_digit_value s2).

(** The bytes of [YYYY-MM-DDTHH:MM:SS.f+00:00] with one to six fraction
    digits are read as these fields, the fraction as microseconds, and the
    offset zero, when the fields are in range. *)
Lemma parse_bytes_fraction (fs : list Z) :
  Forall is_digit_value fs -> (1 <= length fs <= 6)%nat ->
  parse_bytes (frac_bytes y1 y2 y3 y4 m1 m2 d1 d2 h1 h2 n1 n2 s1 s2 fs) =
  if valid_date (1000 * y1 + 100 * y2 + 10 * y3 + y4) (10 * m1 + m2) (10 * d1 + d2)
     && valid_time (10 * h1 + h2) (10 * n1 + n2) (10 * s1 + s2)
          (digits_value fs * 10 ^ (6 - Z.of_nat (length fs)))
  then Some (mk_datetime (1000 * y1 + 100 * y2 + 10 * y3 + y4) (10 * m1 + m2) (10 * d1 + d2)
               (10 * h1 + h2) (10 * n1 + n2) (10 * s1 + s2)
               (digits_value fs * 10 ^ (6 - Z.of_nat (length fs))) (Some 0))
  else None.
Proof.
  intros Hfs Hlen.
  destruct fs as [|f1 [|f2 [|f3 [|f4 [|f5 [|f6 [|f7 fs]]]]]]];
    cbn [length] in Hlen; try lia; clear Hlen;
    repeat match goal with
           | H : Forall _ (_ :: _) |- _ => apply Forall_cons in H as [? H]
           end;
    unfold digits_value; cbn [fold_left length].
  all: match goal with
       | |- context [10 ^ (6 - Z.of_nat ?k)] =>
           let p := eval vm_compute in (10 ^ (6 - Z.of_nat k)) in
           change (10 ^ (6 - Z.of_nat k)) with p
       end.
  all: match goal with
       | |- _ = if _ && valid_time _ _ _ ?us then _ else _ =>
           match goal with
           | |- context [S (S (S (S (S (S ?n)))))] => idtac
           | _ => idtac
           end;
           let tz := match goal with
                     | |- context [frac_bytes _ _ _ _ _ _ _ _ _ _ _ _ _ _ ?l] =>
                         eval cbv in (20 + length l)%nat
                     end in
           run_fraction tz (1000 * y1 + 100 * y2 + 10 * y3 + y4) (10 * m1 + m2)
             (10 * d1 + d2) (10 * h1 + h2) (10 * n1 + n2) (10 * s1 + s2) us
       end.
Qed.

End FractionFormat.

(** The digits of the fields, and the texts and bytes built from them. *)

Lemma digits_of_three (n : Z) :
  0 <= n <= 999 -> is_digit_value (n / 100) /\ 0 <= n mod 100 <= 99.
Proof.
  unfold is_digit_value. intros H. split; Z.to_euclidean_division_equations; lia.
Qed.

Lemma replace_digits2 (n : Z) (new rest : string) :
  0 <= n <= 99 ->
  replace_char "Z" new (digits2 n rest) = digits2 n (replace_char "Z" new rest).
Proof.
  intros H. destruct (digits_of_two n H) as (H1 & H2 & _).
  unfold digits2. rewrite !replace_digit by assumption. reflexivity.
Qed.

Lemma replace_digits3 (n : Z) (new rest : string) :
  0 <= n <= 999 ->
  replace_char "Z" new (digits3 n rest) = digits3 n (replace_char "Z" new rest).
Proof.
  intros H. destruct (digits_of_three n H) as (H1 & H2).
  unfold digits3. rewrite replace_digit, replace_digits2 by assumption. reflexivity.
Qed.

Lemma replace_digits4 (n : Z) (new rest : string) :
  0 <= n <= 9999 ->
  replace_char "Z" new (digits4 n rest) = digits4 n (replace_char "Z" new rest).
Proof.
  intros H. destruct (digits_of_four n H) as (H1 & H2 & H3 & _).
  unfold digits4. rewrite !replace_digit, replace_digits2 by assumption. reflexivity.
Qed.

Lemma replace_digits_text (fs : list Z) (new rest : string) :
  Forall is_digit_value fs ->
  replace_char "Z" new (digits_text fs rest) = digits_text fs (replace_char "Z" new rest).
Proof.
  induction 1 as [|f fs Hf _ IH]; cbn [digits_text]; [reflexivity|].
  rewrite replace_digit, IH by assumption. reflexivity.
Qed.

Lemma utf8_digits2 (n : Z) (rest : string) :
  0 <= n <= 99 ->
  utf8 (digits2 n rest) = (48 + n / 10) :: (48 + n mod 10) :: utf8 rest.
Proof.
  intros H. destruct (digits_of_two n H) as (H1 & H2 & _).
  unfold digits2. rewrite !utf8_digit by assumption. reflexivity.
Qed.

Lemma utf8_digits3 (n : Z) (rest : string) :
  0 <= n <= 999 ->
  utf8 (digits3 n rest)
  = (48 + n / 100) :: (48 + n mod 100 / 10) :: (48 + n mod 100 mod 10) :: utf8 rest.
Proof.
  intros H. destruct (digits_of_three n H) as (H1 & H2).
  unfold digits3. rewrite utf8_digit, utf8_digits2 by assumption. reflexivity.
Qed.

Lemma utf8_digits4 (n : Z) (rest : string) :
  0 <= n <= 9999 ->
  utf8 (digits4 n rest)
  = (48 + n / 1000) :: (48 + n / 100 mod 10) :: (48 + n mod 100 / 10)
    :: (48 + n mod 100 mod 10) :: utf8 rest.
Proof.
  intros H. destruct (digits_of_four n H) as (H1 & H2 & H3 & _).
  unfold digits4. rewrite !utf8_digit, utf8_digits2 by assumption. reflexivity.
Qed.

Lemma utf8_digits_text (fs : list Z) (rest : string) :
  Forall is_digit_value fs ->
  utf8 (digits_text fs rest) = map (Z.add 48) fs ++ utf8 rest.
Proof.
  induction 1 as [|f fs Hf _ IH]; cbn [digits_text map app]; [reflexivity|].
  rewrite utf8_digit, IH by assumption. reflexivity.
Qed.

(** The fields of a text are its digits read back. *)
Lemma four_digits_value (n : Z) :
  0 <= n <= 9999 ->
  1000 * (n / 1000) + 100 * (n / 100 mod 10) + 10 * (n mod 100 / 10) + n mod 100 mod 10 = n.
Proof. intros H. Z.to_euclidean_division_equations; lia. Qed.

Lemma two_digits_value (n : Z) : 0 <= n <= 99 -> 10 * (n / 10) + n mod 10 = n.
Proof. intros H. Z.to_euclidean_division_equations; lia. Qed.

Ltac field_digits :=
  repeat match goal with
         | H : 0 <= ?n <= 9999 |- _ =>
             let H1 := fresh in let H2 := fresh in let H3 := fresh in
             let H4 := fresh in let H5 := fresh in
             destruct (digits_of_four n H) as (H1 & H2 & H3 & _);
             destruct (digits_of_two (n mod 100) H3) as (H4 & H5 & _);
             pose proof (four_digits_value n H); revert H
         | H : 0 <= ?n <= 99 |- _ =>
             let H1 := fresh in let H2 := fresh in
             destruct (digits_of_two n H) as (H1 & H2 & _);
             pose proof (two_digits_value n H); revert H
         end;
  intros.

Section Texts.

Variables y mo d h mi s : Z.
Hypothesis (Hy : 0 <= y <= 9999) (Hmo : 0 <= mo <= 99) (Hd : 0 <= d <= 99)
  (Hh : 0 <= h <= 99) (Hmi : 0 <= mi <= 99) (Hs : 0 <= s <= 99).

Lemma replace_iso_text (suffix : string) :
  replace_char "Z" "+00:00" (iso_text y mo d h mi s suffix)
  = iso_text y mo d h mi s (replace_char "Z" "+00:00" suffix).
Proof.
  unfold iso_text.
  repeat first [ rewrite replace_digits4 by assumption
               | rewrite replace_digits2 by assumption
               | rewrite replace_other by reflexivity ].
  reflexivity.
Qed.

Lemma replace_iso_minute_text (suffix : string) :
  replace_char "Z" "+00:00" (iso_minute_text y mo d h mi suffix)
  = iso_minute_text y mo d h mi (replace_char "Z" "+00:00" suffix).
Proof.
  unfold iso_minute_text.
  repeat first [ rewrite replace_digits4 by assumption
               | rewrite replace_digits2 by assumption
               | rewrite replace_other by reflexivity ].
  reflexivity.
Qed.

Lemma replace_iso_basic_text (suffix : string) :
  replace_char "Z" "+00:00" (iso_basic_text y mo d h mi s suffix)
  = iso_basic_text y mo d h mi s (replace_char "Z" "+00:00" suffix).
Proof.
  unfold iso_basic_text.
  repeat first [ rewrite replace_digits4 by assumption
               | rewrite replace_digits2 by assumption
               | rewrite replace_other by reflexivity ].
  reflexivity.
Qed.

(** [fromisoformat] on [YYYY-MM-DDTHH:MM:SS+00:00], whatever the digits:
    the fields at UTC when they are in range, a [ValueError] otherwise. *)
Lemma fromisoformat_extended_fields :
  fromisoformat (iso_text y mo d h mi s "+00:00")
  = if valid_date y mo d && valid_time h mi s 0
    then Some (mk_datetime y mo d h mi s 0 (Some 0)) else None.
Proof.
  unfold fromisoformat, iso_text.
  repeat first [ rewrite utf8_digits4 by assumption
               | rewrite utf8_digits2 by assumption
               | rewrite utf8_ascii by reflexivity ].
  change (utf8 "+00:00") with [43; 48; 48; 58; 48; 48].
  field_digits.
  match goal with
  | |- parse_bytes ?b = _ =>
      change b with (ext_bytes (y / 1000) (y / 100 mod 10) (y mod 100 / 10) (y mod 100 mod 10)
                       (mo / 10) (mo mod 10) (d / 10) (d mod 10) (h / 10) (h mod 10)
                       (mi / 10) (mi mod 10) (s / 10) (s mod 10))
  end.
  rewrite parse_bytes_extended by assumption.
  repeat match goal with H : _ = _ |- _ => rewrite H; clear H end.
  reflexivity.
Qed.

Lemma fromisoformat_minutes :
  fromisoformat (iso_minute_text y mo d h mi "+00:00")
  = if valid_date y mo d && valid_time h mi 0 0
    then Some (mk_datetime y mo d h mi 0 0 (Some 0)) else None.
Proof.
  unfold fromisoformat, iso_minute_text.
  repeat first [ rewrite utf8_digits4 by assumption
               | rewrite utf8_digits2 by assumption
               | rewrite utf8_ascii by reflexivity ].
  change (utf8 "+00:00") with [43; 48; 48; 58; 48; 48].
  clear Hs. field_digits.
  match goal with
  | |- parse_bytes ?b = _ =>
      change b with (min_bytes (y / 1000) (y / 100 mod 10) (y mod 100 / 10) (y mod 100 mod 10)
                       (mo / 10) (mo mod 10) (d / 10) (d mod 10) (h / 10) (h mod 10)
                       (mi / 10) (mi mod 10))
  end.
  rewrite parse_bytes_minutes by assumption.
  repeat match goal with H : _ = _ |- _ => rewrite H; clear H end.
  reflexivity.
Qed.

Lemma fromisoformat_basic :
  fromisoformat (iso_basic_text y mo d h mi s "+00:00")
  = if valid_date y mo d && valid_time h mi s 0
    then Some (mk_datetime y mo d h mi s 0 (Some 0)) else None.
Proof.
  unfold fromisoformat, iso_basic_text.
  repeat first [ rewrite utf8_digits4 by assumption
               | rewrite utf8_digits2 by assumption
               | rewrite utf8_ascii by reflexivity ].
  change (utf8 "+00:00") with [43; 48; 48; 58; 48; 48].
  field_digits.
  match goal with
  | |- parse_bytes ?b = _ =>
      change b with (basic_bytes (y / 1000) (y / 100 mod 10) (y mod 100 / 10)
                       (y mod 100 mod 10)
                       (mo / 10) (mo mod 10) (d / 10) (d mod 10) (h / 10) (h mod 10)
                       (mi / 10) (mi mod 10) (s / 10) (s mod 10))
  end.
  rewrite parse_bytes_basic by assumption.
  repeat match goal with H : _ = _ |- _ => rewrite H; clear H end.
  reflexivity.
Qed.

Lemma fromisoformat_fraction (fs : list Z) :
  Forall is_digit_value fs -> (1 <= length fs <= 6)%nat ->
  fromisoformat (iso_text y mo d h mi s (String "." (digits_text fs "+00:00")))
  = if valid_date y mo d
       && valid_time h mi s (digits_value fs * 10 ^ (6 - Z.of_nat (length fs)))
    then Some (mk_datetime y mo d h mi s
                 (digits_value fs * 10 ^ (6 - Z.of_nat (length fs))) (Some 0))
    else None.
Proof.
  intros Hfs Hlen.
  unfold fromisoformat, iso_text.
  repeat first [ rewrite utf8_digits4 by assumption
               | rewrite utf8_digits2 by assumption
               | rewrite utf8_ascii by reflexivity ].
  rewrite utf8_digits_text by assumption.
  change (utf8 "+00:00") with [43; 48; 48; 58; 48; 48].
  field_digits.
  match goal with
  | |- parse_bytes ?b = _ =>
      change b with (frac_bytes (y / 1000) (y / 100 mod 10) (y mod 100 / 10)
                       (y mod 100 mod 10)
                       (mo / 10) (mo mod 10) (d / 10) (d mod 10) (h / 10) (h mod 10)
                       (mi / 10) (mi mod 10) (s / 10) (s mod 10) fs)
  end.
  rewrite parse_bytes_fraction by assumption.
  repeat match goal with H : _ = _ :> Z |- _ => rewrite H; clear H end.
  reflexivity.
Qed.

End Texts.

(** An ordinal date is not read. *)
Lemma fromisoformat_ordinal (y n h mi s : Z) :
  0 <= y <= 9999 -> 0 <= n <= 999 -> 0 <= h <= 99 -> 0 <= mi <= 99 -> 0 <= s <= 99 ->
  replace_char "Z" "+00:00" (iso_ordinal_text y n h mi s "Z")
  = iso_ordinal_text y n h mi s "+00:00"
  /\ fromisoformat (iso_ordinal_text y n h mi s "+00:00") = None.
Proof.
  intros Hy Hn Hh Hmi Hs. split.
  - unfold iso_ordinal_text.
    repeat first [ rewrite replace_digits4 by assumption
                 | rewrite replace_digits3 by assumption
                 | rewrite replace_digits2 by assumption
                 | rewrite replace_other by reflexivity ].
    reflexivity.
  - unfold fromisoformat, iso_ordinal_text.
    repeat first [ rewrite utf8_digits4 by assumption
                 | rewrite utf8_digits3 by assumption
                 | rewrite utf8_digits2 by assumption
                 | rewrite utf8_ascii by reflexivity ].
    change (utf8 "+00:00") with [43; 48; 48; 58; 48; 48].
    destruct (digits_of_four y Hy) as (Y1 & Y2 & Y34 & _).
    destruct (digits_of_two (y mod 100) Y34) as (Y3 & Y4 & _).
    destruct (digits_of_three n Hn) as (N1 & N23).
    destruct (digits_of_two (n mod 100) N23) as (N2 & N3 & _).
    match goal with
    | |- parse_bytes ?b = _ =>
        change b with (ordinal_bytes (y / 1000) (y / 100 mod 10) (y mod 100 / 10)
                         (y mod 100 mod 10) (n / 100) (n mod 100 / 10) (n mod 100 mod 10)
                         (h / 10) (h mod 10) (mi / 10) (mi mod 10) (s / 10) (s mod 10))
    end.
    apply parse_bytes_ordinal; assumption.
Qed.

(** One to six fraction digits are below a second. *)
Lemma fraction_microseconds (fs : list Z) :
  Forall is_digit_value fs -> (1 <= length fs <= 6)%nat ->
  0 <= digits_value fs * 10 ^ (6 - Z.of_nat (length fs)) <= 999999.
Proof.
  intros Hfs Hlen. unfold is_digit_value in *.
  destruct fs as [|f1 [|f2 [|f3 [|f4 [|f5 [|f6 [|f7 fs]]]]]]];
    cbn [length] in Hlen; try lia; clear Hlen;
    repeat match goal with
           | H : Forall _ (_ :: _) |- _ => apply Forall_cons in H as [? H]
           end;
    unfold digits_value; cbn [fold_left length];
    match goal with
    | |- context [10 ^ (6 - Z.of_nat ?k)] =>
        let p := eval vm_compute in (10 ^ (6 - Z.of_nat k)) in
        change (10 ^ (6 - Z.of_nat k)) with p
    end; lia.
Qed.

Lemma valid_time_fraction (h mi s us : Z) :
  valid_time h mi s 0 = true -> 0 <= us <= 999999 -> valid_time h mi s us = true.
Proof.
  unfold valid_time. intros H Hus.
  repeat (apply andb_prop in H as [H ?]).
  repeat (apply andb_true_intro; split); try assumption; lia.
Qed.

(** The timestamp reading of [READINGS]. *)
Lemma timestamp_reading_state (r : ReadingDef) (device_id : string)
    (data : option (gmap string payload)) :
  In r READINGS -> device_class r = Some TIMESTAMP ->
  native_value r device_id data
  = Ok (timestamp_state (payload_get (device_payload data device_id) (key r))).
Proof.
  intros Hin Hclass. unfold native_value.
  cbn [In READINGS] in Hin.
  destruct Hin as [<-|[<-|[<-|[<-|[<-|[<-|[<-|[<-|[]]]]]]]]]; try discriminate Hclass.
  reflexivity.
Qed.

(** C4, the counterexample: the ordinal date [2024-153T12:00:00Z] is an
    ISO 8601 text with a trailing [Z], and the sensor returns it as the
    text it is. *)
Lemma ordinal_date_stays_text :
  ~ (forall (r : ReadingDef) (device_id : string) (data : option (gmap string payload))
       (s : string),
       In r READINGS -> device_class r = Some TIMESTAMP ->
       iso_8601_utc s ->
       payload_get (device_payload data device_id) (key r) = VPy (PStr s) ->
       exists dt, native_value r device_id data = Ok (VDatetime dt) /\ tzinfo dt = Some 0).
Proof.
  intros H.
  destruct (H (mk_reading "time" "Last Reading" None (Some TIMESTAMP) None) "d1"
              (Some {[ "d1" := [("time", VPy (PStr "2024-153T12:00:00Z"))] ]})
              "2024-153T12:00:00Z") as (dt & Hdt & _).
  - vm_compute. tauto.
  - reflexivity.
  - apply (iso_ordinal 2024 153 12 0 0); vm_compute; intuition discriminate.
  - vm_compute. reflexivity.
  - vm_compute in Hdt. discriminate Hdt.
Qed.

(** C4 as amended: for a reading of the timestamp class, every [Z] of a
    text is replaced by [+00:00] and the result is read by [fromisoformat].
    A text [YYYY-MM-DDTHH:MM:SSZ], the same with one to six fraction digits
    after the seconds, [YYYY-MM-DDTHH:MMZ] or [YYYYMMDDTHHMMSSZ] with fields
    in range becomes the aware instant with these fields and the UTC offset
    zero.  A text [YYYY-MM-DDTHH:MM:SSZ] with a field out of range (a second
    60, an hour 24, a day the month does not have) and an ordinal date
    [YYYY-DDDTHH:MM:SSZ] are returned as the same text; a date alone before
    the [Z], as [2024-06-01Z], becomes a naive instant.  A value that is a
    timestamp already, or null, is returned as it is; and a text that does
    not parse, such as [not-a-date], is returned as the same text. *)
Theorem timestamp_state_cases (r : ReadingDef) (device_id : string)
    (data : option (gmap string payload)) :
  In r READINGS -> device_class r = Some TIMESTAMP ->
  let val := payload_get (device_payload data device_id) (key r) in
  (forall y mo d h mi s,
     valid_date y mo d = true -> valid_time h mi s 0 = true ->
     val = VPy (PStr (iso_text y mo d h mi s "Z")) ->
     native_value r device_id data = Ok (VDatetime (mk_datetime y mo d h mi s 0 (Some 0))))
  /\ (forall s,
        contains_char "Z" s = false -> val = VPy (PStr (s +:+ "Z")) ->
        native_value r device_id data =
        Ok (match fromisoformat (s +:+ "+00:00") with
            | Some dt => VDatetime dt
            | None => VPy (PStr (s +:+ "Z"))
            end))
  /\ (forall dt, val = VDatetime dt -> native_value r device_id data = Ok (VDatetime dt))
  /\ (val = VPy PNone -> native_value r device_id data = Ok (VPy PNone))
  /\ (forall s,
        val = VPy (PStr s) -> fromisoformat (replace_char "Z" "+00:00" s) = None ->
        native_value r device_id data = Ok (VPy (PStr s)))
  /\ fromisoformat (replace_char "Z" "+00:00" "not-a-date") = None
  /\ (val = VPy (PStr "not-a-date") ->
      native_value r device_id data = Ok (VPy (PStr "not-a-date")))
  /\ (forall y mo d h mi s fs,
        valid_date y mo d = true -> valid_time h mi s 0 = true ->
        Forall is_digit_value fs -> (1 <= length fs <= 6)%nat ->
        val = VPy (PStr (iso_text y mo d h mi s (String "." (digits_text fs "Z")))) ->
        native_value r device_id data
        = Ok (VDatetime (mk_datetime y mo d h mi s
                           (digits_value fs * 10 ^ (6 - Z.of_nat (length fs))) (Some 0))))
  /\ (forall y mo d h mi,
        valid_date y mo d = true -> valid_time h mi 0 0 = true ->
        val = VPy (PStr (iso_minute_text y mo d h mi "Z")) ->
        native_value r device_id data
        = Ok (VDatetime (mk_datetime y mo d h mi 0 0 (Some 0))))
  /\ (forall y mo d h mi s,
        valid_date y mo d = true -> valid_time h mi s 0 = true ->
        val = VPy (PStr (iso_basic_text y mo d h mi s "Z")) ->
        native_value r device_id data
        = Ok (VDatetime (mk_datetime y mo d h mi s 0 (Some 0))))
  /\ (forall y mo d h mi s,
        0 <= y <= 9999 -> 0 <= mo <= 99 -> 0 <= d <= 99 ->
        0 <= h <= 99 -> 0 <= mi <= 99 -> 0 <= s <= 99 ->
        valid_date y mo d && valid_time h mi s 0 = false ->
        val = VPy (PStr (iso_text y mo d h mi s "Z")) ->
        native_value r device_id data = Ok (VPy (PStr (iso_text y mo d h mi s "Z"))))
  /\ (forall y n h mi s,
        0 <= y <= 9999 -> 0 <= n <= 999 -> 0 <= h <= 99 -> 0 <= mi <= 99 -> 0 <= s <= 99 ->
        val = VPy (PStr (iso_ordinal_text y n h mi s "Z")) ->
        native_value r device_id data = Ok (VPy (PStr (iso_ordinal_text y n h mi s "Z"))))
  /\ (val = VPy (PStr "2024-06-01Z") ->
      native_value r device_id data = Ok (VDatetime (mk_datetime 2024 6 1 0 0 0 0 None)))
  /\ (forall s dt,
        val = VPy (PStr s) -> fromisoformat (replace_char "Z" "+00:00" s) = Some dt ->
        native_value r device_id data = Ok (VDatetime dt)).
Proof.
  intros Hin Hclass val.
  rewrite (timestamp_reading_state r device_id data Hin Hclass). fold val.
  split; [|split; [|split; [|split; [|split; [|split; [|split; [|split; [|split;
    [|split; [|split; [|split; [|split]]]]]]]]]]]].
  - intros y mo d h mi s Hd Ht ->. cbn [timestamp_state].
    rewrite (replace_trailing_z _ _ _ _ _ _ Hd Ht), (fromisoformat_extended _ _ _ _ _ _ Hd Ht).
    reflexivity.
  - intros s Hs ->. cbn [timestamp_state].
    rewrite (replace_trailing "Z" "+00:00" s Hs).
    destruct (fromisoformat (s +:+ "+00:00")); reflexivity.
  - intros dt ->. reflexivity.
  - intros ->. reflexivity.
  - intros s -> Hs. cbn [timestamp_state]. rewrite Hs. reflexivity.
  - vm_compute. reflexivity.
  - intros ->. vm_compute. reflexivity.
  - intros y mo d h mi s fs Hd Ht Hfs Hlen ->. cbn [timestamp_state].
    destruct (valid_date_range _ _ _ Hd) as (Hy & Hmo & Hdd).
    destruct (valid_time_range _ _ _ _ Ht) as (Hh & Hmi & Hs).
    rewrite replace_iso_text by assumption.
    cbn [replace_char]. change (Ascii.eqb "." "Z") with false. cbv iota.
    rewrite (replace_digits_text fs "+00:00" "Z" Hfs).
    change (replace_char "Z" "+00:00" "Z") with "+00:00"%string.
    rewrite fromisoformat_fraction by assumption.
    rewrite Hd, (valid_time_fraction _ _ _ _ Ht (fraction_microseconds fs Hfs Hlen)).
    reflexivity.
  - intros y mo d h mi Hd Ht ->. cbn [timestamp_state].
    destruct (valid_date_range _ _ _ Hd) as (Hy & Hmo & Hdd).
    destruct (valid_time_range _ _ _ _ Ht) as (Hh & Hmi & _).
    rewrite replace_iso_minute_text by assumption.
    change (replace_char "Z" "+00:00" "Z") with "+00:00"%string.
    rewrite fromisoformat_minutes by assumption. rewrite Hd, Ht. reflexivity.
  - intros y mo d h mi s Hd Ht ->. cbn [timestamp_state].
    destruct (valid_date_range _ _ _ Hd) as (Hy & Hmo & Hdd).
    destruct (valid_time_range _ _ _ _ Ht) as (Hh & Hmi & Hs).
    rewrite replace_iso_basic_text by assumption.
    change (replace_char "Z" "+00:00" "Z") with "+00:00"%string.
    rewrite fromisoformat_basic by assumption. rewrite Hd, Ht. reflexivity.
  - intros y mo d h mi s Hy Hmo Hd Hh Hmi Hs Hv ->. cbn [timestamp_state].
    rewrite replace_iso_text by assumption.
    change (replace_char "Z" "+00:00" "Z") with "+00:00"%string.
    rewrite fromisoformat_extended_fields by assumption. rewrite Hv. reflexivity.
  - intros y n h mi s Hy Hn Hh Hmi Hs ->. cbn [timestamp_state].
    destruct (fromisoformat_ordinal y n h mi s Hy Hn Hh Hmi Hs) as [-> ->]. reflexivity.
  - intros ->. vm_compute. reflexivity.
  - intros s dt -> Hs. cbn [timestamp_state]. rewrite Hs. reflexivity.
Qed.

Lemma timestamp_state_cases_witness :
  native_value (mk_reading "time" "Last Reading" None (Some TIMESTAMP) None) "d1"
    (Some {[ "d1" := [("time", VPy (PStr "2024-06-01T12:00:00Z"))] ]})
  = Ok (VDatetime (mk_datetime 2024 6 1 12 0 0 0 (Some 0))).
Proof.
  destruct (timestamp_state_cases
              (mk_reading "time" "Last Reading" None (Some TIMESTAMP) None) "d1"
              (Some {[ "d1" := [("time", VPy (PStr "2024-06-01T12:00:00Z"))] ]}))
    as (H & _).
  - vm_compute. tauto.
  - reflexivity.
  - apply (H 2024 6 1 12 0 0); vm_compute; reflexivity.
Defined.

(** *** The gravity points *)

Lemma zrange_In (len : nat) (start n : Z) :
  start <= n < start + Z.of_nat len -> In n (zrange len start).
Proof.
  revert start. induction len as [|len IH]; intros start H; [lia|].
  cbn [zrange]. destruct (Z.eq_dec start n) as [->|Hne]; [left; reflexivity|].
  right. apply IH. lia.
Qed.

Lemma points_exact_range : forallb points_exact (zrange 2001 0) = true.
Proof. vm_compute. reflexivity. Qed.

Lemma int_points_exact_range : forallb int_points_exact (zrange 2001 (-1000)) = true.
Proof. vm_compute. reflexivity. Qed.

(** C7: the state of the gravity-points sensor is
    [round((gravity - 1.0) * 1000)] for a density that is an [int] or a
    [float], and for a text that reads as a float after stripping; it is null
    when the density is missing, null, or not numeric.  Density 1.0487 gives
    49, density 1.0000 gives 0, and a null density gives null.  For an [int]
    the formula is taken at its float: an [int] between -1000 and 1000 gives
    exactly its thousandths above one (2 gives 1000), [True] gives 0 and
    [False] gives -1000, and an [int] beyond the floats raises as the
    conversion does; a float density with three decimals between 0 and 2
    gives exactly its thousandths above one. *)
Theorem gravity_points_state (r : ReadingDef) (device_id : string)
    (data : option (gmap string payload)) :
  key r = "gravity_points" ->
  let sg := payload_get (device_payload data device_id) "density" in
  (forall p, sg = VPy p -> is_int_or_float p = true ->
     native_value r device_id data = gravity_points p)
  /\ (forall s x, sg = VPy (PStr s) -> float_of_str (strip s) = Some x ->
        native_value r device_id data = gravity_points (PFloat x))
  /\ (forall x, gravity_points (PFloat x) =
                match py_round (SFmul prec emax (SFsub prec emax x (float_lit "1.0"))
                                  (float_lit "1000")) with
                | Ok n => Ok (VPy (PInt n))
                | Raise e => Raise e
                end)
  /\ (payload_lookup (device_payload data device_id) "density" = None ->
      native_value r device_id data = Ok (VPy PNone))
  /\ (sg = VPy PNone -> native_value r device_id data = Ok (VPy PNone))
  /\ (non_numeric sg -> native_value r device_id data = Ok (VPy PNone))
  /\ gravity_points (PFloat (float_lit "1.0487")) = Ok (VPy (PInt 49))
  /\ gravity_points (PFloat (float_lit "1.0000")) = Ok (VPy (PInt 0))
  /\ (forall n x, sg = VPy (PInt n) -> float_of_int n = Ok x ->
        native_value r device_id data =
        match py_round (SFmul prec emax (SFsub prec emax x (float_lit "1.0"))
                          (float_lit "1000")) with
        | Ok k => Ok (VPy (PInt k))
        | Raise e => Raise e
        end)
  /\ (forall n e, sg = VPy (PInt n) -> float_of_int n = Raise e ->
        native_value r device_id data = Raise e)
  /\ (forall n, -1000 <= n <= 1000 -> sg = VPy (PInt n) ->
        native_value r device_id data = Ok (VPy (PInt ((n - 1) * 1000))))
  /\ (forall b, sg = VPy (PBool b) ->
        native_value r device_id data = Ok (VPy (PInt (if b then 0 else -1000))))
  /\ (forall n, 0 <= n <= 2000 -> sg = VPy (PFloat (decimal n 3)) ->
        native_value r device_id data = Ok (VPy (PInt (n - 1000)))).
Proof.
  intros Hkey sg. unfold native_value. rewrite Hkey. cbn [String.eqb Ascii.eqb Bool.eqb].
  change (String.eqb "gravity_points" "gravity_points") with true. cbv iota.
  fold sg.
  split; [|split; [|split; [|split; [|split; [|split; [|split; [|split;
    [|split; [|split; [|split; [|split]]]]]]]]]]].
  - intros p -> Hp. destruct p; try discriminate Hp; reflexivity.
  - intros s x -> Hx. cbn [numeric_state]. rewrite Hx. reflexivity.
  - reflexivity.
  - intros Hnone. unfold sg, payload_get. rewrite Hnone. reflexivity.
  - intros ->. reflexivity.
  - unfold non_numeric. destruct sg as [p|dt]; [|reflexivity].
    destruct p; cbn [numeric_state is_int_or_float]; try discriminate; try reflexivity.
    intros ->. reflexivity.
  - reflexivity.
  - reflexivity.
  - intros n x -> Hx. cbn [numeric_state is_int_or_float]. unfold gravity_points.
    cbn [to_float]. rewrite Hx. reflexivity.
  - intros n e -> Hx. cbn [numeric_state is_int_or_float]. unfold gravity_points.
    cbn [to_float]. rewrite Hx. reflexivity.
  - intros n Hn ->. cbn [numeric_state is_int_or_float].
    pose proof (proj1 (forallb_forall int_points_exact (zrange 2001 (-1000)))
                  int_points_exact_range n (zrange_In 2001 (-1000) n ltac:(lia))) as Hk.
    unfold int_points_exact in Hk.
    destruct (gravity_points (PInt n)) as [[[| |k| | | |]|]|]; try discriminate Hk.
    apply Z.eqb_eq in Hk. subst k. reflexivity.
  - intros b ->. destruct b; vm_compute; reflexivity.
  - intros n Hn ->. cbn [numeric_state is_int_or_float].
    pose proof (proj1 (forallb_forall points_exact (zrange 2001 0)) points_exact_range n
                  (zrange_In 2001 0 n ltac:(lia))) as Hk.
    unfold points_exact in Hk.
    destruct (gravity_points (PFloat (decimal n 3))) as [[[| |k| | | |]|]|];
      try discriminate Hk.
    apply Z.eqb_eq in Hk. subst k. reflexivity.
Qed.

(** On the records the poll cycle produces the density is null or a float,
    so the gravity-points state is null or the rounded formula. *)
Lemma gravity_points_of_fetched_record {world : Type}
    (session_get : request -> world -> result pyval * world) (self : client)
    (w w' : world) (out : gmap string pyval) (r : ReadingDef) (k : string) (rec : pyval) :
  key r = "gravity_points" ->
  fetch_readings session_get self w = (Ok out, w') ->
  out !! k = Some rec ->
  exists fields,
    rec = PDict fields
    /\ ((dict_get fields "density" = PNone
         /\ native_value r k (Some (payload_of_record <$> out)) = Ok (VPy PNone))
        \/ (exists x, dict_get fields "density" = PFloat x
                      /\ native_value r k (Some (payload_of_record <$> out))
                         = gravity_points (PFloat x))).
Proof.
  intros Hkey H Hk.
  destruct (fetch_readings_records session_get self w w' out H)
    as (devices & w1 & devs & _ & _ & Hrec).
  destruct (Hrec k rec Hk) as (dev & _ & Hdev).
  apply record_of_device_name in Hdev
    as (d & name & battery & wifi & temp & sg & time & fermenter & batch
        & _ & -> & _ & _ & _ & Hs & _).
  eexists. split; [reflexivity|].
  unfold native_value, device_payload. rewrite Hkey, lookup_fmap, Hk.
  change (String.eqb "gravity_points" "gravity_points") with true. cbv iota.
  change (payload_get _ "density") with (VPy sg).
  change (dict_get _ "density") with sg.
  destruct Hs as [->|[x ->]]; [left | right; exists x]; split; reflexivity.
Qed.

Lemma gravity_points_state_witness :
  native_value (mk_reading "gravity_points" "Gravity Points" (Some "pts") None (Some MEASUREMENT))
    "d1" (Some {[ "d1" := [("name", VPy (PStr "Fermenter 1"));
                           ("density", VPy (PFloat (float_lit "1.0487")))] ]})
  = Ok (VPy (PInt 49)).
Proof.
  destruct (gravity_points_state
              (mk_reading "gravity_points" "Gravity Points" (Some "pts") None (Some MEASUREMENT))
              "d1" (Some {[ "d1" := [("name", VPy (PStr "Fermenter 1"));
                                     ("density", VPy (PFloat (float_lit "1.0487")))] ]})
              eq_refl) as (H & _ & _ & _ & _ & _ & H49 & _).
  rewrite (H (PFloat (float_lit "1.0487"))); [exact H49 | vm_compute; reflexivity | reflexivity].
Defined.

(** ** Further properties of the client *)

(** *** The pure helpers *)

Lemma pick_keys_none (d : dict) (keys : list string) :
  pick_keys d keys = PNone <-> forall k, In k keys -> dict_get d k = PNone.
Proof.
  induction keys as [|k keys IH]; cbn [pick_keys].
  - split; [intros _ k [] | reflexivity].
  - destruct (dict_get d k) eqn:Hk; cbn [is_none];
      try (split; [discriminate | intros H; rewrite <- Hk; apply H; left; reflexivity]).
    rewrite IH. split.
    + intros H k' [<-|Hin]; [exact Hk | apply H, Hin].
    + intros H k' Hin. apply H. right. exact Hin.
Qed.

Lemma pick_keys_some (d : dict) (keys : list string) (v : pyval) :
  pick_keys d keys = v -> v <> PNone ->
  exists pre k post,
    keys = pre ++ k :: post /\ (forall k', In k' pre -> dict_get d k' = PNone)
    /\ dict_lookup d k = Some v.
Proof.
  induction keys as [|k keys IH]; cbn [pick_keys]; [congruence|].
  destruct (is_none (dict_get d k)) eqn:Hn.
  - intros H Hv. destruct (IH H Hv) as (pre & k0 & post & -> & Hpre & Hk0).
    exists (k :: pre), k0, post. repeat split; [|exact Hk0].
    intros k' [<-|Hin]; [|apply Hpre, Hin].
    destruct (dict_get d k); try discriminate Hn. reflexivity.
  - intros H Hv. exists [], k, keys. repeat split; [intros k' [] |].
    unfold dict_get in *. destruct (dict_lookup d k); [congruence|].
    discriminate Hn.
Qed.

Lemma pick_keys_first (d : dict) (pre post : list string) (k : string) :
  (forall k', In k' pre -> dict_get d k' = PNone) ->
  dict_get d k <> PNone ->
  pick_keys d (pre ++ k :: post) = dict_get d k.
Proof.
  intros Hpre Hk. induction pre as [|p pre IH]; cbn [app pick_keys].
  - destruct (dict_get d k); try reflexivity. congruence.
  - rewrite (Hpre p (or_introl eq_refl)). cbn [is_none].
    apply IH. intros k' Hin. apply Hpre. right. exact Hin.
Qed.

(** X1: [pick] returns [None] exactly when its argument is not a [dict] or
    every listed key is absent or holds [None]; it returns a value other
    than [None] exactly when the argument is a [dict] and the value is held
    by the first listed key whose value is not [None].  A falsy value other
    than [None] (zero, [False], the empty text) is picked like any other. *)
Theorem pick_first_value_not_none (d : pyval) (keys : list string) :
  (pick d keys = PNone <->
   forall e, d = PDict e -> forall k, In k keys -> dict_get e k = PNone)
  /\ (forall v, v <> PNone ->
        (pick d keys = v <->
         exists e pre k post,
           d = PDict e /\ keys = pre ++ k :: post
           /\ (forall k', In k' pre -> dict_get e k' = PNone)
           /\ dict_lookup e k = Some v))
  /\ (forall e k v, dict_lookup e k = Some v -> v <> PNone -> pick (PDict e) [k] = v).
Proof.
  split; [|split].
  - destruct d as [| | | | | |e]; cbn [pick];
      try (split; [intros _ e [=] | reflexivity]).
    rewrite pick_keys_none. split.
    + intros H e' [= <-]. exact H.
    + intros H. apply H. reflexivity.
  - intros v Hv. split.
    + destruct d as [| | | | | |e]; cbn [pick]; try congruence.
      intros H. destruct (pick_keys_some e keys v H Hv) as (pre & k & post & ? & ? & ?).
      exists e, pre, k, post. auto.
    + intros (e & pre & k & post & -> & -> & Hpre & Hk). cbn [pick].
      assert (Hg : dict_get e k = v) by (unfold dict_get; rewrite Hk; reflexivity).
      rewrite pick_keys_first; [exact Hg | exact Hpre | congruence].
  - intros e k v Hk Hv. cbn [pick pick_keys]. unfold dict_get. rewrite Hk.
    destruct v; reflexivity.
Qed.

Lemma only_dicts_filter (l : list pyval) :
  map PDict (only_dicts l) = List.filter is_dict l.
Proof.
  induction l as [|x l IH]; [reflexivity|].
  destruct x; cbn [only_dicts List.filter is_dict map]; rewrite ?IH; reflexivity.
Qed.

Lemma only_dicts_map (ds : list dict) : only_dicts (map PDict ds) = ds.
Proof. induction ds as [|d ds IH]; [reflexivity|]. cbn. rewrite IH. reflexivity. Qed.

Lemma first_list_under_first (d : dict) (pre post : list string) (k : string) (l : list pyval) :
  (forall k', In k' pre -> is_list (dict_get d k') = false) ->
  dict_get d k = PList l ->
  first_list_under d (pre ++ k :: post) = Some l.
Proof.
  intros Hpre Hk. induction pre as [|p pre IH]; cbn [app first_list_under].
  - rewrite Hk. reflexivity.
  - specialize (Hpre p (or_introl eq_refl)) as Hp.
    destruct (dict_get d p); try discriminate Hp;
      apply IH; intros k' Hin; apply Hpre; right; exact Hin.
Qed.

Lemma first_list_under_none (d : dict) (keys : list string) :
  (forall k, In k keys -> is_list (dict_get d k) = false) ->
  first_list_under d keys = None.
Proof.
  induction keys as [|k keys IH]; intros H; cbn [first_list_under]; [reflexivity|].
  specialize (H k (or_introl eq_refl)) as Hk.
  destruct (dict_get d k); try discriminate Hk;
    apply IH; intros k' Hin; apply H; right; exact Hin.
Qed.

(** X2: [normalize_list_response] keeps, in order, the elements of a list
    answer that are objects.  For an object answer it does so with the list
    under the first of [items], [data], [results], [batches] that holds a
    list, an empty one included, and gives the empty list when none of them
    holds a list; any other answer gives the empty list.  Normalising a
    normalised answer changes nothing. *)
Theorem normalize_list_response_keeps_dicts (data : pyval) :
  (forall l, data = PList l ->
     map PDict (normalize_list_response data) = List.filter is_dict l)
  /\ (forall d pre k post l,
        data = PDict d -> ["items"; "data"; "results"; "batches"] = pre ++ k :: post ->
        (forall k', In k' pre -> is_list (dict_get d k') = false) ->
        dict_get d k = PList l ->
        map PDict (normalize_list_response data) = List.filter is_dict l)
  /\ (forall d,
        data = PDict d ->
        (forall k, In k ["items"; "data"; "results"; "batches"] ->
                   is_list (dict_get d k) = false) ->
        normalize_list_response data = [])
  /\ (is_list data = false -> is_dict data = false -> normalize_list_response data = [])
  /\ normalize_list_response (PList (map PDict (normalize_list_response data)))
     = normalize_list_response data.
Proof.
  repeat split.
  - intros l ->. apply only_dicts_filter.
  - intros d pre k post l -> Hkeys Hpre Hk. cbn [normalize_list_response].
    rewrite Hkeys, (first_list_under_first d pre post k l Hpre Hk).
    apply only_dicts_filter.
  - intros d -> H. cbn [normalize_list_response].
    rewrite first_list_under_none by exact H. reflexivity.
  - destruct data; try reflexivity; discriminate.
  - cbn [normalize_list_response]. apply only_dicts_map.
Qed.

Lemma item_id_orders (item : pyval) :
  one_identifier item ->
  item_id ["id"; "_id"; "deviceId"; "proId"] item = item_id ["id"; "deviceId"; "proId"; "_id"] item.
Proof.
  destruct item as [| | | | | |d]; try reflexivity.
  cbn [one_identifier]. unfold item_id. cbn [is_str_or_int fold_right]. unfold py_or.
  intros H.
  destruct (truthy (dict_get d "id")) eqn:E1, (truthy (dict_get d "_id")) eqn:E2,
           (truthy (dict_get d "deviceId")) eqn:E3, (truthy (dict_get d "proId")) eqn:E4;
    cbv iota; rewrite ?E1, ?E2, ?E3, ?E4; try reflexivity;
    destruct H as [H|[H|[H1 H2]]]; discriminate.
Qed.

(** X3: on a list whose object elements each have a truthy [id], a falsy
    [_id], or falsy [deviceId] and [proId],
    [extract_device_ids_from_batch_devices] and [collect_device_ids] return
    the same identifiers: the two differ only in the order in which they try
    [_id] against [deviceId] and [proId]. *)
Theorem extractors_agree_on_lists (l : list pyval) :
  Forall one_identifier l ->
  extract_device_ids_from_batch_devices (PList l) = collect_device_ids (PList l).
Proof.
  intros H. cbn [extract_device_ids_from_batch_devices collect_device_ids].
  induction H as [|x l Hx _ IH]; [reflexivity|].
  cbn [flat_map]. rewrite IH, (item_id_orders x Hx). reflexivity.
Qed.

Lemma extractors_agree_on_lists_witness :
  extract_device_ids_from_batch_devices
    (PList [PStr "d1"; PInt 7; PDict [("_id", PStr "d2")]; PDict [("name", PStr "x")];
            PDict [("id", PStr "d3"); ("_id", PStr "x"); ("deviceId", PStr "y")]])
  = ["d1"; "7"; "d2"; "d3"]
  /\ collect_device_ids
       (PList [PStr "d1"; PInt 7; PDict [("_id", PStr "d2")]; PDict [("name", PStr "x")];
               PDict [("id", PStr "d3"); ("_id", PStr "x"); ("deviceId", PStr "y")]])
     = ["d1"; "7"; "d2"; "d3"].
Proof.
  rewrite <- (extractors_agree_on_lists
                [PStr "d1"; PInt 7; PDict [("_id", PStr "d2")]; PDict [("name", PStr "x")];
                 PDict [("id", PStr "d3"); ("_id", PStr "x"); ("deviceId", PStr "y")]]).
  - split; vm_compute; reflexivity.
  - repeat (constructor; [vm_compute; auto|]). constructor.
Defined.

(** *** The requests of a poll cycle *)

Section Journal.

Context {world : Type}.
Variable session_get : request -> world -> result pyval * world.
Variable self : client.
Variable P : request -> Prop.

Local Abbreviation J := (world * list request)%type.

Lemma sends_ret {A : Type} (a : A) : sends P 0 (ret (world := J) a).
Proof. intros w log. exists []. rewrite app_nil_r. repeat split; auto. Qed.

Lemma sends_lift {A : Type} (r : result A) : sends P 0 (lift (world := J) r).
Proof. intros w log. exists []. rewrite app_nil_r. repeat split; auto. Qed.

Lemma sends_weaken {A : Type} (n n' : nat) (m : @M J A) :
  (n <= n')%nat -> sends P n m -> sends P n' m.
Proof.
  intros Hle H w log. destruct (H w log) as (rs & ? & ? & ?).
  exists rs. repeat split; auto. lia.
Qed.

Lemma sends_bind {A B : Type} (n1 n2 : nat) (m : @M J A) (k : A -> @M J B) :
  sends P n1 m -> (forall a, sends P n2 (k a)) -> sends P (n1 + n2) (bind m k).
Proof.
  intros Hm Hk w log. unfold bind.
  destruct (Hm w log) as (rs1 & H1 & HP1 & Hn1).
  destruct (m (w, log)) as [[a|e] [w1 log1]]; cbn [snd] in *; subst log1.
  - destruct (Hk a w1 (log ++ rs1)) as (rs2 & H2 & HP2 & Hn2).
    exists (rs1 ++ rs2). rewrite H2, app_assoc, length_app.
    repeat split; [apply Forall_app; auto | lia].
  - exists rs1. repeat split; auto. lia.
Qed.

Lemma sends_get (path : string) (params : option (list (string * Z))) :
  P (get_request self path params) ->
  sends P 1 (_get (logged session_get) self path params).
Proof.
  intros HP w log. unfold _get, logged. cbn [fst snd].
  fold (get_request self path params).
  destruct (session_get (get_request self path params) w) as [a w1].
  exists [get_request self path params]. repeat split; auto.
Qed.

Lemma get_journal (path : string) (params : option (list (string * Z)))
    (w : world) (log : list request) :
  _get (logged session_get) self path params (w, log)
  = (fst (_get session_get self path params w),
     (snd (_get session_get self path params w), log ++ [get_request self path params])).
Proof.
  unfold _get, logged. cbn [fst snd]. fold (get_request self path params).
  destruct (session_get (get_request self path params) w); reflexivity.
Qed.

Lemma sends_try_candidates (cands : list (string * list (string * Z))) :
  (forall c, In c cands -> P (get_request self (fst c) (Some (snd c)))) ->
  sends P (length cands) (try_candidates (logged session_get) self cands).
Proof.
  induction cands as [|[path params] rest IH]; intros HP; cbn [try_candidates].
  - apply sends_ret.
  - intros w log.
    destruct (sends_get path (Some params) (HP _ (or_introl eq_refl)) w log)
      as (rs1 & H1 & HP1 & Hn1).
    destruct (_get (logged session_get) self path (Some params) (w, log))
      as [[data|e] [w1 log1]]; cbn [snd] in *; subst log1.
    + exists rs1. repeat split; auto. cbn [length]. lia.
    + destruct (IH (fun c Hc => HP c (or_intror Hc)) w1 (log ++ rs1))
        as (rs2 & H2 & HP2 & Hn2).
      exists (rs1 ++ rs2). rewrite H2, app_assoc, length_app.
      repeat split; [apply Forall_app; auto | cbn [length]; lia].
Qed.

Lemma sends_fetch_batches_from (variants : list (option (list (string * Z))))
    (bs : list dict) :
  (forall p, In p variants -> P (get_request self "/batches" p)) ->
  sends P (length variants) (fetch_batches_from (logged session_get) self variants bs).
Proof.
  revert bs. induction variants as [|p rest IH]; intros bs HP; cbn [fetch_batches_from].
  - apply sends_ret.
  - intros w log.
    destruct (sends_get "/batches" p (HP _ (or_introl eq_refl)) w log)
      as (rs1 & H1 & HP1 & Hn1).
    destruct (_get (logged session_get) self "/batches" p (w, log))
      as [[raw|e] [w1 log1]]; cbn [snd] in *; subst log1.
    + destruct (normalize_list_response raw) as [|b found].
      * destruct (IH [] (fun c Hc => HP c (or_intror Hc)) w1 (log ++ rs1))
          as (rs2 & H2 & HP2 & Hn2).
        exists (rs1 ++ rs2). rewrite H2, app_assoc, length_app.
        repeat split; [apply Forall_app; auto | cbn [length]; lia].
      * exists rs1. repeat split; auto. cbn [length]. lia.
    + destruct (IH bs (fun c Hc => HP c (or_intror Hc)) w1 (log ++ rs1))
        as (rs2 & H2 & HP2 & Hn2).
      exists (rs1 ++ rs2). rewrite H2, app_assoc, length_app.
      repeat split; [apply Forall_app; auto | cbn [length]; lia].
Qed.

Lemma sends_fetch_fermenters :
  P (get_request self "/fermenters" None) ->
  sends P 1 (fetch_fermenters (logged session_get) self).
Proof.
  intros HP w log. unfold fetch_fermenters, try_except, bind, ret.
  destruct (sends_get "/fermenters" None HP w log) as (rs1 & H1 & HP1 & Hn1).
  destruct (_get (logged session_get) self "/fermenters" None (w, log))
    as [[raw|e] [w1 log1]]; cbn [snd] in *; subst log1; exists rs1; auto.
Qed.

Lemma sends_refine_nested (latest : pyval) (key : string) (inner : list string) (cur : pyval) :
  sends P 0 (refine_nested (world := J) latest key inner cur).
Proof.
  unfold refine_nested. destruct (is_none cur); [|apply sends_ret].
  apply (sends_bind 0 0); [apply sends_lift|].
  intros f. destruct (is_dict f); [apply sends_lift | apply sends_ret].
Qed.

Lemma sends_from_reading (reading : pyval) (keys inner : list string) (cur : pyval) :
  sends P 0 (from_reading (world := J) reading keys inner cur).
Proof.
  unfold from_reading. destruct (is_none cur); [apply sends_lift | apply sends_ret].
Qed.

Lemma sends_bind_lift {A B : Type} (n : nat) (r : result A) (k : A -> @M J B) :
  (forall a, r = Ok a -> sends P n (k a)) -> sends P n (bind (lift (world := J) r) k).
Proof.
  intros Hk. destruct r as [a|e].
  - exact (Hk a eq_refl).
  - intros w log. exists []. rewrite app_nil_r. repeat split; auto. cbn [length]. lia.
Qed.

Lemma sends_latest_reading (device_id : string) :
  reading_requests self P device_id ->
  sends P 4 (_get_latest_reading (logged session_get) self device_id).
Proof.
  intros H. unfold _get_latest_reading.
  apply (sends_try_candidates (candidates device_id)), H.
Qed.

Lemma sends_process_device (ferm : gmap string string) (best : gmap string dict)
    (out : gmap string pyval) (dev : pyval) :
  (forall d, dev = PDict d -> truthy (dict_get d "id") = true ->
             reading_requests self P (py_str (dict_get d "id"))) ->
  sends P 4 (process_device (logged session_get) self ferm best out dev).
Proof.
  intros HP. unfold process_device.
  apply sends_bind_lift. intros dev_id Hid.
  destruct (truthy dev_id) eqn:Htr; cbn [negb];
    [|apply (sends_weaken 0); [lia | apply sends_ret]].
  assert (Hreq : reading_requests self P (py_str dev_id)).
  { destruct dev as [| | | | | |d]; try discriminate Hid.
    injection Hid as <-. apply (HP d eq_refl Htr). }
  apply (sends_bind 0 4); [apply sends_lift|]. intros latest.
  apply (sends_bind 0 4); [apply sends_lift|]. intros temp.
  apply (sends_bind 0 4); [apply sends_lift|]. intros sg.
  apply (sends_bind 0 4); [apply sends_refine_nested|]. intros temp2.
  apply (sends_bind 0 4); [apply sends_refine_nested|]. intros sg2.
  apply (sends_bind 4 0).
  - destruct (is_none temp2 || is_none sg2);
      [|apply (sends_weaken 0); [lia | apply sends_ret]].
    apply (sends_bind 4 0); [apply sends_latest_reading, Hreq|]. intros reading.
    destruct (is_dict reading); [|apply sends_ret].
    apply (sends_bind 0 0); [apply sends_from_reading|]. intros temp3.
    apply (sends_bind 0 0); [apply sends_from_reading|]. intros sg3.
    apply sends_ret.
  - intros [[temp3 sg3] time3].
    apply (sends_bind 0 0); [apply sends_lift|]. intros name. apply sends_ret.
Qed.

Lemma sends_process_devices (ferm : gmap string string) (best : gmap string dict)
    (devs : list pyval) (out : gmap string pyval) :
  (forall d, In (PDict d) devs -> truthy (dict_get d "id") = true ->
             reading_requests self P (py_str (dict_get d "id"))) ->
  sends P (4 * length devs) (process_devices (logged session_get) self ferm best devs out).
Proof.
  revert out. induction devs as [|dev devs IH]; intros out HP; cbn [process_devices].
  - apply sends_ret.
  - replace (4 * length (dev :: devs))%nat with (4 + 4 * length devs)%nat
      by (cbn [length]; lia).
    apply sends_bind.
    + apply sends_process_device. intros d -> Htr. apply HP; [left; reflexivity | exact Htr].
    + intros out'. apply IH. intros d Hin. apply HP. right. exact Hin.
Qed.

Lemma sends_build_output (devices : pyval) (fs bs : list dict) :
  (forall d, In (PDict d) (entries devices) -> truthy (dict_get d "id") = true ->
             reading_requests self P (py_str (dict_get d "id"))) ->
  sends P (4 * length (entries devices))
    (build_output (logged session_get) self devices fs bs).
Proof.
  intros HP w log. revert HP. unfold build_output, bind, lift, entries.
  destruct (py_iter (py_or devices (PList []))) as [devs|e]; intros HP.
  - apply sends_process_devices, HP.
  - exists []. rewrite app_nil_r. repeat split; auto.
Qed.

End Journal.

Lemma endpoint_request (self : client) (devices : pyval) (path : string)
    (params : option (list (string * Z))) :
  endpoint devices path params -> client_request self devices (get_request self path params).
Proof. intros H. exists path, params. auto. Qed.

Lemma app_inv_head_string (a x y : string) : a +:+ x = a +:+ y -> x = y.
Proof.
  induction a as [|c a IH]; rewrite ?app_cons, ?app_nil; [auto|].
  intros H. injection H as H. auto.
Qed.

(** None of these requests is the [/devices] request. *)
Lemma endpoint_not_devices (devices : pyval) (path : string)
    (params : option (list (string * Z))) :
  endpoint devices path params -> path <> "/devices".
Proof.
  intros [|p Hp|d c Hin Htr Hc]; try discriminate.
  unfold candidates in Hc. cbn [In] in Hc.
  destruct Hc as [<-|[<-|[<-|[<-|[]]]]]; cbn [fst];
    rewrite !app_cons, app_nil; discriminate.
Qed.

Lemma client_request_not_devices (self : client) (devices : pyval) (r : request) :
  client_request self devices r -> r <> get_request self "/devices" None.
Proof.
  intros (path & params & He & ->) H.
  apply (endpoint_not_devices _ _ _ He).
  unfold get_request in H. injection H as H _.
  apply app_inv_head_string in H. exact H.
Qed.

(** X4: a poll cycle sends the [/devices] request first and never again.
    When it is answered, every later request is a request of this client
    (its base URL, its key header, the timeout of 20 seconds) for
    [/fermenters], for [/batches] with one of the four parameter variants,
    or for one of the four latest-reading candidates of an entry of the
    answer with a truthy [id]; there are at most five of them and four for
    each entry of the answer.  When the [/devices] request raises, no
    request follows. *)
Theorem poll_cycle_requests {world : Type}
    (session_get : request -> world -> result pyval * world) (self : client)
    (w : world) (log : list request) :
  exists rs,
    snd (snd (fetch_readings (logged session_get) self (w, log)))
    = log ++ get_request self "/devices" None :: rs
    /\ Forall (fun r => r <> get_request self "/devices" None) rs
    /\ match fst (session_get (get_request self "/devices" None) w) with
       | Ok devices =>
           Forall (client_request self devices) rs
           /\ (length rs <= 5 + 4 * length (entries devices))%nat
       | Raise _ => rs = []
       end.
Proof.
  unfold fetch_readings, bind at 1. rewrite get_journal. unfold _get at 1 2.
  fold (get_request self "/devices" None).
  destruct (session_get (get_request self "/devices" None) w) as [[devices|e] w1];
    cbn [fst snd]; [|exists []; auto].
  assert (H : sends (client_request self devices) (1 + (4 + 4 * length (entries devices)))
                (bind (fetch_fermenters (logged session_get) self) (fun fermenters =>
                 bind (fetch_batches (logged session_get) self) (fun batches =>
                 build_output (logged session_get) self devices fermenters batches)))).
  { apply sends_bind.
    - apply sends_fetch_fermenters, endpoint_request. constructor.
    - intros fs. apply sends_bind.
      + apply (sends_fetch_batches_from session_get self _ batch_variants).
        intros p Hp. apply endpoint_request. constructor. exact Hp.
      + intros bs. apply sends_build_output.
        intros d Hin Htr c Hc. apply endpoint_request. econstructor; eassumption. }
  destruct (H w1 (log ++ [get_request self "/devices" None])) as (rs & Hrs & HPrs & Hn).
  exists rs. rewrite Hrs, <- app_assoc. split; [reflexivity|]. split; [|split; [exact HPrs | lia]].
  eapply Forall_impl; [exact HPrs|]. intros r. apply client_request_not_devices.
Qed.

(** *** The latest-reading lookup *)

Section Lookup.

Context {world : Type}.
Variable session_get : request -> world -> result pyval * world.
Variable self : client.

Lemma try_candidates_total (cands : list (string * list (string * Z))) (w : world) :
  exists v w', try_candidates session_get self cands w = (Ok v, w').
Proof.
  revert w. induction cands as [|[path params] rest IH]; intros w; cbn [try_candidates].
  - unfold ret. eauto.
  - destruct (_get session_get self path (Some params) w) as [[data|e] w1]; eauto.
Qed.

Lemma try_candidates_first (pre post : list (string * list (string * Z)))
    (c : string * list (string * Z)) (data : pyval) :
  (forall c' w0, In c' pre ->
     exists e w1, _get session_get self (fst c') (Some (snd c')) w0 = (Raise e, w1)) ->
  (forall w0, exists w1, _get session_get self (fst c) (Some (snd c)) w0 = (Ok data, w1)) ->
  forall w, exists w',
    try_candidates session_get self (pre ++ c :: post) w = (Ok (reading_of_response data), w').
Proof.
  intros Hpre Hc. induction pre as [|[path params] pre IH]; intros w; cbn [app try_candidates].
  - destruct c as [path params]. destruct (Hc w) as (w1 & H). cbn [fst snd] in H.
    rewrite H. eauto.
  - destruct (Hpre (path, params) w (or_introl eq_refl)) as (e & w1 & H). cbn [fst snd] in H.
    rewrite H. apply IH. intros c' w0 Hin. apply Hpre. right. exact Hin.
Qed.

Lemma try_candidates_all_fail (cands : list (string * list (string * Z)))
    (w : world) (log : list request) :
  (forall c w0, In c cands ->
     exists e w1, _get session_get self (fst c) (Some (snd c)) w0 = (Raise e, w1)) ->
  exists w',
    try_candidates (logged session_get) self cands (w, log)
    = (Ok PNone, (w', log ++ map (fun c => get_request self (fst c) (Some (snd c))) cands)).
Proof.
  revert w log. induction cands as [|[path params] rest IH]; intros w log Hfail;
    cbn [try_candidates map].
  - exists w. rewrite app_nil_r. reflexivity.
  - rewrite get_journal.
    destruct (Hfail (path, params) w (or_introl eq_refl)) as (e & w1 & H). cbn [fst snd] in *.
    rewrite H. cbn [fst snd].
    destruct (IH w1 (log ++ [get_request self path (Some params)])
                (fun c w0 Hc => Hfail c w0 (or_intror Hc))) as (w' & ->).
    exists w'. rewrite <- app_assoc. reflexivity.
Qed.

End Lookup.

(** X5: [_get_latest_reading] never raises, whatever the requests do.  The
    first candidate that answers decides: when the candidates before [c]
    raise and [c] answers [data], the result is the reading of [data].  When
    all four candidates raise, the result is [None] and the four requests
    have been sent, in the order of the source. *)
Theorem latest_reading_never_raises {world : Type}
    (session_get : request -> world -> result pyval * world) (self : client)
    (device_id : string) :
  (forall w, exists v w', _get_latest_reading session_get self device_id w = (Ok v, w'))
  /\ (forall pre c post data,
        candidates device_id = pre ++ c :: post ->
        (forall c' w0, In c' pre ->
           exists e w1, _get session_get self (fst c') (Some (snd c')) w0 = (Raise e, w1)) ->
        (forall w0, exists w1,
           _get session_get self (fst c) (Some (snd c)) w0 = (Ok data, w1)) ->
        forall w, exists w',
          _get_latest_reading session_get self device_id w
          = (Ok (reading_of_response data), w'))
  /\ ((forall c w0, In c (candidates device_id) ->
         exists e w1, _get session_get self (fst c) (Some (snd c)) w0 = (Raise e, w1)) ->
      forall w log, exists w',
        _get_latest_reading (logged session_get) self device_id (w, log)
        = (Ok PNone,
           (w', log ++ [ get_request self ("/devices/" +:+ device_id +:+ "/readings")
                           (Some [("limit", 1)]);
                         get_request self ("/devices/" +:+ device_id +:+ "/readings")
                           (Some [("take", 1)]);
                         get_request self ("/devices/" +:+ device_id +:+ "/readings")
                           (Some [("pageSize", 1); ("page", 1)]);
                         get_request self ("/devices/" +:+ device_id +:+ "/measurements")
                           (Some [("limit", 1)]) ]))).
Proof.
  split; [|split].
  - intros w. apply try_candidates_total.
  - intros pre c post data Hc Hpre Hans w. unfold _get_latest_reading. rewrite Hc.
    apply try_candidates_first; assumption.
  - intros Hfail w log.
    apply (try_candidates_all_fail session_get self (candidates device_id) w log Hfail).
Qed.

Lemma first_item_under_first (d : dict) (pre post : list string) (k : string)
    (x : pyval) (l : list pyval) :
  (forall k', In k' pre -> is_nonempty_list (dict_get d k') = false) ->
  dict_get d k = PList (x :: l) ->
  first_item_under d (pre ++ k :: post) = Some x.
Proof.
  intros Hpre Hk. induction pre as [|p pre IH]; cbn [app first_item_under].
  - rewrite Hk. reflexivity.
  - specialize (Hpre p (or_introl eq_refl)) as Hp.
    destruct (dict_get d p) as [| | | | |[|y l']|]; try discriminate Hp;
      apply IH; intros k' Hin; apply Hpre; right; exact Hin.
Qed.

Lemma first_item_under_none (d : dict) (keys : list string) :
  (forall k, In k keys -> is_nonempty_list (dict_get d k) = false) ->
  first_item_under d keys = None.
Proof.
  induction keys as [|k keys IH]; intros H; cbn [first_item_under]; [reflexivity|].
  specialize (H k (or_introl eq_refl)) as Hk.
  destruct (dict_get d k) as [| | | | |[|y l']|]; try discriminate Hk;
    apply IH; intros k' Hin; apply H; right; exact Hin.
Qed.

(** X6: the reading the lookup takes from an answer.  Of a list it is the
    first element, [None] for the empty list.  Of an object it is the first
    element of the first non-empty list under [items], [readings], [data],
    [results]; without such a list it is the object itself when one of the
    six measurement keys is present, whatever its value, and [None]
    otherwise.  Of any other answer it is [None]. *)
Theorem reading_of_response_shapes (data : pyval) :
  (forall l, data = PList l -> reading_of_response data = hd PNone l)
  /\ (forall d pre k post x l,
        data = PDict d -> ["items"; "readings"; "data"; "results"] = pre ++ k :: post ->
        (forall k', In k' pre -> is_nonempty_list (dict_get d k') = false) ->
        dict_get d k = PList (x :: l) ->
        reading_of_response data = x)
  /\ (forall d,
        data = PDict d ->
        (forall k, In k ["items"; "readings"; "data"; "results"] ->
                   is_nonempty_list (dict_get d k) = false) ->
        ((exists k v, In k ["temperature"; "temp"; "density"; "sg"; "specificGravity"; "gravity"]
                      /\ dict_lookup d k = Some v) ->
         reading_of_response data = data)
        /\ ((forall k, In k ["temperature"; "temp"; "density"; "sg"; "specificGravity"; "gravity"]
                       -> dict_lookup d k = None) ->
            reading_of_response data = PNone))
  /\ (is_list data = false -> is_dict data = false -> reading_of_response data = PNone).
Proof.
  split; [|split; [|split]].
  - intros l ->. destruct l; reflexivity.
  - intros d pre k post x l -> Hkeys Hpre Hk. cbn [reading_of_response].
    rewrite Hkeys, (first_item_under_first d pre post k x l Hpre Hk). reflexivity.
  - intros d -> Hnone. cbn [reading_of_response].
    rewrite (first_item_under_none d _ Hnone). split.
    + intros (k & v & Hin & Hk).
      assert (He : existsb (dict_mem d)
                     ["temperature"; "temp"; "density"; "sg"; "specificGravity"; "gravity"]
                   = true).
      { apply existsb_exists. exists k. split; [exact Hin|]. unfold dict_mem. rewrite Hk.
        reflexivity. }
      rewrite He. reflexivity.
    + intros Hn.
      assert (He : existsb (dict_mem d)
                     ["temperature"; "temp"; "density"; "sg"; "specificGravity"; "gravity"]
                   = false).
      { apply not_true_is_false. intros He. apply existsb_exists in He as (k & Hin & Hk).
        unfold dict_mem in Hk. rewrite (Hn k Hin) in Hk. discriminate. }
      rewrite He. reflexivity.
  - destruct data; try reflexivity; discriminate.
Qed.

(** *** The device loop *)

Section DeviceLoop.

Context {world : Type}.
Variable session_get : request -> world -> result pyval * world.
Variable self : client.

(** What the device loop stores for an entry with a truthy identifier. *)
Lemma process_device_record (ferm : gmap string string) (best : gmap string dict)
    (out out' : gmap string pyval) (dev : pyval) (w w' : world) :
  process_device session_get self ferm best out dev w = (Ok out', w') ->
  exists d, dev = PDict d /\
    ((truthy (dict_get d "id") = false /\ out' = out /\ w' = w)
     \/ (truthy (dict_get d "id") = true /\
         exists temp sg time,
           out' = <[py_str (dict_get d "id") :=
                      reading_record
                        (py_or (dict_get d "name")
                           (PStr ("Plaato " +:+ py_str (dict_get d "id"))))
                        (pick dev ["batteryLevel"; "battery"; "battery_percent"])
                        (pick dev ["wifiStrength"; "rssi"; "signal"])
                        temp sg time
                        (match ferm !! py_str (dict_get d "id") with
                         | Some n => PStr n | None => PNone end)
                        (match best !! py_str (dict_get d "id") with
                         | Some b => batch_label b | None => PNone end)]> out)).
Proof.
  unfold process_device. intros H.
  apply bind_ok in H as (idv & w1 & Hid & H). apply lift_ok in Hid as [Hid ->].
  destruct dev as [| | | | |l|d]; try discriminate Hid.
  injection Hid as <-. exists d. split; [reflexivity|].
  destruct (truthy (dict_get d "id")) eqn:Htr; cbn [negb] in H.
  2: { apply ret_ok in H as [-> ->]. left. auto. }
  right. split; [reflexivity|].
  apply bind_ok in H as (latest & w1 & Hl & H). apply lift_ok in Hl as [_ ->].
  apply bind_ok in H as (temp & w1 & _ & H).
  apply bind_ok in H as (sg & w2 & _ & H).
  apply bind_ok in H as (temp2 & w3 & _ & H).
  apply bind_ok in H as (sg2 & w4 & _ & H).
  apply bind_ok in H as ([[temp3 sg3] time3] & w5 & _ & H).
  apply bind_ok in H as (name & w6 & Hn & H). apply lift_ok in Hn as [[= <-] ->].
  apply ret_ok in H as [-> ->].
  exists temp3, sg3, time3. reflexivity.
Qed.

Lemma process_devices_app (ferm : gmap string string) (best : gmap string dict)
    (pre post : list pyval) (out : gmap string pyval) (w : world) :
  process_devices session_get self ferm best (pre ++ post) out w =
  match process_devices session_get self ferm best pre out w with
  | (Ok out1, w1) => process_devices session_get self ferm best post out1 w1
  | (Raise e, w1) => (Raise e, w1)
  end.
Proof.
  revert out w. induction pre as [|dev pre IH]; intros out w; cbn [app process_devices].
  - reflexivity.
  - unfold bind.
    destruct (process_device session_get self ferm best out dev w) as [[out1|e] w1];
      [apply IH | reflexivity].
Qed.

Lemma process_device_not_dict (ferm : gmap string string) (best : gmap string dict)
    (out : gmap string pyval) (dev : pyval) (w : world) :
  is_dict dev = false ->
  process_device session_get self ferm best out dev w = (Raise AttributeError, w).
Proof. destruct dev; try discriminate; reflexivity. Qed.

Lemma process_devices_not_dicts (ferm : gmap string string) (best : gmap string dict)
    (dev : pyval) (devs : list pyval) (out : gmap string pyval) (w : world) :
  is_dict dev = false ->
  process_devices session_get self ferm best (dev :: devs) out w = (Raise AttributeError, w).
Proof.
  intros H. cbn [process_devices]. unfold bind.
  rewrite process_device_not_dict by exact H. reflexivity.
Qed.

End DeviceLoop.

(** X7: the [/devices] answer is not normalised.  A falsy answer ([None],
    an empty list, an empty object) gives the empty mapping; a non-empty
    object or a non-empty text raises [AttributeError], the loop visiting its
    keys or its characters and calling [get] on them; a truthy number raises
    [TypeError].  So a poll cycle whose [/devices] answer is a non-empty
    object, such as a list wrapped under [items], fails with
    [AttributeError]. *)
Theorem devices_answer_shapes {world : Type}
    (session_get : request -> world -> result pyval * world) (self : client)
    (fermenters batches : list dict) (w : world) :
  (forall devices, truthy devices = false ->
     build_output session_get self devices fermenters batches w = (Ok ∅, w))
  /\ (forall d, d <> [] ->
        build_output session_get self (PDict d) fermenters batches w
        = (Raise AttributeError, w))
  /\ (forall s, s <> EmptyString ->
        build_output session_get self (PStr s) fermenters batches w
        = (Raise AttributeError, w))
  /\ (forall devices, truthy devices = true -> is_int_or_float devices = true ->
        build_output session_get self devices fermenters batches w = (Raise TypeError, w))
  /\ (forall w0 devices,
        session_get (get_request self "/devices" None) w0 = (Ok devices, w) ->
        (exists k v d, devices = PDict ((k, v) :: d)) ->
        fst (fetch_readings session_get self w0) = Raise AttributeError).
Proof.
  assert (Hdict : forall d w1, d <> [] ->
            build_output session_get self (PDict d) fermenters batches w1
            = (Raise AttributeError, w1)).
  { intros d w1 Hd. destruct d as [|[k v] d]; [congruence|].
    unfold build_output, bind, lift. cbn [py_or truthy py_iter map fst].
    apply process_devices_not_dicts. reflexivity. }
  split; [|split; [|split; [|split]]].
  - intros devices H. unfold build_output, bind, lift, py_or. rewrite H. reflexivity.
  - intros d Hd. apply Hdict, Hd.
  - intros s Hs. destruct s as [|c s]; [congruence|].
    unfold build_output, bind, lift. cbn [py_or truthy String.eqb negb py_iter].
    cbn [list_ascii_of_string map].
    apply process_devices_not_dicts. reflexivity.
  - intros devices Ht Hn. unfold build_output, bind, lift, py_or. rewrite Ht.
    destruct devices; try discriminate Hn; reflexivity.
  - intros w0 devices Hd (k & v & d & ->).
    unfold fetch_readings, bind at 1. unfold _get at 1. fold (get_request self "/devices" None).
    rewrite Hd.
    unfold bind at 1.
    destruct (fetch_fermenters_total session_get self w) as (fs & w2 & ->).
    unfold bind at 1. unfold fetch_batches.
    destruct (fetch_batches_from_total session_get self batch_variants [] w2) as (bs & w3 & ->).
    unfold build_output, bind, lift. cbn [py_or truthy py_iter map fst].
    rewrite process_devices_not_dicts by reflexivity. reflexivity.
Qed.

(** X8: an entry of the device list that is not an object raises
    [AttributeError], and so does an entry with a truthy [id] whose
    [latestReading] is truthy and not an object.  The loop stops there: the
    exception leaves the loop also when the entries before it were
    processed, and no mapping is returned. *)
Theorem device_entry_errors {world : Type}
    (session_get : request -> world -> result pyval * world) (self : client)
    (ferm : gmap string string) (best : gmap string dict) (out : gmap string pyval)
    (w : world) :
  (forall dev, is_dict dev = false ->
     process_device session_get self ferm best out dev w = (Raise AttributeError, w))
  /\ (forall d, truthy (dict_get d "id") = true ->
        truthy (dict_get d "latestReading") = true ->
        is_dict (dict_get d "latestReading") = false ->
        process_device session_get self ferm best out (PDict d) w = (Raise AttributeError, w))
  /\ (forall pre dev post out1 w1,
        process_devices session_get self ferm best pre out w = (Ok out1, w1) ->
        is_dict dev = false ->
        process_devices session_get self ferm best (pre ++ dev :: post) out w
        = (Raise AttributeError, w1)).
Proof.
  split; [|split].
  - intros dev H. apply process_device_not_dict, H.
  - intros d Hid Ht Hd.
    unfold process_device, bind, lift. cbn [py_get]. rewrite Hid. cbn [negb].
    unfold py_or. rewrite Ht.
    destruct (dict_get d "latestReading") as [| | | | | |e]; try discriminate Hd; reflexivity.
  - intros pre dev post out1 w1 Hpre Hd.
    rewrite process_devices_app, Hpre. apply process_devices_not_dicts, Hd.
Qed.

(** X9: when the reading that comes with a device entry gives both a
    temperature and a density, the entry is processed without any request:
    the world is left as it was, and the record holds these two floats, the
    time of the reading or else [latestReadingTime] of the entry, and the
    name, battery and signal fields of the entry. *)
Theorem embedded_reading_needs_no_request {world : Type}
    (session_get : request -> world -> result pyval * world) (self : client)
    (ferm : gmap string string) (best : gmap string dict) (out : gmap string pyval)
    (d : dict) (t s : spec_float) (w : world) :
  truthy (dict_get d "id") = true ->
  as_float (pick (unwrap (py_or (dict_get d "latestReading") (PDict []))) temp_keys)
    = Ok (PFloat t) ->
  as_float (pick (unwrap (py_or (dict_get d "latestReading") (PDict []))) sg_keys)
    = Ok (PFloat s) ->
  process_device session_get self ferm best out (PDict d) w
  = (Ok (<[py_str (dict_get d "id") :=
             reading_record
               (py_or (dict_get d "name") (PStr ("Plaato " +:+ py_str (dict_get d "id"))))
               (pick (PDict d) ["batteryLevel"; "battery"; "battery_percent"])
               (pick (PDict d) ["wifiStrength"; "rssi"; "signal"])
               (PFloat t) (PFloat s)
               (py_or (pick (unwrap (py_or (dict_get d "latestReading") (PDict []))) time_keys)
                  (pick (PDict d) ["latestReadingTime"]))
               (match ferm !! py_str (dict_get d "id") with
                | Some n => PStr n | None => PNone end)
               (match best !! py_str (dict_get d "id") with
                | Some b => batch_label b | None => PNone end)]> out), w).
Proof.
  intros Hid Ht Hs.
  unfold process_device, bind, lift. cbn [py_get]. rewrite Hid. cbn [negb].
  rewrite Ht, Hs. reflexivity.
Qed.

Lemma embedded_reading_needs_no_request_witness :
  process_device (serve []) example_client ∅ ∅ ∅
    (PDict [("id", PStr "d1"); ("latestReading", sample_reading)]) []
  = (Ok {[ "d1" := reading_record (PStr "Plaato d1") PNone PNone
                     (PFloat (float_lit "20.5")) (PFloat (float_lit "1.05"))
                     PNone PNone PNone ]}, []).
Proof.
  rewrite (embedded_reading_needs_no_request (serve []) example_client ∅ ∅ ∅
             [("id", PStr "d1"); ("latestReading", sample_reading)]
             (float_lit "20.5") (float_lit "1.05") [])
    by (vm_compute; reflexivity).
  vm_compute. reflexivity.
Defined.

Lemma pick_first_dict (l t : dict) (keys : list string) :
  dict_get l "temperature" = PDict t ->
  pick (PDict l) ("temperature" :: keys) = PDict t.
Proof. intros H. cbn [pick pick_keys]. rewrite H. reflexivity. Qed.

(** X10: a temperature given as an object.  When the reading of a device
    entry (not wrapped under [reading], [data] or [values]) holds an object
    under [temperature], and a density, the stored temperature is the
    [celsius] field of that object or, when [celsius] is absent or [None],
    its [fahrenheit] field, as the same number: a Fahrenheit value is not
    converted.  No request is made. *)
Theorem nested_temperature_is_not_converted {world : Type}
    (session_get : request -> world -> result pyval * world) (self : client)
    (ferm : gmap string string) (best : gmap string dict) (out : gmap string pyval)
    (d l t : dict) (s : spec_float) (w : world) :
  truthy (dict_get d "id") = true ->
  dict_get d "latestReading" = PDict l ->
  unwrap (PDict l) = PDict l ->
  dict_get l "temperature" = PDict t ->
  as_float (pick (PDict l) sg_keys) = Ok (PFloat s) ->
  let stored (temp : pyval) :=
    (Ok (<[py_str (dict_get d "id") :=
             reading_record
               (py_or (dict_get d "name") (PStr ("Plaato " +:+ py_str (dict_get d "id"))))
               (pick (PDict d) ["batteryLevel"; "battery"; "battery_percent"])
               (pick (PDict d) ["wifiStrength"; "rssi"; "signal"])
               temp (PFloat s)
               (py_or (pick (PDict l) time_keys) (pick (PDict d) ["latestReadingTime"]))
               (match ferm !! py_str (dict_get d "id") with
                | Some n => PStr n | None => PNone end)
               (match best !! py_str (dict_get d "id") with
                | Some b => batch_label b | None => PNone end)]> out), w) in
  (forall c, dict_get t "celsius" = PFloat c ->
     process_device session_get self ferm best out (PDict d) w = stored (PFloat c))
  /\ (forall f, dict_get t "celsius" = PNone -> dict_get t "fahrenheit" = PFloat f ->
        process_device session_get self ferm best out (PDict d) w = stored (PFloat f)).
Proof.
  intros Hid Hl Hu Ht Hs stored.
  assert (Hlatest : unwrap (py_or (dict_get d "latestReading") (PDict [])) = PDict l).
  { rewrite Hl. destruct l as [|kv l]; [discriminate Ht|]. exact Hu. }
  assert (Hrun : forall x,
            as_float (pick (PDict t) ["celsius"; "fahrenheit"]) = Ok (PFloat x) ->
            process_device session_get self ferm best out (PDict d) w = stored (PFloat x)).
  { intros x Hx. unfold process_device, bind, lift. cbn [py_get]. rewrite Hid. cbn [negb].
    cbv zeta. rewrite !Hlatest. unfold temp_keys. rewrite (pick_first_dict l t _ Ht).
    cbn [as_float]. rewrite Hs. unfold refine_nested, bind, lift, ret. cbn [is_none py_get].
    rewrite Ht. cbn [is_dict]. rewrite Hx. reflexivity. }
  split.
  - intros c Hc. apply Hrun. cbn [pick pick_keys]. rewrite Hc. reflexivity.
  - intros f Hc Hf. apply Hrun. cbn [pick pick_keys]. rewrite Hc, Hf. reflexivity.
Qed.

Lemma nested_temperature_is_not_converted_witness :
  process_device (serve []) example_client ∅ ∅ ∅
    (PDict [("id", PStr "d1");
            ("latestReading",
             PDict [("temperature", PDict [("fahrenheit", PFloat (float_lit "68.9"))]);
                    ("density", PFloat (float_lit "1.05"))])]) []
  = (Ok {[ "d1" := reading_record (PStr "Plaato d1") PNone PNone
                     (PFloat (float_lit "68.9")) (PFloat (float_lit "1.05"))
                     PNone PNone PNone ]}, []).
Proof.
  destruct (nested_temperature_is_not_converted (serve []) example_client ∅ ∅ ∅
              [("id", PStr "d1");
               ("latestReading",
                PDict [("temperature", PDict [("fahrenheit", PFloat (float_lit "68.9"))]);
                       ("density", PFloat (float_lit "1.05"))])]
              [("temperature", PDict [("fahrenheit", PFloat (float_lit "68.9"))]);
               ("density", PFloat (float_lit "1.05"))]
              [("fahrenheit", PFloat (float_lit "68.9"))]
              (float_lit "1.05") []) as [_ H];
    [vm_compute; reflexivity .. |].
  rewrite (H (float_lit "68.9")) by (vm_compute; reflexivity).
  vm_compute. reflexivity.
Defined.

Section Lookups.

Context {world : Type}.
Variable session_get : request -> world -> result pyval * world.
Variable self : client.

Lemma bind_lift {A B : Type} (a : A) (k : A -> @M world B) (w : world) :
  bind (lift (Ok a)) k w = k a w.
Proof. reflexivity. Qed.

Lemma bind_ret {A B : Type} (a : A) (k : A -> @M world B) (w : world) :
  bind (ret a) k w = k a w.
Proof. reflexivity. Qed.

End Lookups.

Section FirstLookup.

Context {world : Type}.
Variable session_get : request -> world -> result pyval * world.
Variable self : client.

(** A continuation that sends nothing leaves the journal as it is. *)
Lemma bind_quiet {A B : Type} (m : @M (world * list request) A)
    (k : A -> @M (world * list request) B) (w : world * list request) :
  (forall a, sends (fun _ => True) 0 (k a)) ->
  snd (snd (bind m k w)) = snd (snd (m w)).
Proof.
  intros Hk. unfold bind. destruct (m w) as [[a|e] [w1 log1]]; [|reflexivity].
  destruct (Hk a w1 log1) as (rs & H & _ & Hn).
  destruct rs; [|cbn [length] in Hn; lia].
  rewrite H, app_nil_r. reflexivity.
Qed.

Lemma latest_reading_journal (device_id : string) (w : world) (log : list request) :
  exists rs,
    snd (snd (_get_latest_reading (logged session_get) self device_id (w, log)))
    = log ++ get_request self ("/devices/" +:+ device_id +:+ "/readings")
               (Some [("limit", 1)]) :: rs
    /\ (length rs <= 3)%nat.
Proof.
  unfold _get_latest_reading, candidates.
  set (rest := [ (_, [("take", 1)]); (_, [("pageSize", 1); ("page", 1)]); (_, [("limit", 1)]) ]).
  cbn [try_candidates]. rewrite get_journal.
  destruct (_get session_get self _ _ w) as [[data|e] w1]; cbn [fst snd].
  - exists []. split; [reflexivity | cbn; lia].
  - destruct (sends_try_candidates session_get self (fun _ => True) rest (fun _ _ => I)
                w1 (log ++ [get_request self ("/devices/" +:+ device_id +:+ "/readings")
                              (Some [("limit", 1)])]))
      as (rs & H & _ & Hn).
    exists rs. rewrite H, <- app_assoc. split; [reflexivity | exact Hn].
Qed.

End FirstLookup.

(** X11: a device entry with a truthy [id] and without a reading of its own
    ([latestReading] absent or falsy) makes the loop look the reading up: its
    next request is [/devices/<id>/readings] with [limit=1], where [<id>] is
    [str] of the [id] field, and at most three more requests follow for this
    entry. *)
Theorem missing_reading_is_looked_up {world : Type}
    (session_get : request -> world -> result pyval * world) (self : client)
    (ferm : gmap string string) (best : gmap string dict) (out : gmap string pyval)
    (d : dict) (w : world) (log : list request) :
  truthy (dict_get d "id") = true ->
  truthy (dict_get d "latestReading") = false ->
  exists rs,
    snd (snd (process_device (logged session_get) self ferm best out (PDict d) (w, log)))
    = log ++ get_request self ("/devices/" +:+ py_str (dict_get d "id") +:+ "/readings")
               (Some [("limit", 1)]) :: rs
    /\ (length rs <= 3)%nat.
Proof.
  intros Hid Hl.
  destruct (latest_reading_journal session_get self (py_str (dict_get d "id")) w log)
    as (rs & Hrs & Hn).
  exists rs. split; [|exact Hn]. rewrite <- Hrs.
  unfold process_device. cbn [py_get]. rewrite bind_lift, Hid. cbn [negb].
  assert (Hlatest : unwrap (py_or (dict_get d "latestReading") (PDict [])) = PDict [])
    by (unfold py_or; rewrite Hl; reflexivity).
  rewrite bind_lift. cbv zeta. rewrite !Hlatest.
  change (as_float (pick (PDict []) temp_keys)) with (@Ok pyval PNone).
  change (as_float (pick (PDict []) sg_keys)) with (@Ok pyval PNone).
  rewrite !bind_lift.
  change (refine_nested (PDict []) "temperature" ["celsius"; "fahrenheit"] PNone)
    with (ret (world := world * list request) PNone).
  rewrite bind_ret.
  change (refine_nested (PDict []) "density" ["specificGravity"; "plato"] PNone)
    with (ret (world := world * list request) PNone).
  rewrite bind_ret. cbn [is_none orb].
  rewrite bind_quiet.
  - apply bind_quiet. intros reading.
    destruct (is_dict reading); [|apply sends_ret].
    apply (sends_bind _ 0 0); [apply sends_from_reading|]. intros temp.
    apply (sends_bind _ 0 0); [apply sends_from_reading|]. intros sg.
    apply sends_ret.
  - intros [[temp sg] time].
    apply (sends_bind _ 0 0); [apply sends_lift|]. intros name. apply sends_ret.
Qed.

Lemma missing_reading_is_looked_up_witness :
  exists rs,
    snd (snd (process_device (logged (serve bare_device)) example_client ∅ ∅ ∅
                (PDict [("id", PStr "d1")]) ([], [])))
    = [] ++ get_request example_client ("/devices/" +:+ py_str (PStr "d1") +:+ "/readings")
              (Some [("limit", 1)]) :: rs
    /\ (length rs <= 3)%nat.
Proof.
  apply (missing_reading_is_looked_up (serve bare_device) example_client ∅ ∅ ∅
           [("id", PStr "d1")] [] []); reflexivity.
Defined.

(** X12: a device entry without a reading of its own takes its values from
    the looked-up reading.  A result of the lookup that is not an object
    ([None], a text, a number) is ignored: temperature and density stay
    [None], nothing raises.  From an object (unwrapped from [reading],
    [data] or [values]) temperature and density are read, through [celsius],
    [fahrenheit] and [specificGravity], [plato] when given as objects, and
    the time is [latestReadingTime] of the entry or else the time of the
    reading; an exception of the float conversion leaves the loop. *)
Theorem looked_up_reading_is_used {world : Type}
    (session_get : request -> world -> result pyval * world) (self : client)
    (ferm : gmap string string) (best : gmap string dict) (out : gmap string pyval)
    (d : dict) (reading : pyval) (w w1 : world) :
  truthy (dict_get d "id") = true ->
  truthy (dict_get d "latestReading") = false ->
  _get_latest_reading session_get self (py_str (dict_get d "id")) w = (Ok reading, w1) ->
  let stored (temp sg time : pyval) :=
    (Ok (<[py_str (dict_get d "id") :=
             reading_record
               (py_or (dict_get d "name") (PStr ("Plaato " +:+ py_str (dict_get d "id"))))
               (pick (PDict d) ["batteryLevel"; "battery"; "battery_percent"])
               (pick (PDict d) ["wifiStrength"; "rssi"; "signal"])
               temp sg time
               (match ferm !! py_str (dict_get d "id") with
                | Some n => PStr n | None => PNone end)
               (match best !! py_str (dict_get d "id") with
                | Some b => batch_label b | None => PNone end)]> out), w1) in
  (is_dict reading = false ->
   process_device session_get self ferm best out (PDict d) w
   = stored PNone PNone (pick (PDict d) ["latestReadingTime"]))
  /\ (is_dict reading = true ->
      forall temp sg,
        reading_value (unwrap reading) temp_keys ["celsius"; "fahrenheit"] = Ok temp ->
        reading_value (unwrap reading) sg_keys ["specificGravity"; "plato"] = Ok sg ->
        process_device session_get self ferm best out (PDict d) w
        = stored temp sg
            (py_or (pick (PDict d) ["latestReadingTime"]) (pick (unwrap reading) time_keys)))
  /\ (is_dict reading = true ->
      forall e,
        reading_value (unwrap reading) temp_keys ["celsius"; "fahrenheit"] = Raise e ->
        process_device session_get self ferm best out (PDict d) w = (Raise e, w1)).
Proof.
  intros Hid Hl Hget stored.
  assert (Hlatest : unwrap (py_or (dict_get d "latestReading") (PDict [])) = PDict [])
    by (unfold py_or; rewrite Hl; reflexivity).
  unfold process_device. cbn [py_get]. rewrite bind_lift, Hid. cbn [negb].
  rewrite bind_lift. cbv zeta. rewrite !Hlatest.
  change (as_float (pick (PDict []) temp_keys)) with (@Ok pyval PNone).
  change (as_float (pick (PDict []) sg_keys)) with (@Ok pyval PNone).
  rewrite !bind_lift.
  change (refine_nested (PDict []) "temperature" ["celsius"; "fahrenheit"] PNone)
    with (ret (world := world) PNone).
  rewrite bind_ret.
  change (refine_nested (PDict []) "density" ["specificGravity"; "plato"] PNone)
    with (ret (world := world) PNone).
  rewrite bind_ret. cbn [is_none orb].
  change (pick (PDict []) time_keys) with PNone. cbn [py_or truthy].
  unfold reading_value.
  split; [|split].
  - intros Hd. unfold bind at 1 2. rewrite Hget, Hd. reflexivity.
  - intros Hd temp sg Ht Hs. unfold bind at 1 2. rewrite Hget, Hd.
    unfold bind, from_reading, lift, ret. cbn [is_none].
    cbv zeta in Ht, Hs. rewrite Ht, Hs. reflexivity.
  - intros Hd e Ht. unfold bind at 1 2. rewrite Hget, Hd.
    unfold bind, from_reading, lift, ret. cbn [is_none].
    cbv zeta in Ht. rewrite Ht. reflexivity.
Qed.

Lemma looked_up_reading_is_used_witness :
  process_device (serve reading_on_request) example_client ∅ ∅ ∅
    (PDict [("id", PStr "d1")]) []
  = (Ok {[ "d1" := reading_record (PStr "Plaato d1") PNone PNone
                     (PFloat (float_lit "99.0")) (PFloat (float_lit "1.05"))
                     (PStr "2024-06-01T12:00:00Z") PNone PNone ]},
     [get_request example_client "/devices/d1/readings" (Some [("limit", 1)])]).
Proof.
  destruct (looked_up_reading_is_used (serve reading_on_request) example_client ∅ ∅ ∅
              [("id", PStr "d1")]
              (PDict [("temperature", PFloat (float_lit "99.0"));
                      ("density", PFloat (float_lit "1.05"));
                      ("time", PStr "2024-06-01T12:00:00Z")])
              []
              [get_request example_client "/devices/d1/readings" (Some [("limit", 1)])])
    as (_ & H & _); [vm_compute; reflexivity .. |].
  rewrite (H eq_refl (PFloat (float_lit "99.0")) (PFloat (float_lit "1.05")))
    by (vm_compute; reflexivity).
  vm_compute. reflexivity.
Defined.

Section Precedence.

Context {world : Type}.
Variable session_get : request -> world -> result pyval * world.
Variable self : client.

Lemma refine_nested_keeps (latest : pyval) (key : string) (inner : list string)
    (cur r : pyval) (w w' : world) :
  is_none cur = false ->
  refine_nested latest key inner cur w = (Ok r, w') -> r = cur.
Proof.
  unfold refine_nested. intros ->. intros H. apply ret_ok in H as [-> _]. reflexivity.
Qed.

Lemma from_reading_keeps (reading : pyval) (keys inner : list string)
    (cur r : pyval) (w w' : world) :
  is_none cur = false ->
  from_reading reading keys inner cur w = (Ok r, w') -> r = cur.
Proof.
  unfold from_reading. intros ->. intros H. apply ret_ok in H as [-> _]. reflexivity.
Qed.

(** What the lookup may change of the three values of the embedded
    reading. *)
Lemma found_keeps (dev_id : string) (temp sg time temp' sg' time' : pyval) (w w' : world) :
  (if is_none temp || is_none sg then
     bind (_get_latest_reading session_get self dev_id) (fun reading =>
       if is_dict reading then
         bind (from_reading (unwrap reading) temp_keys ["celsius"; "fahrenheit"] temp)
           (fun temp0 =>
         bind (from_reading (unwrap reading) sg_keys ["specificGravity"; "plato"] sg)
           (fun sg0 => ret (temp0, sg0, py_or time (pick (unwrap reading) time_keys))))
       else ret (temp, sg, time))
   else ret (temp, sg, time)) w = (Ok (temp', sg', time'), w') ->
  (is_none temp = false -> temp' = temp)
  /\ (is_none sg = false -> sg' = sg)
  /\ (truthy time = true -> time' = time)
  /\ (is_none temp = false -> is_none sg = false -> w' = w /\ time' = time).
Proof.
  destruct (is_none temp || is_none sg) eqn:Hn.
  - intros H. apply bind_ok in H as (reading & w1 & _ & H).
    destruct (is_dict reading).
    + apply bind_ok in H as (temp0 & w2 & Ht & H).
      apply bind_ok in H as (sg0 & w3 & Hs & H).
      apply ret_ok in H as [H _]. injection H as <- <- Htime. subst time'.
      split; [|split; [|split]].
      * intros Hc. eapply from_reading_keeps; eassumption.
      * intros Hc. eapply from_reading_keeps; eassumption.
      * intros Hc. unfold py_or. rewrite Hc. reflexivity.
      * intros H1 H2. rewrite H1, H2 in Hn. discriminate.
    + apply ret_ok in H as [[= <- <- <-] _].
      split; [|split; [|split]]; auto.
      intros H1 H2. rewrite H1, H2 in Hn. discriminate.
  - intros H. apply ret_ok in H as [[= <- <- <-] ->]. auto.
Qed.

End Precedence.

(** X13: the lookup never replaces a value of the reading that came with the
    device entry: a temperature or a density the embedded reading gives is
    the one of the record, also when the lookup is made for the other of the
    two and answers with both; a truthy time of the embedded reading or of
    [latestReadingTime] is kept as well. *)
Theorem embedded_values_take_precedence {world : Type}
    (session_get : request -> world -> result pyval * world) (self : client)
    (ferm : gmap string string) (best : gmap string dict) (out out' : gmap string pyval)
    (d : dict) (w w' : world) :
  process_device session_get self ferm best out (PDict d) w = (Ok out', w') ->
  truthy (dict_get d "id") = true ->
  exists temp sg time,
    out' !! py_str (dict_get d "id")
    = Some (reading_record
              (py_or (dict_get d "name") (PStr ("Plaato " +:+ py_str (dict_get d "id"))))
              (pick (PDict d) ["batteryLevel"; "battery"; "battery_percent"])
              (pick (PDict d) ["wifiStrength"; "rssi"; "signal"])
              temp sg time
              (match ferm !! py_str (dict_get d "id") with
               | Some n => PStr n | None => PNone end)
              (match best !! py_str (dict_get d "id") with
               | Some b => batch_label b | None => PNone end))
    /\ (forall t,
          as_float (pick (unwrap (py_or (dict_get d "latestReading") (PDict []))) temp_keys)
          = Ok (PFloat t) -> temp = PFloat t)
    /\ (forall s,
          as_float (pick (unwrap (py_or (dict_get d "latestReading") (PDict []))) sg_keys)
          = Ok (PFloat s) -> sg = PFloat s)
    /\ (truthy (py_or (pick (unwrap (py_or (dict_get d "latestReading") (PDict []))) time_keys)
                  (pick (PDict d) ["latestReadingTime"])) = true ->
        time = py_or (pick (unwrap (py_or (dict_get d "latestReading") (PDict []))) time_keys)
                 (pick (PDict d) ["latestReadingTime"])).
Proof.
  intros H Hid. unfold process_device in H.
  apply bind_ok in H as (idv & w1 & Hi & H). apply lift_ok in Hi as [[= <-] ->].
  rewrite Hid in H. cbn [negb] in H.
  apply bind_ok in H as (latest & w1 & Hl & H). apply lift_ok in Hl as [[= <-] ->].
  cbv zeta in H.
  set (lat := unwrap (py_or (dict_get d "latestReading") (PDict []))) in *.
  apply bind_ok in H as (temp & w1 & Ht & H). apply lift_ok in Ht as [Ht ->].
  apply bind_ok in H as (sg & w1 & Hs & H). apply lift_ok in Hs as [Hs ->].
  apply bind_ok in H as (temp2 & w2 & Ht2 & H).
  apply bind_ok in H as (sg2 & w3 & Hs2 & H).
  apply bind_ok in H as ([[temp3 sg3] time3] & w4 & Hf & H).
  apply bind_ok in H as (name & w5 & Hn & H). apply lift_ok in Hn as [[= <-] ->].
  apply ret_ok in H as [H _]. subst out'.
  apply found_keeps in Hf as (Hkt & Hks & Hktime & _).
  exists temp3, sg3, time3. rewrite lookup_insert_eq. split; [reflexivity|].
  split; [|split].
  - intros t Hx. rewrite Hx in Ht. injection Ht as <-.
    apply refine_nested_keeps in Ht2; [subst temp2 | reflexivity].
    apply Hkt. reflexivity.
  - intros s Hx. rewrite Hx in Hs. injection Hs as <-.
    apply refine_nested_keeps in Hs2; [subst sg2 | reflexivity].
    apply Hks. reflexivity.
  - exact Hktime.
Qed.

Lemma embedded_values_take_precedence_witness :
  exists temp sg time,
    ({[ "d1" := reading_record (PStr "Plaato d1") PNone PNone
                  (PFloat (float_lit "20.5")) (PFloat (float_lit "1.05"))
                  (PStr "2024-06-01T12:00:00Z") PNone PNone ]} : gmap string pyval) !! "d1"
    = Some (reading_record (PStr "Plaato d1") PNone PNone temp sg time PNone PNone)
    /\ temp = PFloat (float_lit "20.5").
Proof.
  destruct (embedded_values_take_precedence (serve reading_on_request) example_client ∅ ∅ ∅
              {[ "d1" := reading_record (PStr "Plaato d1") PNone PNone
                           (PFloat (float_lit "20.5")) (PFloat (float_lit "1.05"))
                           (PStr "2024-06-01T12:00:00Z") PNone PNone ]}
              [("id", PStr "d1");
               ("latestReading", PDict [("temperature", PFloat (float_lit "20.5"))])]
              []
              [get_request example_client "/devices/d1/readings" (Some [("limit", 1)])])
    as (temp & sg & time & Hrec & Ht & _ & _);
    [vm_compute; reflexivity | reflexivity |].
  exists temp, sg, time. split; [exact Hrec|].
  apply Ht. vm_compute. reflexivity.
Defined.

(** *** The batch request *)

Section BatchRequest.

Context {world : Type}.
Variable session_get : request -> world -> result pyval * world.
Variable self : client.

Lemma fetch_batches_from_first (pre post : list (option (list (string * Z))))
    (p : option (list (string * Z))) (found bs : list dict) :
  found <> [] ->
  (forall q, In q pre -> no_batches_with session_get self q) ->
  (forall w0, exists raw w1,
     _get session_get self "/batches" p w0 = (Ok raw, w1)
     /\ normalize_list_response raw = found) ->
  forall w log, exists w',
    fetch_batches_from (logged session_get) self (pre ++ p :: post) bs (w, log)
    = (Ok found, (w', log ++ map (get_request self "/batches") (pre ++ [p]))).
Proof.
  intros Hne Hpre Hp. revert bs.
  induction pre as [|q pre IH]; intros bs w log; cbn [app fetch_batches_from map].
  - rewrite get_journal. destruct (Hp w) as (raw & w1 & -> & Hraw). cbn [fst snd].
    rewrite Hraw. destruct found; [congruence|]. eauto.
  - rewrite get_journal.
    assert (IH' : forall bs w1, exists w',
              fetch_batches_from (logged session_get) self (pre ++ p :: post) bs
                (w1, log ++ [get_request self "/batches" q])
              = (Ok found, (w', log ++ get_request self "/batches" q
                                  :: map (get_request self "/batches") (pre ++ [p])))).
    { intros bs' w1.
      destruct (IH (fun q' Hq' => Hpre q' (or_intror Hq')) bs' w1
                  (log ++ [get_request self "/batches" q])) as (w' & ->).
      exists w'. rewrite <- app_assoc. reflexivity. }
    destruct (Hpre q (or_introl eq_refl) w) as [(e & w1 & ->)|(raw & w1 & -> & Hraw)];
      cbn [fst snd]; [|rewrite Hraw]; apply IH'.
Qed.

End BatchRequest.

(** X14: the batch request tries the parameter variants in order and stops
    at the first answer that holds a batch: when each variant before [p]
    raises or answers without a batch and [p] answers with the batches
    [found], the result is [found], and the requests sent are those of the
    variants up to [p], none after it. *)
Theorem batches_of_first_answer_with_some {world : Type}
    (session_get : request -> world -> result pyval * world) (self : client)
    (pre post : list (option (list (string * Z)))) (p : option (list (string * Z)))
    (found : list dict) :
  batch_variants = pre ++ p :: post ->
  found <> [] ->
  (forall q, In q pre -> no_batches_with session_get self q) ->
  (forall w0, exists raw w1,
     _get session_get self "/batches" p w0 = (Ok raw, w1)
     /\ normalize_list_response raw = found) ->
  forall w log, exists w',
    fetch_batches (logged session_get) self (w, log)
    = (Ok found, (w', log ++ map (get_request self "/batches") (pre ++ [p]))).
Proof.
  intros Hv Hne Hpre Hp w log. unfold fetch_batches. rewrite Hv.
  apply fetch_batches_from_first; assumption.
Qed.

Lemma batches_of_first_answer_with_some_witness :
  exists w',
    fetch_batches (logged (serve batches_on_second_request)) example_client ([], [])
    = (Ok [[("name", PStr "IPA")]],
       (w', [] ++ map (get_request example_client "/batches")
                    ([None] ++ [Some [("limit", 200)]]))).
Proof.
  apply (batches_of_first_answer_with_some (serve batches_on_second_request) example_client
           [None] [Some [("take", 200)]; Some [("pageSize", 200); ("page", 1)]]
           (Some [("limit", 200)]) [[("name", PStr "IPA")]]).
  - reflexivity.
  - discriminate.
  - intros q [<-|[]] w0. right. eexists _, _. split; [reflexivity | vm_compute; reflexivity].
  - intros w0. eexists _, _. split; [reflexivity | vm_compute; reflexivity].
Defined.

(** *** The records *)

Section Records.

Context {world : Type}.
Variable session_get : request -> world -> result pyval * world.
Variable self : client.

Lemma process_devices_carry (ferm : gmap string string) (best : gmap string dict)
    (devs : list pyval) (out out' : gmap string pyval) (w w' : world) :
  process_devices session_get self ferm best devs out w = (Ok out', w') ->
  forall k rec, out' !! k = Some rec -> out !! k = Some rec \/ carries ferm best k rec.
Proof.
  revert out w. induction devs as [|dev devs IH]; intros out w H k rec Hk.
  - apply ret_ok in H as [-> _]. auto.
  - cbn [process_devices] in H.
    apply bind_ok in H as (out1 & w1 & Hd & H).
    destruct (IH _ _ H k rec Hk) as [Hin|Hc]; [|right; exact Hc].
    apply process_device_record in Hd
      as (d & -> & [(_ & -> & _)|(_ & temp & sg & time & ->)]); [auto|].
    destruct (decide (py_str (dict_get d "id") = k)) as [<-|Hne].
    + rewrite lookup_insert_eq in Hin. injection Hin as <-.
      right. do 6 eexists. reflexivity.
    + rewrite lookup_insert_ne in Hin by exact Hne. auto.
Qed.

(** Entries with other identifiers leave the record of [k] alone. *)
Lemma process_devices_others (ferm : gmap string string) (best : gmap string dict)
    (devs : list pyval) (out out' : gmap string pyval) (w w' : world) (k : string) :
  process_devices session_get self ferm best devs out w = (Ok out', w') ->
  (forall d, In (PDict d) devs -> truthy (dict_get d "id") = true ->
             py_str (dict_get d "id") <> k) ->
  out' !! k = out !! k.
Proof.
  revert out w. induction devs as [|dev devs IH]; intros out w H Hk.
  - apply ret_ok in H as [-> _]. reflexivity.
  - cbn [process_devices] in H.
    apply bind_ok in H as (out1 & w1 & Hd & H).
    rewrite (IH _ _ H) by (intros d' Hin; apply Hk; right; exact Hin).
    apply process_device_record in Hd
      as (d & -> & [(_ & -> & _)|(Htr & temp & sg & time & ->)]); [reflexivity|].
    apply lookup_insert_ne. apply Hk; [left; reflexivity | exact Htr].
Qed.

End Records.

(** X15: in every mapping a poll cycle returns, the [fermenter] field of the
    record of a device [k] is the name the fermenter association holds for
    [k], [None] when it holds none, and the [batch] field is the label of the
    best batch of [k], [None] when there is none; the two associations are
    those of the fermenters and batches fetched in this cycle. *)
Theorem record_fermenter_and_batch {world : Type}
    (session_get : request -> world -> result pyval * world) (self : client)
    (w : world) (out : gmap string pyval) :
  fst (fetch_readings session_get self w) = Ok out ->
  exists devices w1 fermenters w2 batches,
    _get session_get self "/devices" None w = (Ok devices, w1)
    /\ fetch_fermenters session_get self w1 = (Ok fermenters, w2)
    /\ fst (fetch_batches session_get self w2) = Ok batches
    /\ forall k rec, out !! k = Some rec ->
         exists name battery wifi temp sg time,
           rec = reading_record name battery wifi temp sg time
                   (match fermenter_names fermenters !! k with
                    | Some n => PStr n
                    | None => PNone
                    end)
                   (match best_batches batches !! k with
                    | Some b => batch_label b
                    | None => PNone
                    end).
Proof.
  destruct (fetch_readings session_get self w) as [r w'] eqn:H. cbn [fst]. intros ->.
  unfold fetch_readings in H.
  apply bind_ok in H as (devices & w1 & Hd & H).
  apply bind_ok in H as (fs & w2 & Hf & H).
  apply bind_ok in H as (bs & w3 & Hb & H).
  exists devices, w1, fs, w2, bs. rewrite Hb. repeat split; try assumption.
  unfold build_output in H.
  apply bind_ok in H as (devs & w4 & Hi & H). apply lift_ok in Hi as [Hi ->].
  intros k rec Hk.
  destruct (process_devices_carry session_get self _ _ _ _ _ _ _ H k rec Hk) as [Hin|Hc];
    [|exact Hc].
  rewrite lookup_empty in Hin. discriminate.
Qed.

Lemma record_fermenter_and_batch_witness :
  exists devices w1 fermenters w2 batches,
    _get (serve end_to_end) example_client "/devices" None [] = (Ok devices, w1)
    /\ fetch_fermenters (serve end_to_end) example_client w1 = (Ok fermenters, w2)
    /\ fst (fetch_batches (serve end_to_end) example_client w2) = Ok batches
    /\ fermenter_names fermenters !! "d1" = Some "FV1"
    /\ best_batches batches !! "d1"
       = Some [("name", PStr "IPA"); ("devices", PList [PStr "d1"]); ("enabled", PBool true)].
Proof.
  destruct (record_fermenter_and_batch (serve end_to_end) example_client []
              {[ "d1" := reading_record (PStr "Fermenter 1") PNone PNone
                           (PFloat (float_lit "20.5")) (PFloat (float_lit "1.05"))
                           PNone (PStr "FV1") (PStr "IPA") ]})
    as (devices & w1 & fs & w2 & bs & Hd & Hf & Hb & _).
  - vm_compute. reflexivity.
  - exists devices, w1, fs, w2, bs. repeat split; try assumption.
    + vm_compute in Hd. injection Hd as <- <-.
      vm_compute in Hf. injection Hf as <- <-. vm_compute. reflexivity.
    + vm_compute in Hd. injection Hd as <- <-.
      vm_compute in Hf. injection Hf as <- <-.
      vm_compute in Hb. injection Hb as <-. vm_compute. reflexivity.
Defined.

(** X16: when several entries of the device list have one identifier (as
    text: the number 7 and the text 7 are one identifier), the record of the
    mapping is the one of the last of them: its name, battery and signal
    fields are those of the last entry with this identifier. *)
Theorem last_entry_of_a_device_counts {world : Type}
    (session_get : request -> world -> result pyval * world) (self : client)
    (fermenters batches : list dict) (pre post : list pyval) (d : dict)
    (w : world) (out : gmap string pyval) :
  fst (build_output session_get self (PList (pre ++ PDict d :: post)) fermenters batches w)
  = Ok out ->
  truthy (dict_get d "id") = true ->
  (forall d', In (PDict d') post -> truthy (dict_get d' "id") = true ->
              py_str (dict_get d' "id") <> py_str (dict_get d "id")) ->
  exists temp sg time fermenter batch,
    out !! py_str (dict_get d "id")
    = Some (reading_record
              (py_or (dict_get d "name") (PStr ("Plaato " +:+ py_str (dict_get d "id"))))
              (pick (PDict d) ["batteryLevel"; "battery"; "battery_percent"])
              (pick (PDict d) ["wifiStrength"; "rssi"; "signal"])
              temp sg time fermenter batch).
Proof.
  destruct (build_output session_get self _ fermenters batches w) as [r w'] eqn:H.
  cbn [fst]. intros -> Hid Hpost. unfold build_output in H.
  apply bind_ok in H as (devs & w1 & Hi & H). apply lift_ok in Hi as [Hi ->].
  assert (devs = pre ++ PDict d :: post) as ->.
  { destruct pre; cbn in Hi; injection Hi as <-; reflexivity. }
  rewrite process_devices_app in H.
  destruct (process_devices session_get self _ _ pre ∅ w) as [[out1|e] w1]; [|discriminate].
  cbn [process_devices] in H.
  apply bind_ok in H as (out2 & w2 & Hd & H).
  rewrite (process_devices_others session_get self _ _ _ _ _ _ _ _ H Hpost).
  apply process_device_record in Hd
    as (d0 & [= <-] & [(Hf & _)|(_ & temp & sg & time & ->)]); [congruence|].
  rewrite lookup_insert_eq. eauto 6.
Qed.

Lemma last_entry_of_a_device_counts_witness :
  exists temp sg time fermenter batch,
    ({[ "7" := reading_record (PStr "second") PNone PNone PNone PNone PNone PNone PNone;
        "8" := reading_record (PStr "Plaato 8") PNone PNone PNone PNone PNone PNone PNone ]}
       : gmap string pyval) !! "7"
    = Some (reading_record (PStr "second") PNone PNone temp sg time fermenter batch).
Proof.
  apply (last_entry_of_a_device_counts (serve []) example_client [] []
           [PDict [("id", PInt 7); ("name", PStr "first")]]
           [PDict [("id", PStr "8")]]
           [("id", PStr "7"); ("name", PStr "second")] []).
  - vm_compute. reflexivity.
  - reflexivity.
  - intros d' [[= <-]|[]] _. vm_compute. discriminate.
Defined.

(** *** The fermenter names *)

Lemma append_not_empty (a b : string) : b <> EmptyString -> a +:+ b <> EmptyString.
Proof.
  intros Hb. destruct a; rewrite ?app_cons, ?app_nil; [exact Hb | discriminate].
Qed.

Lemma int_str_not_empty (n : Z) : int_str n <> EmptyString.
Proof.
  unfold int_str. destruct n as [|p|p]; cbn [Z.to_int NilZero.string_of_int].
  - discriminate.
  - unfold NilZero.string_of_uint. destruct (Pos.to_uint p); discriminate.
  - discriminate.
Qed.

Lemma float_layout_not_empty (ds : string) (decpt : Z) : float_layout ds decpt <> EmptyString.
Proof.
  unfold float_layout.
  destruct ((decpt <=? -4) || (16 <? decpt)).
  - apply append_not_empty. discriminate.
  - destruct (decpt <=? 0); [discriminate|].
    destruct (Z.of_nat (String.length ds) <=? decpt).
    + apply append_not_empty, append_not_empty. discriminate.
    + apply append_not_empty. discriminate.
Qed.

Lemma float_repr_not_empty (x : spec_float) : float_repr x <> EmptyString.
Proof.
  destruct x as [s|s| |s m e]; cbn [float_repr]; try (destruct s; discriminate); try discriminate.
  destruct (ratio_of_finite m e) as [n d].
  destruct (shortest_from 17 (S754_finite s m e) n d 1) as [c0 k0].
  destruct (rstrip_zeros 400 c0 k0) as [c k].
  destruct s; [discriminate | apply float_layout_not_empty].
Qed.

(** [str] of a truthy value is not the empty text. *)
Lemma py_str_not_empty (v : pyval) : truthy v = true -> py_str v <> EmptyString.
Proof.
  destruct v as [|b|n|x|s|l|d]; cbn [truthy py_str py_repr]; try discriminate.
  - destruct b; discriminate.
  - intros _. apply int_str_not_empty.
  - intros _. apply float_repr_not_empty.
  - destruct s; [discriminate|]. discriminate.
Qed.

Lemma fermenter_name_truthy (fer : dict) : truthy (fermenter_name fer) = true.
Proof. unfold fermenter_name. do 3 apply py_or_truthy. reflexivity. Qed.

Lemma fermenter_names_snoc (fs : list dict) (fer : dict) (did : string) :
  fermenter_names (fs ++ [fer]) !! did =
  if in_dec string_dec did (fermenter_device_ids fer)
  then Some (py_str (fermenter_name fer)) else fermenter_names fs !! did.
Proof.
  unfold fermenter_names. rewrite fold_left_app. cbn [fold_left].
  apply add_fermenter_lookup.
Qed.

Lemma fermenter_names_none (fs : list dict) (did : string) :
  fermenter_names fs !! did = None <->
  forall f, In f fs -> ~ In did (fermenter_device_ids f).
Proof.
  induction fs as [|fer fs IH] using rev_ind.
  - split; [intros _ f [] | intros _; apply lookup_empty].
  - rewrite fermenter_names_snoc.
    destruct (in_dec string_dec did (fermenter_device_ids fer)) as [Hin|Hnin].
    + split; [discriminate|]. intros H. exfalso.
      apply (H fer); [apply in_or_app; right; left; reflexivity | exact Hin].
    + rewrite IH. split.
      * intros H f Hf. apply in_app_or in Hf as [Hf|[<-|[]]]; [apply H, Hf | exact Hnin].
      * intros H f Hf. apply H, in_or_app. left. exact Hf.
Qed.

Lemma fermenter_names_some (fs : list dict) (did n : string) :
  fermenter_names fs !! did = Some n ->
  exists f, In f fs /\ In did (fermenter_device_ids f) /\ n = py_str (fermenter_name f).
Proof.
  induction fs as [|fer fs IH] using rev_ind.
  - unfold fermenter_names. cbn [fold_left]. rewrite lookup_empty. discriminate.
  - rewrite fermenter_names_snoc.
    destruct (in_dec string_dec did (fermenter_device_ids fer)) as [Hin|Hnin].
    + intros [= <-]. exists fer. split; [apply in_or_app; right; left; reflexivity | auto].
    + intros H. destruct (IH H) as (f & Hf & Hd & Hn).
      exists f. split; [apply in_or_app; left; exact Hf | auto].
Qed.

(** X17: the fermenter association holds no name for a device exactly when
    no fermenter references the device.  A name it holds is never empty and
    is [str] of the name of a fermenter that references the device, the name
    of a fermenter being the first truthy one of its [name], [title] and
    [id] fields, or [Fermenter] when all three are falsy. *)
Theorem fermenter_names_values (fermenters : list dict) (did : string) :
  (fermenter_names fermenters !! did = None <->
   forall f, In f fermenters -> ~ In did (fermenter_device_ids f))
  /\ (forall n, fermenter_names fermenters !! did = Some n ->
        n <> EmptyString
        /\ exists f, In f fermenters /\ In did (fermenter_device_ids f)
                     /\ n = py_str (fermenter_name f))
  /\ (forall f, truthy (dict_get f "name") = true -> fermenter_name f = dict_get f "name")
  /\ (forall f, truthy (dict_get f "name") = false -> truthy (dict_get f "title") = true ->
        fermenter_name f = dict_get f "title")
  /\ (forall f, truthy (dict_get f "name") = false -> truthy (dict_get f "title") = false ->
        truthy (dict_get f "id") = true -> fermenter_name f = dict_get f "id")
  /\ (forall f, truthy (dict_get f "name") = false -> truthy (dict_get f "title") = false ->
        truthy (dict_get f "id") = false -> fermenter_name f = PStr "Fermenter").
Proof.
  split; [apply fermenter_names_none|]. split; [|repeat split].
  - intros n H. destruct (fermenter_names_some _ _ _ H) as (f & Hf & Hd & ->).
    split; [apply py_str_not_empty, fermenter_name_truthy | eauto].
  - intros f H. unfold fermenter_name, py_or. rewrite H. reflexivity.
  - intros f H1 H2. unfold fermenter_name, py_or. rewrite H1, H2. reflexivity.
  - intros f H1 H2 H3. unfold fermenter_name, py_or. rewrite H1, H2, H3. reflexivity.
  - intros f H1 H2 H3. unfold fermenter_name, py_or. rewrite H1, H2, H3. reflexivity.
Qed.

(** *** The base URL *)

Lemma rstrip_by_idem (p : ascii -> bool) (s : string) :
  rstrip_by p (rstrip_by p s) = rstrip_by p s.
Proof.
  induction s as [|c s IH]; cbn [rstrip_by]; [reflexivity|].
  destruct (rstrip_by p s) as [|a r] eqn:Hr.
  - destruct (p c) eqn:Hc; cbn [rstrip_by]; [reflexivity|]. rewrite Hc. reflexivity.
  - cbn [rstrip_by] in *. rewrite IH. reflexivity.
Qed.

(** What [rstrip] cuts off satisfies [p] throughout. *)
Lemma rstrip_by_split (p : ascii -> bool) (s : string) :
  exists t, s = rstrip_by p s +:+ t /\ forall c, contains_char c t = true -> p c = true.
Proof.
  induction s as [|c s (t & Ht & Hp)]; cbn [rstrip_by].
  - exists EmptyString. split; [reflexivity | discriminate].
  - destruct (rstrip_by p s) as [|a r] eqn:Hr.
    + destruct (p c) eqn:Hc.
      * exists (String c t). rewrite app_nil in *. split; [congruence|].
        intros c' H. cbn [contains_char] in H. apply orb_true_iff in H as [H|H]; [|auto].
        apply Ascii.eqb_eq in H. subst c'. exact Hc.
      * exists t. rewrite app_nil in Ht. rewrite !app_cons, app_nil. split; [congruence|exact Hp].
    + exists t. rewrite app_cons. split; [congruence | exact Hp].
Qed.

(** What [rstrip] leaves does not end in a character satisfying [p]. *)
Lemma rstrip_by_end (p : ascii -> bool) (s r : string) (c : ascii) :
  rstrip_by p s = r +:+ String c EmptyString -> p c = false.
Proof.
  revert r. induction s as [|a s IH]; intros r; cbn [rstrip_by].
  - destruct r; discriminate.
  - destruct (rstrip_by p s) as [|b t] eqn:Hs.
    + destruct (p a) eqn:Ha; [destruct r; discriminate|].
      destruct r as [|x r]; rewrite ?app_cons, ?app_nil.
      * intros [= <-]. exact Ha.
      * intros H. injection H as _ H. destruct r; discriminate H.
    + destruct r as [|x r]; rewrite ?app_cons, ?app_nil.
      * intros H. injection H as _ H. discriminate H.
      * intros H. injection H as _ H. apply (IH r). exact H.
Qed.

(** X18: the client keeps the base URL without its trailing slashes: what
    it cuts off is slashes only, what it keeps does not end in a slash,
    a client made from the kept URL is the same client, and every request
    goes to the kept URL followed by the path as given. *)
Theorem client_base_url (base_url api_key : string) :
  (exists slashes,
     base_url = _base_url (new_client base_url api_key) +:+ slashes
     /\ forall c, contains_char c slashes = true -> c = "/"%char)
  /\ (forall r c, _base_url (new_client base_url api_key) = r +:+ String c EmptyString ->
                  c <> "/"%char)
  /\ new_client (_base_url (new_client base_url api_key)) api_key
     = new_client base_url api_key
  /\ forall path params,
       url (get_request (new_client base_url api_key) path params)
       = rstrip_char "/" base_url +:+ path.
Proof.
  unfold new_client, rstrip_char. cbn [_base_url].
  split; [|split; [|split]].
  - destruct (rstrip_by_split (fun c => Ascii.eqb c "/") base_url) as (t & Ht & Hp).
    exists t. split; [exact Ht|]. intros c Hc. apply Ascii.eqb_eq, Hp, Hc.
  - intros r c H ->. apply rstrip_by_end in H. discriminate H.
  - rewrite rstrip_by_idem. reflexivity.
  - reflexivity.
Qed.

(** ** Further properties of the entities and of the setup *)

Import Platform Setup.

(** *** The client of the validation and the client of the setup *)

(** X19: the config flow validates with a client made from the stripped
    input, whereas the entry stores the input as typed and the setup makes
    the polling client from that.  The two clients are the same when the
    input has no surrounding white space; for a base URL typed with a
    trailing space they differ: the validation goes to the URL without the
    slash and the space, the polling to the URL as typed. *)
Theorem validation_and_setup_clients (u : user_input) :
  (strip (base_url u) = base_url u -> strip (api_key u) = api_key u ->
   setup_client u = validation_client u)
  /\ _base_url (validation_client u) = rstrip_char "/" (strip (base_url u))
  /\ _base_url (setup_client u) = rstrip_char "/" (base_url u)
  /\ _base_url (setup_client (mk_user_input "https://api.example/v1/ " "key"))
     = "https://api.example/v1/ "
  /\ _base_url (validation_client (mk_user_input "https://api.example/v1/ " "key"))
     = "https://api.example/v1".
Proof.
  unfold setup_client, validation_client, new_client, rstrip_char. cbn [_base_url].
  split; [|split; [|split; [|split]]].
  - intros -> ->. rewrite rstrip_by_idem. reflexivity.
  - apply rstrip_by_idem.
  - reflexivity.
  - vm_compute. reflexivity.
  - vm_compute. reflexivity.
Qed.

(** *** The states of the sensors *)

Lemma float_eqb_eq (x y : spec_float) : float_eqb x y = true -> x = y.
Proof.
  destruct x as [a|a| |a m e], y as [b|b| |b m' e']; cbn [float_eqb]; try discriminate.
  - intros H. apply Bool.eqb_prop in H. congruence.
  - intros H. apply Bool.eqb_prop in H. congruence.
  - reflexivity.
  - intros H. apply andb_true_iff in H as [H He]. apply andb_true_iff in H as [Ha Hm].
    apply Bool.eqb_prop in Ha. apply Pos.eqb_eq in Hm. apply Z.eqb_eq in He. congruence.
Qed.

Lemma py_round_raises (x : spec_float) (e : exn) :
  py_round x = Raise e ->
  (e = OverflowError /\ exists s, x = S754_infinity s) \/ (e = ValueError /\ x = S754_nan).
Proof.
  destruct x as [s|s| |s m ex]; cbn [py_round]; try discriminate.
  - intros [= <-]. left. eauto.
  - intros [= <-]. right. auto.
  - destruct (ratio_of_finite m ex). discriminate.
Qed.

Lemma py_round_finite (x : spec_float) :
  is_finite x = true -> exists k, py_round x = Ok k.
Proof.
  destruct x as [s|s| |s m ex]; cbn [py_round is_finite]; try discriminate; intros _.
  - eauto.
  - destruct (ratio_of_finite m ex). eauto.
Qed.

Lemma to_float_raises (p : pyval) (e : exn) :
  is_int_or_float p = true -> to_float p = Raise e ->
  e = OverflowError /\ exists n, p = PInt n /\ float_of_int n = Raise OverflowError.
Proof.
  destruct p; cbn [is_int_or_float to_float]; try discriminate; intros _.
  unfold float_of_int. destruct (binary_normalize prec emax n 0 false) eqn:Hn; try discriminate.
  intros [= <-]. split; [reflexivity|]. exists n. rewrite Hn. auto.
Qed.

(** X20: the state of the density sensor.  A float density gives its
    rounding to four places; a text gives that of the float it reads as once
    stripped, an int that of its float; anything else gives [None].  The
    state is [None] or a float; the sensor raises only [OverflowError], and
    only for an int beyond the floats; an infinite or NaN density is the
    state as it is. *)
Theorem density_state_cases (r : ReadingDef) (device_id : string)
    (data : option (gmap string payload)) :
  key r = "density" ->
  let val := payload_get (device_payload data device_id) "density" in
  (forall x, val = VPy (PFloat x) ->
     native_value r device_id data = Ok (VPy (PFloat (py_round_digits x 4))))
  /\ (forall s x, val = VPy (PStr s) -> float_of_str (strip s) = Some x ->
        native_value r device_id data = Ok (VPy (PFloat (py_round_digits x 4))))
  /\ (forall n x, val = VPy (PInt n) -> float_of_int n = Ok x ->
        native_value r device_id data = Ok (VPy (PFloat (py_round_digits x 4))))
  /\ (non_numeric val -> native_value r device_id data = Ok (VPy PNone))
  /\ (forall v, native_value r device_id data = Ok v ->
        v = VPy PNone \/ exists x, v = VPy (PFloat x))
  /\ (forall e, native_value r device_id data = Raise e ->
        e = OverflowError
        /\ exists n, val = VPy (PInt n) /\ float_of_int n = Raise OverflowError)
  /\ (forall x, is_finite x = false -> val = VPy (PFloat x) ->
        native_value r device_id data = Ok (VPy (PFloat x))).
Proof.
  intros Hkey val.
  assert (Hnv : native_value r device_id data = numeric_state rounded_gravity val).
  { unfold native_value. rewrite Hkey. reflexivity. }
  rewrite Hnv. clear Hnv.
  split; [|split; [|split; [|split; [|split; [|split]]]]].
  - intros x ->. reflexivity.
  - intros s x -> Hx. cbn [numeric_state]. rewrite Hx. reflexivity.
  - intros n x -> Hx. cbn [numeric_state is_int_or_float]. unfold rounded_gravity.
    cbn [to_float]. rewrite Hx. reflexivity.
  - unfold non_numeric. destruct val as [p|dt]; [|reflexivity].
    destruct p; cbn [numeric_state is_int_or_float]; try discriminate; try reflexivity.
    intros ->. reflexivity.
  - intros v. destruct val as [p|dt]; cbn [numeric_state].
    2: { intros [= <-]. auto. }
    destruct p; cbn [is_int_or_float]; unfold rounded_gravity; cbn [to_float rbind];
      try (intros [= <-]; eauto; fail).
    + destruct (float_of_int n); cbn [rbind]; [intros [= <-]; eauto | discriminate].
    + destruct (float_of_str (strip s)); cbn [to_float rbind]; intros [= <-]; eauto.
  - intros e. destruct val as [p|dt]; cbn [numeric_state]; [|discriminate].
    destruct p; cbn [is_int_or_float]; unfold rounded_gravity; cbn [to_float rbind];
      try discriminate.
    + destruct (float_of_int n) eqn:Hn; cbn [rbind]; [discriminate|].
      intros [= <-].
      destruct (to_float_raises (PInt n) e0 eq_refl Hn) as (-> & n' & [= <-] & Hn').
      split; [reflexivity|]. exists n. auto.
    + destruct (float_of_str (strip s)); cbn [to_float rbind]; discriminate.
  - intros x Hx ->. cbn [numeric_state is_int_or_float]. unfold rounded_gravity.
    cbn [to_float rbind]. destruct x; try discriminate Hx; reflexivity.
Qed.

Lemma density_state_cases_witness :
  native_value (mk_reading "density" "Specific Gravity" (Some "SG") None (Some MEASUREMENT))
    "d1" (Some {[ "d1" := [("density", VPy (PStr " 1.04871 "))] ]})
  = Ok (VPy (PFloat (float_lit "1.0487"))).
Proof.
  destruct (density_state_cases
              (mk_reading "density" "Specific Gravity" (Some "SG") None (Some MEASUREMENT))
              "d1" (Some {[ "d1" := [("density", VPy (PStr " 1.04871 "))] ]}) eq_refl)
    as (_ & H & _).
  rewrite (H " 1.04871 " (float_lit "1.04871")); vm_compute; reflexivity.
Defined.

Lemma density_kept_range : forallb density_kept (zrange 3001 9000) = true.
Proof. vm_compute. reflexivity. Qed.

(** X21: a density with four decimals between 0.9 and 1.2, given as a float
    or as its text [d.dddd], is the state of the density sensor unchanged:
    rounding to four places gives back the float nearest to the decimal. *)
Theorem density_state_keeps_four_decimals (r : ReadingDef) (device_id : string)
    (data : option (gmap string payload)) (n : Z) :
  key r = "density" ->
  9000 <= n <= 12000 ->
  payload_get (device_payload data device_id) "density" = VPy (PFloat (decimal n 4))
  \/ payload_get (device_payload data device_id) "density" = VPy (PStr (decimal4_text n)) ->
  native_value r device_id data = Ok (VPy (PFloat (decimal n 4))).
Proof.
  intros Hkey Hn Hval.
  assert (Hnv : native_value r device_id data
                = numeric_state rounded_gravity
                    (payload_get (device_payload data device_id) "density")).
  { unfold native_value. rewrite Hkey. reflexivity. }
  rewrite Hnv. clear Hnv.
  pose proof (proj1 (forallb_forall density_kept (zrange 3001 9000)) density_kept_range n
                (zrange_In 3001 9000 n ltac:(lia))) as Hk.
  unfold density_kept in Hk.
  destruct (numeric_state rounded_gravity (VPy (PFloat (decimal n 4))))
    as [[[| | |x| | |]|]|] eqn:H1; try discriminate Hk.
  destruct (numeric_state rounded_gravity (VPy (PStr (decimal4_text n))))
    as [[[| | |y| | |]|]|] eqn:H2; try discriminate Hk.
  apply andb_true_iff in Hk as [Hx Hy].
  apply float_eqb_eq in Hx, Hy. subst x y.
  destruct Hval as [-> | ->]; assumption.
Qed.

Lemma density_state_keeps_four_decimals_witness :
  native_value (mk_reading "density" "Specific Gravity" (Some "SG") None (Some MEASUREMENT))
    "d1" (Some {[ "d1" := [("density", VPy (PStr "1.0487"))] ]})
  = Ok (VPy (PFloat (float_lit "1.0487"))).
Proof.
  apply (density_state_keeps_four_decimals
           (mk_reading "density" "Specific Gravity" (Some "SG") None (Some MEASUREMENT))
           "d1" (Some {[ "d1" := [("density", VPy (PStr "1.0487"))] ]}) 10487).
  - reflexivity.
  - lia.
  - right. vm_compute. reflexivity.
Defined.

(** X22: the gravity-points sensor raises only [OverflowError] or
    [ValueError].  For a density [x] given as a float, or as a text that
    reads as [x], the state is an int when [(x - 1.0) * 1000] is finite, the
    sensor raises [OverflowError] when it is infinite and [ValueError] when
    it is NaN.  So the texts [inf] and [nan], which [as_float] of the client
    turns into floats, make the sensor raise. *)
Theorem gravity_points_errors (r : ReadingDef) (device_id : string)
    (data : option (gmap string payload)) :
  key r = "gravity_points" ->
  let val := payload_get (device_payload data device_id) "density" in
  (forall e, native_value r device_id data = Raise e -> e = OverflowError \/ e = ValueError)
  /\ (forall x,
        val = VPy (PFloat x)
        \/ (exists s, val = VPy (PStr s) /\ float_of_str (strip s) = Some x) ->
        (is_finite (points_product x) = true ->
         exists k, native_value r device_id data = Ok (VPy (PInt k)))
        /\ ((exists s, points_product x = S754_infinity s) ->
            native_value r device_id data = Raise OverflowError)
        /\ (points_product x = S754_nan ->
            native_value r device_id data = Raise ValueError))
  /\ (val = VPy (PStr "inf") -> native_value r device_id data = Raise OverflowError)
  /\ (val = VPy (PStr "nan") -> native_value r device_id data = Raise ValueError)
  /\ as_float (PStr "inf") = Ok (PFloat (S754_infinity false))
  /\ as_float (PStr "nan") = Ok (PFloat S754_nan).
Proof.
  intros Hkey val.
  assert (Hnv : native_value r device_id data = numeric_state gravity_points val).
  { unfold native_value. rewrite Hkey. reflexivity. }
  rewrite Hnv. clear Hnv.
  assert (Hfloat : forall x, gravity_points (PFloat x)
                     = rbind (py_round (points_product x)) (fun n => Ok (VPy (PInt n))))
    by reflexivity.
  split; [|split; [|split; [|split; [|split]]]].
  - intros e. destruct val as [p|dt]; cbn [numeric_state]; [|discriminate].
    assert (Hgp : forall q, is_int_or_float q = true -> gravity_points q = Raise e ->
                    e = OverflowError \/ e = ValueError).
    { intros q Hq. unfold gravity_points.
      destruct (to_float q) as [x|e0] eqn:Hx; cbn [rbind].
      - destruct (py_round _) as [k|e1] eqn:Hr; cbn [rbind]; [discriminate|].
        intros [= <-]. apply py_round_raises in Hr as [[-> _]|[-> _]]; auto.
      - intros [= <-]. left. apply (to_float_raises q e0 Hq Hx). }
    destruct p; cbn [is_int_or_float]; try discriminate; try (apply Hgp; reflexivity).
    destruct (float_of_str (strip s)); [apply Hgp; reflexivity | discriminate].
  - intros x Hx.
    assert (Hst : numeric_state gravity_points val = gravity_points (PFloat x)).
    { destruct Hx as [-> | (s & -> & Hs)]; cbn [numeric_state]; [|rewrite Hs]; reflexivity. }
    rewrite Hst, Hfloat. split; [|split].
    + intros Hf. destruct (py_round_finite _ Hf) as (k & ->). eauto.
    + intros (s & ->). reflexivity.
    + intros ->. reflexivity.
  - intros ->. vm_compute. reflexivity.
  - intros ->. vm_compute. reflexivity.
  - vm_compute. reflexivity.
  - vm_compute. reflexivity.
Qed.

Lemma gravity_points_errors_witness :
  native_value (mk_reading "gravity_points" "Gravity Points" (Some "pts") None (Some MEASUREMENT))
    "d1" (Some {[ "d1" := [("density", VPy (PFloat (S754_infinity false)))] ]})
  = Raise OverflowError.
Proof.
  destruct (gravity_points_errors
              (mk_reading "gravity_points" "Gravity Points" (Some "pts") None (Some MEASUREMENT))
              "d1" (Some {[ "d1" := [("density", VPy (PFloat (S754_infinity false)))] ]})
              eq_refl) as (_ & H & _).
  destruct (H (S754_infinity false) (or_introl eq_refl)) as (_ & Hinf & _).
  apply Hinf. exists false. vm_compute. reflexivity.
Defined.

Lemma points_near_range : forallb points_near (zrange 3001 9000) = true.
Proof. vm_compute. reflexivity. Qed.

(** X23: for a density with three decimals between 0 and 2 the gravity
    points are exactly its thousandths above one (1.048 gives 48, 0.998
    gives -2).  For a density with four decimals between 0.9 and 1.2 they
    are the integer nearest to its ten-thousandths above one divided by ten;
    when that lies half-way between two integers the state is one of the
    two. *)
Theorem gravity_points_of_decimals (n : Z) :
  (0 <= n <= 2000 -> gravity_points (PFloat (decimal n 3)) = Ok (VPy (PInt (n - 1000))))
  /\ (9000 <= n <= 12000 ->
      exists k, gravity_points (PFloat (decimal n 4)) = Ok (VPy (PInt k))
                /\ ((n - 10000) mod 10 <> 5 -> k = round_half_even (n - 10000) 10)
                /\ ((n - 10000) mod 10 = 5 ->
                    k = (n - 10000) / 10 \/ k = (n - 10000) / 10 + 1)).
Proof.
  split.
  - intros Hn.
    pose proof (proj1 (forallb_forall points_exact (zrange 2001 0)) points_exact_range n
                  (zrange_In 2001 0 n ltac:(lia))) as Hk.
    unfold points_exact in Hk.
    destruct (gravity_points (PFloat (decimal n 3))) as [[[| |k| | | |]|]|];
      try discriminate Hk.
    apply Z.eqb_eq in Hk. subst k. reflexivity.
  - intros Hn.
    pose proof (proj1 (forallb_forall points_near (zrange 3001 9000)) points_near_range n
                  (zrange_In 3001 9000 n ltac:(lia))) as Hk.
    unfold points_near in Hk.
    destruct (gravity_points (PFloat (decimal n 4))) as [[[| |k| | | |]|]|];
      try discriminate Hk.
    exists k. split; [reflexivity|].
    destruct ((n - 10000) mod 10 =? 5) eqn:Hm.
    + apply Z.eqb_eq in Hm. split; [congruence|]. intros _.
      apply orb_true_iff in Hk as [Hk|Hk]; apply Z.eqb_eq in Hk; auto.
    + apply Z.eqb_neq in Hm. apply Z.eqb_eq in Hk. split; [auto | congruence].
Qed.

Lemma missing_payload_state (r : ReadingDef) (device_id : string)
    (data : option (gmap string payload)) :
  device_payload data device_id = [] ->
  native_value r device_id data = Ok (VPy PNone).
Proof.
  intros H. unfold native_value. rewrite H.
  destruct (String.eqb (key r) "gravity_points"); [reflexivity|].
  destruct (String.eqb (key r) "density"); [reflexivity|].
  destruct (device_class r) as [[]|]; reflexivity.
Qed.

(** X24: every sensor of a device has the state [None], and does not raise,
    when the coordinator has no data, when the data has no entry for the
    device, and when the entry of the device is empty. *)
Theorem sensors_of_missing_device (r : ReadingDef) (device_id : string)
    (data : option (gmap string payload)) :
  data = None
  \/ (exists m, data = Some m /\ (m !! device_id = None \/ m !! device_id = Some [])) ->
  native_value r device_id data = Ok (VPy PNone).
Proof.
  intros H. apply missing_payload_state.
  destruct H as [->|(m & -> & [H|H])]; unfold device_payload, payload in *;
    rewrite ?H; reflexivity.
Qed.

Lemma sensors_of_missing_device_witness :
  native_value (mk_reading "time" "Last Reading" None (Some TIMESTAMP) None) "d2"
    (Some {[ "d1" := [("time", VPy (PStr "2024-06-01T12:00:00Z"))] ]})
  = Ok (VPy PNone).
Proof.
  apply (sensors_of_missing_device (mk_reading "time" "Last Reading" None (Some TIMESTAMP) None)
           "d2" (Some {[ "d1" := [("time", VPy (PStr "2024-06-01T12:00:00Z"))] ]})).
  right. eexists. split; [reflexivity|]. left. vm_compute. reflexivity.
Defined.

(** *** The entities *)

Lemma string_length_app (a b : string) :
  String.length (a +:+ b) = (String.length a + String.length b)%nat.
Proof. induction a as [|c a IH]; rewrite ?app_cons, ?app_nil; cbn [String.length]; lia. Qed.

(** Two ways of cutting one text: the shorter tail is a tail of the longer. *)
Lemma app_tails (a b x y : string) :
  a +:+ x = b +:+ y -> (String.length x <= String.length y)%nat ->
  exists t, y = t +:+ x /\ a = b +:+ t.
Proof.
  revert a. induction b as [|c b IH]; intros a; rewrite ?app_cons, ?app_nil.
  - intros <- _. exists a. split; reflexivity.
  - destruct a as [|c' a]; rewrite ?app_cons, ?app_nil.
    + intros -> Hlen. cbn [String.length] in Hlen. rewrite string_length_app in Hlen. lia.
    + intros H Hlen. injection H as <- H.
      destruct (IH a H Hlen) as (t & Hy & Ha).
      exists t. rewrite app_cons. split; congruence.
Qed.

Lemma ends_with_app (t x : string) : ends_with x (t +:+ x) = true.
Proof.
  induction t as [|c t IH]; rewrite ?app_cons, ?app_nil.
  - destruct x; cbn [ends_with]; rewrite String.eqb_refl; reflexivity.
  - cbn [ends_with]. rewrite IH. apply orb_true_r.
Qed.

Lemma keys_are_apart : keys_apart = true.
Proof. vm_compute. reflexivity. Qed.

Lemma tail_of_key (d1 d2 : string) (r1 r2 : ReadingDef) :
  In r1 READINGS -> In r2 READINGS ->
  d1 +:+ String "_" (key r1) = d2 +:+ String "_" (key r2) ->
  (String.length (String "_" (key r1)) <= String.length (String "_" (key r2)))%nat ->
  d1 = d2 /\ key r1 = key r2.
Proof.
  intros H1 H2 Heq Hlen.
  destruct (app_tails _ _ _ _ Heq Hlen) as (t & Hy & Ha).
  pose proof keys_are_apart as Hk. unfold keys_apart in Hk.
  rewrite forallb_forall in Hk. specialize (Hk r1 H1).
  rewrite forallb_forall in Hk. specialize (Hk r2 H2).
  apply orb_true_iff in Hk as [Hk|Hk].
  - apply String.eqb_eq in Hk. split; [|exact Hk].
    rewrite Hk in Hy.
    assert (Ht : String.length t = 0%nat).
    { apply (f_equal String.length) in Hy. rewrite string_length_app in Hy. lia. }
    destruct t; [|discriminate Ht]. rewrite Ha. apply app_empty_r.
  - rewrite Hy, ends_with_app in Hk. discriminate Hk.
Qed.

Lemma readings_by_key (r1 r2 : ReadingDef) :
  In r1 READINGS -> In r2 READINGS -> key r1 = key r2 -> r1 = r2.
Proof.
  cbn [In READINGS].
  intros [<-|[<-|[<-|[<-|[<-|[<-|[<-|[<-|[]]]]]]]]] [<-|[<-|[<-|[<-|[<-|[<-|[<-|[<-|[]]]]]]]]];
    cbn [key]; first [reflexivity | discriminate].
Qed.

(** The unique identifier tells the device and the reading. *)
Lemma unique_id_inj (entry_id d1 d2 : string) (n1 n2 : value) (r1 r2 : ReadingDef) :
  In r1 READINGS -> In r2 READINGS ->
  _attr_unique_id (new_sensor entry_id d1 n1 r1)
  = _attr_unique_id (new_sensor entry_id d2 n2 r2) ->
  d1 = d2 /\ r1 = r2.
Proof.
  intros H1 H2. cbn [_attr_unique_id new_sensor]. intros H.
  apply String.app_inj in H. injection H as H.
  assert (Hk : d1 = d2 /\ key r1 = key r2).
  { destruct (Nat.le_ge_cases (String.length (String "_" (key r1)))
                (String.length (String "_" (key r2)))) as [Hle|Hge].
    - apply tail_of_key; assumption.
    - symmetry in H. destruct (tail_of_key _ _ _ _ H2 H1 H Hge). split; congruence. }
  destruct Hk as [Hd Hk]. split; [exact Hd | apply readings_by_key; assumption].
Qed.

Lemma sensors_of_device_nodup (entry_id d : string) (n : value) (rs : list ReadingDef) :
  NoDup rs -> (forall r, In r rs -> In r READINGS) ->
  NoDup (map (fun r => _attr_unique_id (new_sensor entry_id d n r)) rs).
Proof.
  induction 1 as [|r rs Hnin Hnd IH]; intros Hin; cbn [map]; constructor.
  - intros Hm. apply list_elem_of_In, in_map_iff in Hm as (r' & Heq & Hr').
    destruct (unique_id_inj entry_id d d n n r' r) as [_ ->]; auto.
    + apply Hin. right. exact Hr'.
    + apply Hin. left. reflexivity.
    + apply Hnin, list_elem_of_In, Hr'.
  - apply IH. intros r' Hr'. apply Hin. right. exact Hr'.
Qed.

Lemma readings_nodup : NoDup READINGS.
Proof.
  unfold READINGS.
  repeat (apply NoDup_cons_2;
          [intros H; apply list_elem_of_In in H; cbn [In] in H; intuition discriminate|]).
  constructor.
Qed.

Lemma setup_entities_in (entry_id : string) (items : list (string * payload))
    (s : PlaatoReadingSensor) :
  In s (async_setup_entry entry_id (Some items)) <->
  exists d p r, In (d, p) items /\ In r READINGS
                /\ s = new_sensor entry_id d (device_name_of d p) r.
Proof.
  unfold async_setup_entry. rewrite in_flat_map. split.
  - intros ([d p] & Hin & Hs). apply in_map_iff in Hs as (r & <- & Hr).
    exists d, p, r. auto.
  - intros (d & p & r & Hin & Hr & ->). exists (d, p). split; [exact Hin|].
    apply in_map_iff. exists r. auto.
Qed.

(** X25: the entities the setup creates have pairwise distinct unique
    identifiers whenever the devices of the data have distinct keys.  The
    identifier joins entry, device and reading key by underscores; it still
    tells device and reading apart, because no reading key ends in an
    underscore followed by another reading key. *)
Theorem unique_ids_are_distinct (entry_id : string) (items : list (string * payload)) :
  NoDup (map fst items) ->
  NoDup (map _attr_unique_id (async_setup_entry entry_id (Some items))).
Proof.
  unfold async_setup_entry.
  induction items as [|[d p] items IH]; cbn [map fst flat_map]; intros Hnd.
  - constructor.
  - apply NoDup_cons in Hnd as [Hd Hnd].
    rewrite map_app. apply NoDup_app. split; [|split].
    + rewrite map_map.
      apply sensors_of_device_nodup; [apply readings_nodup | auto].
    + intros u Hu Hu'.
      rewrite map_map in Hu.
      apply list_elem_of_In, in_map_iff in Hu as (r & <- & Hr).
      apply list_elem_of_In, in_map_iff in Hu' as (s & Heq & Hs).
      apply (setup_entities_in entry_id items s) in Hs as (d' & p' & r' & Hin & Hr' & ->).
      destruct (unique_id_inj entry_id d' d _ _ r' r Hr' Hr Heq) as [-> _].
      apply Hd. apply list_elem_of_In, in_map_iff. exists (d, p'). auto.
    + apply IH, Hnd.
Qed.

Lemma unique_ids_are_distinct_witness :
  NoDup (map _attr_unique_id
           (async_setup_entry "entry1"
              (Some [("d1", [("name", VPy (PStr "Fermenter 1"))]);
                     ("d1_gravity", [])]))).
Proof.
  apply (unique_ids_are_distinct "entry1"
           [("d1", [("name", VPy (PStr "Fermenter 1"))]); ("d1_gravity", [])]).
  cbn [map fst]. repeat constructor; rewrite ?elem_of_cons, ?elem_of_nil; intuition discriminate.
Defined.

(** X26: the entities of the setup.  There are none without data or with an
    empty mapping; otherwise there are eight for each device, the devices in
    the order of the mapping and for each device the readings in the order
    of [READINGS].  Each entity takes name, unit, device class and state
    class from its reading, and as device name the [name] field of the
    record, or [Plaato <id>] when that is falsy.  Two entities have the same
    device information exactly when they belong to the same device. *)
Theorem setup_entities_per_device (DOMAIN entry_id : string)
    (items : list (string * payload)) :
  async_setup_entry entry_id None = []
  /\ async_setup_entry entry_id (Some []) = []
  /\ length (async_setup_entry entry_id (Some items)) = (8 * length items)%nat
  /\ map (fun s => (_device_id s, _reading s)) (async_setup_entry entry_id (Some items))
     = list_prod (map fst items) READINGS
  /\ (forall s, In s (async_setup_entry entry_id (Some items)) ->
        exists p, In (_device_id s, p) items
                  /\ _device_name s = device_name_of (_device_id s) p
                  /\ _attr_name s = name (_reading s)
                  /\ _attr_native_unit_of_measurement s = unit (_reading s)
                  /\ _attr_device_class s = device_class (_reading s)
                  /\ _attr_state_class s = state_class (_reading s))
  /\ (forall s1 s2,
        In s1 (async_setup_entry entry_id (Some items)) ->
        In s2 (async_setup_entry entry_id (Some items)) ->
        NoDup (map fst items) ->
        (device_info DOMAIN s1 = device_info DOMAIN s2 <-> _device_id s1 = _device_id s2)).
Proof.
  split; [reflexivity|]. split; [reflexivity|]. split; [|split; [|split]].
  - unfold async_setup_entry. induction items as [|item items IH]; [reflexivity|].
    cbn [flat_map]. rewrite length_app, IH, length_map. cbn [length READINGS]. lia.
  - unfold async_setup_entry. induction items as [|item items IH]; [reflexivity|].
    cbn [flat_map map list_prod]. rewrite map_app, IH, map_map. reflexivity.
  - intros s Hs. apply setup_entities_in in Hs as (d & p & r & Hin & Hr & ->).
    exists p. cbn. auto 10.
  - intros s1 s2 H1 H2 Hnd.
    apply setup_entities_in in H1 as (d1 & p1 & r1 & Hin1 & Hr1 & ->).
    apply setup_entities_in in H2 as (d2 & p2 & r2 & Hin2 & Hr2 & ->).
    unfold device_info. cbn [_device_id _device_name new_sensor]. split.
    + intros [= -> _]. reflexivity.
    + intros ->. assert (p1 = p2) as ->; [|reflexivity].
      clear -Hin1 Hin2 Hnd. induction items as [|[d p] items IH]; [destruct Hin1|].
      cbn [map fst] in Hnd. apply NoDup_cons in Hnd as [Hd Hnd].
      destruct Hin1 as [H1|Hin1], Hin2 as [H2|Hin2].
      * congruence.
      * exfalso. injection H1 as -> _.
        apply Hd, list_elem_of_In, in_map_iff. exists (d2, p2). auto.
      * exfalso. injection H2 as -> _.
        apply Hd, list_elem_of_In, in_map_iff. exists (d2, p1). auto.
      * apply IH; assumption.
Qed.

(** *** The sensors on what the poll cycle returns *)

(** X27: the sensors on the mapping of a poll cycle.  On what
    [fetch_readings] returns, every sensor other than the gravity points has
    a state and does not raise, the state of the density sensor being [None]
    or a float; the gravity-points sensor raises only when the record of the
    device holds a float density [x] for which [(x - 1.0) * 1000] is
    infinite or NaN. *)
Theorem states_of_fetched_records {world : Type}
    (session_get : request -> world -> result pyval * world) (self : client)
    (w : world) (out : gmap string pyval) (r : ReadingDef) (k : string) :
  fst (fetch_readings session_get self w) = Ok out ->
  (key r <> "gravity_points" ->
   exists v, native_value r k (Some (payload_of_record <$> out)) = Ok v)
  /\ (key r = "density" ->
      native_value r k (Some (payload_of_record <$> out)) = Ok (VPy PNone)
      \/ exists x, native_value r k (Some (payload_of_record <$> out)) = Ok (VPy (PFloat x)))
  /\ (key r = "gravity_points" ->
      forall e, native_value r k (Some (payload_of_record <$> out)) = Raise e ->
        exists fields x,
          out !! k = Some (PDict fields) /\ dict_get fields "density" = PFloat x
          /\ is_finite (points_product x) = false).
Proof.
  destruct (fetch_readings session_get self w) as [res w'] eqn:H. cbn [fst]. intros ->.
  destruct (out !! k) as [rec|] eqn:Hk.
  2: { assert (Hm : native_value r k (Some (payload_of_record <$> out)) = Ok (VPy PNone)).
       { apply missing_payload_state. unfold device_payload. rewrite lookup_fmap, Hk.
         reflexivity. }
       rewrite Hm. repeat split; eauto. intros _ e [=]. }
  destruct (fetch_readings_records session_get self w w' out H)
    as (devices & w1 & devs & _ & _ & Hrec).
  destruct (Hrec k rec Hk) as (dev & _ & Hdev).
  apply record_of_device_name in Hdev
    as (d & name & battery & wifi & temp & sg & time & fermenter & batch
        & _ & -> & _ & _ & _ & Hs & _).
  assert (Hp : device_payload (Some (payload_of_record <$> out)) k
               = payload_of_record (reading_record name battery wifi temp sg time
                                      fermenter batch)).
  { unfold device_payload. rewrite lookup_fmap, Hk. reflexivity. }
  unfold native_value. rewrite Hp.
  change (payload_get (payload_of_record _) "density") with (VPy sg).
  split; [|split].
  - intros Hg. apply String.eqb_neq in Hg. rewrite Hg.
    destruct (String.eqb (key r) "density") eqn:Hd.
    + apply String.eqb_eq in Hd. rewrite Hd.
      change (payload_get (payload_of_record _) "density") with (VPy sg).
      destruct Hs as [->|[x ->]]; cbn; eauto.
    + destruct (device_class r) as [[]|]; eauto.
  - intros Hd. rewrite Hd. cbn [String.eqb Ascii.eqb Bool.eqb].
    change (String.eqb "density" "gravity_points") with false.
    change (String.eqb "density" "density") with true. cbv iota.
    change (payload_get (payload_of_record _) "density") with (VPy sg).
    destruct Hs as [->|[x ->]]; cbn; eauto.
  - intros Hg e. rewrite Hg.
    change (String.eqb "gravity_points" "gravity_points") with true. cbv iota.
    destruct Hs as [->|[x ->]]; [discriminate|].
    cbn [numeric_state is_int_or_float]. intros He.
    eexists _, x. split; [reflexivity|]. split; [reflexivity|].
    change (gravity_points (PFloat x))
      with (rbind (py_round (points_product x)) (fun n => Ok (VPy (PInt n)))) in He.
    destruct (py_round (points_product x)) as [n|e1] eqn:Hr; [discriminate He|].
    apply py_round_raises in Hr as [[_ [s ->]]|[_ ->]]; reflexivity.
Qed.

Lemma states_of_fetched_records_witness :
  exists v,
    native_value (mk_reading "temperature" "Temperature" (Some degree_celsius)
                    (Some TEMPERATURE) (Some MEASUREMENT)) "d1"
      (Some (payload_of_record <$>
               ({[ "d1" := reading_record (PStr "Fermenter 1") PNone PNone
                             (PFloat (float_lit "20.5")) (PFloat (float_lit "1.05"))
                             PNone (PStr "FV1") (PStr "IPA") ]} : gmap string pyval)))
    = Ok v.
Proof.
  apply (states_of_fetched_records (serve end_to_end) example_client []
           {[ "d1" := reading_record (PStr "Fermenter 1") PNone PNone
                        (PFloat (float_lit "20.5")) (PFloat (float_lit "1.05"))
                        PNone (PStr "FV1") (PStr "IPA") ]}
           (mk_reading "temperature" "Temperature" (Some degree_celsius)
              (Some TEMPERATURE) (Some MEASUREMENT)) "d1").
  - vm_compute. reflexivity.
  - discriminate.
Defined.
